(** * Snapshot diff engine of mementor-ts: a shallow embedding

    The development follows [src/services/snapshotComparer.ts] (class
    [SnapshotComparer]) and the metadata header of
    [src/services/templateRenderer.ts] ([generateMetadataHeader],
    [createSnapshot]).

    Conventions of the embedding.
    - A JavaScript string is a sequence of code units.  The model keeps the
      code units 0..255 (read as Latin-1), which is what [string] of the
      Standard Library holds.  On that range [toLowerCase], the regular
      expression class [\s] and [trim] are modelled exactly.
    - The JavaScript built-ins used by the source ([split], [includes],
      [startsWith], [replace], [trim], [parseInt], [parseFloat], the
      conversion of a number to a string, [JSON.stringify], [Set]) are
      modelled as functions named after them.
    - A [throw] is a value [inl e] of a sum type, a result is [inr v]. *)

From Stdlib Require Import Bool Arith List ZArith NArith QArith Lia.
From Stdlib Require Import Ascii String.
From Stdlib Require Import Permutation Sorted.
Import ListNotations.

Close Scope Q_scope.
Open Scope list_scope.
Open Scope string_scope.

(** ** Characters and strings *)

Module Js.

(** Code units matched by the regular expression class [\s] and stripped by
    [trim]: TAB, LF, VT, FF, CR, SPACE and NO-BREAK SPACE. *)
Definition isWhiteSpace (c : ascii) : bool :=
  match N_of_ascii c with
  | 9%N | 10%N | 11%N | 12%N | 13%N | 32%N | 160%N => true
  | _ => false
  end.

(** [toLowerCase] on one code unit: A-Z, and the Latin-1 capitals
    U+00C0..U+00DE except the multiplication sign U+00D7. *)
Definition toLowerCaseChar (c : ascii) : ascii :=
  let n := N_of_ascii c in
  if ((65 <=? n) && (n <=? 90))%N
     || ((192 <=? n) && (n <=? 222) && negb (n =? 215))%N
  then ascii_of_N (n + 32)
  else c.

Fixpoint toLowerCase (s : string) : string :=
  match s with
  | EmptyString => EmptyString
  | String c s' => String (toLowerCaseChar c) (toLowerCase s')
  end.

(** [s.startsWith(p)] *)
Fixpoint startsWith (s p : string) : bool :=
  match p, s with
  | EmptyString, _ => true
  | String _ _, EmptyString => false
  | String a p', String b s' => Ascii.eqb a b && startsWith s' p'
  end.

(** [s.includes(p)] *)
Fixpoint includes (s p : string) : bool :=
  startsWith s p ||
  match s with
  | EmptyString => false
  | String _ s' => includes s' p
  end.

(** [s.split(sep)] for a non-empty string separator.  [skip] counts the code
    units of a separator occurrence still to be dropped, [cur] is the piece
    being collected. *)
Fixpoint split_from (sep s : string) (skip : nat) (cur : string) : list string :=
  match s with
  | EmptyString => [cur]
  | String c s' =>
      match skip with
      | S k => split_from sep s' k cur
      | O =>
          if startsWith s sep
          then cur :: split_from sep s' (String.length sep - 1) EmptyString
          else split_from sep s' 0 (cur ++ String c EmptyString)
      end
  end.

Definition split (s sep : string) : list string := split_from sep s 0 EmptyString.

(** [s.split(/\s+/)]: the pieces between maximal runs of white space; a
    leading or trailing run yields an empty first or last piece. *)
Fixpoint splitWhiteSpace_from (s : string) (inRun : bool) (cur : string) : list string :=
  match s with
  | EmptyString => [cur]
  | String c s' =>
      if isWhiteSpace c
      then if inRun
           then splitWhiteSpace_from s' true EmptyString
           else cur :: splitWhiteSpace_from s' true EmptyString
      else splitWhiteSpace_from s' false (cur ++ String c EmptyString)
  end.

Definition splitWhiteSpace (s : string) : list string :=
  splitWhiteSpace_from s false EmptyString.

(** [s.trimStart()], [s.trimEnd()], [s.trim()] *)
Fixpoint trimStart (s : string) : string :=
  match s with
  | EmptyString => EmptyString
  | String c s' => if isWhiteSpace c then trimStart s' else s
  end.

Fixpoint trimEnd (s : string) : string :=
  match s with
  | EmptyString => EmptyString
  | String c s' =>
      match trimEnd s' with
      | EmptyString => if isWhiteSpace c then EmptyString else String c EmptyString
      | t => String c t
      end
  end.

Definition trim (s : string) : string := trimEnd (trimStart s).

(** [s.replace(p, '')] for a string pattern: the first occurrence of [p] is
    removed. *)
Fixpoint drop (n : nat) (s : string) : string :=
  match n, s with
  | O, _ => s
  | S _, EmptyString => EmptyString
  | S k, String _ s' => drop k s'
  end.

Fixpoint removeFirst (s p : string) : string :=
  if startsWith s p then drop (String.length p) s
  else match s with
       | EmptyString => EmptyString
       | String c s' => String c (removeFirst s' p)
       end.

(** [arr.join(sep)] *)
Fixpoint join (sep : string) (l : list string) : string :=
  match l with
  | [] => EmptyString
  | [x] => x
  | x :: rest => x ++ sep ++ join sep rest
  end.

(** ** [Set] of strings: the distinct elements in insertion order *)

Definition has (s : list string) (x : string) : bool :=
  existsb (String.eqb x) s.

Definition add (s : list string) (x : string) : list string :=
  if has s x then s else (s ++ [x])%list.

Definition newSet (l : list string) : list string := fold_left add l [].

Definition size (s : list string) : nat := List.length s.

(** ** Numbers

    A JavaScript number is [NaN], an infinity, or a finite value.  A finite
    value is kept as the decimal [m * 10^e] that JavaScript prints for it;
    the two zeros are not distinguished (the source never tells them
    apart: [-0 || 0], [-0 > 0], [String(-0)] and [JSON.stringify(-0)] behave
    as for [0]).  Arithmetic on decimals is exact: the rounding of binary64
    is not modelled, so the model agrees with JavaScript on the values that
    need no rounding (for instance the integers below 2^53). *)
Inductive number : Type :=
| NaN
| Infinity (negative : bool)
| Finite (m : Z) (e : Z).

Definition zero : number := Finite 0 0.

Definition ofZ (z : Z) : number := Finite z 0.

(** [sameNumber x y]: the two numbers are the same value. *)
Definition sameNumber (x y : number) : bool :=
  match x, y with
  | NaN, NaN => true
  | Infinity a, Infinity b => Bool.eqb a b
  | Finite m1 e1, Finite m2 e2 =>
      let e := Z.min e1 e2 in
      (m1 * 10 ^ (e1 - e) =? m2 * 10 ^ (e2 - e))%Z
  | _, _ => false
  end.

Definition isFinite (x : number) : bool :=
  match x with Finite _ _ => true | _ => false end.

(** [x - y], as the exact decimal difference.  The binary64 difference of the
    source is this value rounded to the nearest binary64 number: for two
    binary64 operands it is [NaN], infinite, positive, negative or zero in
    the same cases, and it is the same number when the exact difference
    needs no rounding (whole numbers below 2^53).  For other operands the
    digits may differ: [0.3 - 0.1] is [0.19999999999999998] in the source
    and [0.2] here. *)
Definition subtract (x y : number) : number :=
  match x, y with
  | NaN, _ | _, NaN => NaN
  | Infinity a, Infinity b => if Bool.eqb a b then NaN else Infinity a
  | Infinity a, Finite _ _ => Infinity a
  | Finite _ _, Infinity b => Infinity (negb b)
  | Finite m1 e1, Finite m2 e2 =>
      let e := Z.min e1 e2 in
      Finite (m1 * 10 ^ (e1 - e) - m2 * 10 ^ (e2 - e))%Z e
  end.

(** [x > 0] *)
Definition gtZero (x : number) : bool :=
  match x with
  | NaN => false
  | Infinity negative => negb negative
  | Finite m _ => (0 <? m)%Z
  end.

(** [0 <= x], used to state the record invariant. *)
Definition nonNegative (x : number) : bool :=
  match x with
  | NaN => false
  | Infinity negative => negb negative
  | Finite m _ => (0 <=? m)%Z
  end.

(** Truthiness of a number: [NaN] and zero are falsy. *)
Definition truthyNumber (x : number) : bool :=
  match x with
  | NaN => false
  | Infinity _ => true
  | Finite m _ => negb (m =? 0)%Z
  end.

(** [x || 0] *)
Definition orZero (x : number) : number :=
  if truthyNumber x then x else zero.

(** *** Decimal digits *)

Definition isDigit (c : ascii) : bool :=
  let n := N_of_ascii c in ((48 <=? n) && (n <=? 57))%N.

Definition digitChar (d : N) : ascii := ascii_of_N (48 + d).

Definition digitValue (c : ascii) : N := (N_of_ascii c - 48)%N.

Fixpoint digitsValue_from (acc : N) (s : string) : N :=
  match s with
  | EmptyString => acc
  | String c s' => digitsValue_from (acc * 10 + digitValue c) s'
  end.

(** The integer written by a string of decimal digits. *)
Definition digitsValue (s : string) : N := digitsValue_from 0 s.

Fixpoint digitsOf_fuel (fuel : nat) (n : N) (acc : string) : string :=
  match fuel with
  | O => acc
  | S f =>
      let acc' := String (digitChar (n mod 10)) acc in
      if (n <? 10)%N then acc' else digitsOf_fuel f (n / 10) acc'
  end.

(** The decimal digits of [n], most significant first, without leading
    zeros ([0] is written [0]). *)
Definition digitsOf (n : N) : string :=
  digitsOf_fuel (S (N.size_nat n)) n EmptyString.

(** The longest prefix of decimal digits. *)
Fixpoint takeDigits (s : string) : string :=
  match s with
  | EmptyString => EmptyString
  | String c s' => if isDigit c then String c (takeDigits s') else EmptyString
  end.

Fixpoint take (n : nat) (s : string) : string :=
  match n, s with
  | O, _ => EmptyString
  | S _, EmptyString => EmptyString
  | S k, String c s' => String c (take k s')
  end.

Fixpoint zeros (n : nat) : string :=
  match n with
  | O => EmptyString
  | S k => String "0" (zeros k)
  end.

Fixpoint stripTrailingZeros (s : string) : string :=
  match s with
  | EmptyString => EmptyString
  | String c s' =>
      match stripTrailingZeros s' with
      | EmptyString => if Ascii.eqb c "0" then EmptyString else String c EmptyString
      | t => String c t
      end
  end.

(** *** Number to string ([String(x)], template literals)

    The algorithm of ECMAScript's [Number::toString] for radix 10, with [s]
    the significant digits, [k] their count and [n] the position of the
    decimal point. *)
Definition toStringPositive (m : N) (e : Z) : string :=
  let ds := digitsOf m in
  let s := stripTrailingZeros ds in
  let k := Z.of_nat (String.length s) in
  let n := (Z.of_nat (String.length ds) + e)%Z in
  if ((k <=? n) && (n <=? 21))%Z then s ++ zeros (Z.to_nat (n - k))
  else if ((0 <? n) && (n <=? 21))%Z
  then take (Z.to_nat n) s ++ "." ++ drop (Z.to_nat n) s
  else if ((-6 <? n) && (n <=? 0))%Z then "0." ++ zeros (Z.to_nat (- n)) ++ s
  else
    let x := (n - 1)%Z in
    let exponent := (if (x <? 0)%Z then "-" else "+") ++ digitsOf (Z.abs_N x) in
    match s with
    | String d EmptyString => String d ("e" ++ exponent)
    | String d rest => String d ("." ++ rest ++ "e" ++ exponent)
    | EmptyString => EmptyString
    end.

Definition toString (x : number) : string :=
  match x with
  | NaN => "NaN"
  | Infinity negative => if negative then "-Infinity" else "Infinity"
  | Finite m e =>
      if (m =? 0)%Z then "0"
      else (if (m <? 0)%Z then "-" else EmptyString) ++ toStringPositive (Z.abs_N m) e
  end.

(** *** [parseInt(s, 10)] and [parseFloat(s)] *)

(** An optional sign in front of a numeric literal. *)
Definition splitSign (s : string) : bool * string :=
  match s with
  | String "-" r => (true, r)
  | String "+" r => (false, r)
  | _ => (false, s)
  end.

Definition signed (negative : bool) (n : N) : Z :=
  if negative then (- Z.of_N n)%Z else Z.of_N n.

Definition parseInt (s : string) : number :=
  let '(negative, r) := splitSign (trimStart s) in
  let ds := takeDigits r in
  match ds with
  | EmptyString => NaN
  | _ => Finite (signed negative (digitsValue ds)) 0
  end.

(** The exponent part [e], [e+] or [e-] followed by digits, when present. *)
Definition parseExponent (s : string) : Z :=
  match s with
  | String c r =>
      if Ascii.eqb c "e" || Ascii.eqb c "E"
      then let '(negative, r') := splitSign r in
           match takeDigits r' with
           | EmptyString => 0%Z
           | ds => signed negative (digitsValue ds)
           end
      else 0%Z
  | EmptyString => 0%Z
  end.

(** An unsigned [StrDecimalLiteral] other than [Infinity]: integer digits,
    fraction, exponent; at least one digit is required. *)
Definition parseDecimal (negative : bool) (r : string) : number :=
  let ip := takeDigits r in
  let r1 := drop (String.length ip) r in
  let '(fp, r2) :=
    match r1 with
    | String "." r' => (takeDigits r', drop (String.length (takeDigits r')) r')
    | _ => (EmptyString, r1)
    end in
  match ip ++ fp with
  | EmptyString => NaN
  | ds =>
      Finite (signed negative (digitsValue ds))
             (parseExponent r2 - Z.of_nat (String.length fp))
  end.

(** The longest prefix that is a [StrDecimalLiteral] gives the value. *)
Definition parseFloat (s : string) : number :=
  let '(negative, r) := splitSign (trimStart s) in
  if startsWith r "Infinity" then Infinity negative
  else parseDecimal negative r.

(** ** [JSON.stringify] on the values held by a metrics record *)

Inductive value : Type :=
| VString (s : string)
| VNumber (x : number)
| VBoolean (b : bool)
| VArray (l : list string).

(** [typeof v === 'number'] *)
Definition isNumber (v : value) : bool :=
  match v with VNumber _ => true | _ => false end.

Definition hexDigit (n : N) : ascii :=
  if (n <? 10)%N then ascii_of_N (48 + n) else ascii_of_N (87 + n).

Definition doubleQuote : ascii := "034"%char.
Definition backslash : ascii := "092"%char.

(** One code unit inside a JSON string literal (ECMAScript's
    [QuoteJSONString]): the short escapes, [\u00XX] for the other control
    characters, and the code unit itself otherwise. *)
Definition quoteChar (c : ascii) : string :=
  match N_of_ascii c with
  | 8%N => String backslash "b"
  | 9%N => String backslash "t"
  | 10%N => String backslash "n"
  | 12%N => String backslash "f"
  | 13%N => String backslash "r"
  | 34%N => String backslash (String doubleQuote EmptyString)
  | 92%N => String backslash (String backslash EmptyString)
  | n =>
      if (n <? 32)%N
      then String backslash
             (String "u" (String "0" (String "0"
                (String (hexDigit (n / 16)) (String (hexDigit (n mod 16)) EmptyString)))))
      else String c EmptyString
  end.

Fixpoint quoteChars (s : string) : string :=
  match s with
  | EmptyString => EmptyString
  | String c s' => quoteChar c ++ quoteChars s'
  end.

Definition quoteJSONString (s : string) : string :=
  String doubleQuote (quoteChars s ++ String doubleQuote EmptyString).

Definition stringify (v : value) : string :=
  match v with
  | VString s => quoteJSONString s
  | VNumber x => if isFinite x then toString x else "null"
  | VBoolean b => if b then "true" else "false"
  | VArray l => "[" ++ join "," (map quoteJSONString l) ++ "]"
  end.

(** ** Further built-ins, used by the report and by the commands *)

(** [s.endsWith(p)] *)
Definition endsWith (s p : string) : bool :=
  (String.length p <=? String.length s)%nat
  && String.eqb (drop (String.length s - String.length p) s) p.

(** [x < 0] *)
Definition ltZero (x : number) : bool :=
  match x with
  | NaN => false
  | Infinity negative => negative
  | Finite m _ => (m <? 0)%Z
  end.

(** [toUpperCase] on one code unit: a-z, and the Latin-1 small letters
    U+00E0..U+00FE except the division sign U+00F7.  The upper-case forms of
    U+00B5, U+00DF and U+00FF lie outside the code units kept here; the
    source applies [toUpperCase] to the first letter of a field name of the
    metrics record, which is an ASCII letter. *)
Definition toUpperCaseChar (c : ascii) : ascii :=
  let n := N_of_ascii c in
  if ((97 <=? n) && (n <=? 122))%N
     || ((224 <=? n) && (n <=? 254) && negb (n =? 247))%N
  then ascii_of_N (n - 32)
  else c.

(** A value inside a template literal: a string as it is, a number by
    [toString], a boolean as [true] or [false], an array by joining its
    elements with a comma. *)
Definition valueToString (v : value) : string :=
  match v with
  | VString s => s
  | VNumber x => toString x
  | VBoolean b => if b then "true" else "false"
  | VArray l => join "," l
  end.

(** [arr.sort()] on strings: ascending in the order of the code units.  The
    sorted arrangement of a list of strings is unique, so the algorithm does
    not matter; insertion is used. *)
Fixpoint insert (x : string) (l : list string) : list string :=
  match l with
  | [] => [x]
  | y :: rest => if String.leb x y then x :: l else y :: insert x rest
  end.

Definition sort (l : list string) : list string := fold_right insert [] l.

End Js.

(** ** Content differ *)

Record ModifiedPair : Type := mkModified { mod_old : string; mod_new : string }.

Record ContentDiff : Type := mkContent {
  added : list string;
  removed : list string;
  modified : list ModifiedPair
}.

(** The quotient [commonWords.length / Math.max(words.size, otherWords.size)]
    of two array lengths.  Both operands are small integers, and a quotient
    of two integers below 10^15 compares with the literal [0.7] in binary64
    exactly as the rational quotient compares with 7/10, so the quotient is
    kept as a rational; [0/0] is [NaN] and [c/0] is [Infinity]. *)
Inductive Quotient : Type :=
| QNaN
| QInfinity
| QFinite (q : Q).

Definition divide (c m : nat) : Quotient :=
  match m with
  | O => match c with O => QNaN | S _ => QInfinity end
  | S _ => QFinite (Z.of_nat c # Pos.of_nat m)%Q
  end.

Definition threshold : Q := (7 # 10)%Q.

(** [similarity >= threshold] *)
Definition geThreshold (s : Quotient) : bool :=
  match s with
  | QNaN => false
  | QInfinity => true
  | QFinite q => Qle_bool threshold q
  end.

Definition wordSet (line : string) : list string :=
  Js.newSet (Js.splitWhiteSpace (Js.toLowerCase line)).

Definition similarity (words otherWords : list string) : Quotient :=
  let commonWords := filter (fun word => Js.has otherWords word) words in
  divide (List.length commonWords) (Nat.max (Js.size words) (Js.size otherWords)).

(** The [for] loop of [findSimilarLine] over [lines]. *)
Fixpoint findSimilarLine_loop (words : list string) (lines : list string) : option string :=
  match lines with
  | [] => None
  | otherLine :: rest =>
      if geThreshold (similarity words (wordSet otherLine))
      then Some otherLine
      else findSimilarLine_loop words rest
  end.

Definition findSimilarLine (line : string) (lines : list string) : option string :=
  findSimilarLine_loop (wordSet line) lines.

(** Truthiness of a [string | null]: [null] and the empty string are falsy. *)
Definition truthy (r : option string) : bool :=
  match r with
  | None => false
  | Some s => negb (String.eqb s EmptyString)
  end.

(** The non-null assertion [r!] on a truthy value. *)
Definition unwrap (r : option string) : string :=
  match r with Some s => s | None => EmptyString end.

(** One iteration of the first loop of [compareContent]; the state is the
    pair of the arrays [added] and [modified]. *)
Definition compareContent_step (oldLines oldSet : list string)
    (st : list string * list ModifiedPair) (line : string)
  : list string * list ModifiedPair :=
  let '(added, modified) := st in
  if negb (Js.has oldSet line)
  then if truthy (findSimilarLine line oldLines)
       then (added, (modified ++ [mkModified (unwrap (findSimilarLine line oldLines)) line])%list)
       else ((added ++ [line])%list, modified)
  else st.

Definition compareContent (oldLines newLines : list string) : ContentDiff :=
  let oldSet := Js.newSet oldLines in
  let newSet := Js.newSet newLines in
  let '(added, modified) :=
    fold_left (compareContent_step oldLines oldSet) newLines ([], []) in
  let removed :=
    filter (fun line =>
              negb (Js.has newSet line)
              && negb (existsb (fun m => String.eqb (mod_old m) line) modified))
           oldLines in
  mkContent added removed modified.

(** ** Health metrics and the snapshot parser *)

Record HealthMetrics : Type := mkHealthMetrics {
  last_updated : string;
  word_count : Js.number;
  reading_time : Js.number;
  has_todos : bool;
  todo_count : Js.number;
  linked_files : list string;
  broken_links : list string;
  completion_percentage : Js.number;
  section_count : Js.number;
  section_depth : Js.number;
  code_blocks : Js.number;
  avg_section_length : Js.number;
  readability_score : Js.number;
  last_snapshot_delta : Js.number
}.

Record SnapshotMetadata : Type := mkSnapshotMetadata {
  version : string;
  created_at : string;
  updated_at : string;
  health_metrics : option HealthMetrics
}.

Record Snapshot : Type := mkSnapshot {
  metadata : SnapshotMetadata;
  content : list string
}.

(** What a call can throw: a failed [fs.readFile], an [Error] with its
    message, or the [TypeError] of a method call on [undefined]. *)
Inductive exn : Type :=
| ReadError (filePath : string)
| Error (message : string)
| TypeError.

Definition FormatError : exn :=
  Error "Invalid snapshot format: no metadata section found".

Definition LF : string := String "010" EmptyString.

(** [extractMetric(lines, key, isPercentage)] *)
Definition extractMetric (lines : list string) (key : string) (isPercentage : bool)
  : exn + Js.number :=
  match find (fun l => Js.includes l ("- " ++ key ++ ":")) lines with
  | None => inr Js.zero
  | Some line =>
      if String.eqb line EmptyString then inr Js.zero
      else
        match nth_error (Js.split line ":") 1 with
        | None => inl TypeError
        | Some piece =>
            let value := Js.trim piece in
            if isPercentage
            then inr (Js.parseFloat (Js.removeFirst value "%"))
            else match nth_error (Js.split value " ") 0 with
                 | Some token => inr (Js.parseInt token)
                 | None => inr Js.NaN
                 end
        end
  end.

(** [lines.find(line => line.startsWith(label))?.split(': ')[1] || ''] *)
Definition headerField (lines : list string) (label : string) : string :=
  match find (fun line => Js.startsWith line label) lines with
  | None => EmptyString
  | Some line =>
      match nth_error (Js.split line ": ") 1 with
      | Some v => v
      | None => EmptyString
      end
  end.

(** Sequencing of calls that may throw. *)
Definition bind {A B : Type} (c : exn + A) (k : A -> exn + B) : exn + B :=
  match c with
  | inl e => inl e
  | inr a => k a
  end.

Notation "x <- c ;; k" := (bind c (fun x => k))
  (at level 61, c at next level, right associativity).

(** The object literal [healthMetrics] of [parseSnapshot]; its fields are
    evaluated in order. *)
Definition parseHealthMetrics (metadataLines : list string) (updated : string)
  : exn + HealthMetrics :=
  wc <- extractMetric metadataLines "Word Count" false ;;
  rt <- extractMetric metadataLines "Reading Time" false ;;
  ht <- extractMetric metadataLines "TODOs" false ;;
  tc <- extractMetric metadataLines "TODOs" false ;;
  cp <- extractMetric metadataLines "Completion" true ;;
  sc <- extractMetric metadataLines "Sections" false ;;
  cb <- extractMetric metadataLines "Code Blocks" false ;;
  ld <- extractMetric metadataLines "Days Since Last Snapshot" false ;;
  inr {| last_updated := updated;
         word_count := Js.orZero wc;
         reading_time := Js.orZero rt;
         has_todos := Js.gtZero ht;
         todo_count := Js.orZero tc;
         linked_files := [];
         broken_links := [];
         completion_percentage := Js.orZero cp;
         section_count := Js.orZero sc;
         section_depth := Js.zero;
         code_blocks := Js.orZero cb;
         avg_section_length := Js.zero;
         readability_score := Js.zero;
         last_snapshot_delta := Js.orZero ld |}.

(** [lines.findIndex(p)] *)
Fixpoint findIndex {A : Type} (p : A -> bool) (l : list A) : option nat :=
  match l with
  | [] => None
  | x :: rest => if p x then Some O else option_map S (findIndex p rest)
  end.

(** [parseSnapshot] after the file has been read. *)
Definition parseDocument (text : string) : exn + Snapshot :=
  let lines := Js.split text LF in
  match findIndex (fun line => String.eqb line "---") lines with
  | None => inl FormatError
  | Some metadataEndIndex =>
      let metadataLines := firstn metadataEndIndex lines in
      let contentLines := skipn (metadataEndIndex + 1) lines in
      let version := headerField metadataLines "Version:" in
      let created := headerField metadataLines "Created:" in
      let updated := headerField metadataLines "Updated:" in
      healthMetrics <- parseHealthMetrics metadataLines updated ;;
      inr {| metadata := {| version := version;
                            created_at := created;
                            updated_at := updated;
                            health_metrics := Some healthMetrics |};
             content := filter (fun line => negb (String.eqb (Js.trim line) EmptyString))
                               contentLines |}
  end.

(** The files that can be read, by path. *)
Definition FileSystem : Type := string -> option string.

Definition parseSnapshot (fs : FileSystem) (filePath : string) : exn + Snapshot :=
  match fs filePath with
  | None => inl (ReadError filePath)
  | Some text => parseDocument text
  end.

(** ** Metric differ *)

Inductive MetricKey : Type :=
| k_last_updated | k_word_count | k_reading_time | k_has_todos | k_todo_count
| k_linked_files | k_broken_links | k_completion_percentage | k_section_count
| k_section_depth | k_code_blocks | k_avg_section_length | k_readability_score
| k_last_snapshot_delta.

Definition MetricKey_eqb (a b : MetricKey) : bool :=
  match a, b with
  | k_last_updated, k_last_updated | k_word_count, k_word_count
  | k_reading_time, k_reading_time | k_has_todos, k_has_todos
  | k_todo_count, k_todo_count | k_linked_files, k_linked_files
  | k_broken_links, k_broken_links
  | k_completion_percentage, k_completion_percentage
  | k_section_count, k_section_count | k_section_depth, k_section_depth
  | k_code_blocks, k_code_blocks | k_avg_section_length, k_avg_section_length
  | k_readability_score, k_readability_score
  | k_last_snapshot_delta, k_last_snapshot_delta => true
  | _, _ => false
  end.

(** [Object.keys(m)]: the fields in the order of the object literal. *)
Definition keys : list MetricKey :=
  [k_last_updated; k_word_count; k_reading_time; k_has_todos; k_todo_count;
   k_linked_files; k_broken_links; k_completion_percentage; k_section_count;
   k_section_depth; k_code_blocks; k_avg_section_length; k_readability_score;
   k_last_snapshot_delta].

(** [m[key]] *)
Definition get (m : HealthMetrics) (key : MetricKey) : Js.value :=
  match key with
  | k_last_updated => Js.VString (last_updated m)
  | k_word_count => Js.VNumber (word_count m)
  | k_reading_time => Js.VNumber (reading_time m)
  | k_has_todos => Js.VBoolean (has_todos m)
  | k_todo_count => Js.VNumber (todo_count m)
  | k_linked_files => Js.VArray (linked_files m)
  | k_broken_links => Js.VArray (broken_links m)
  | k_completion_percentage => Js.VNumber (completion_percentage m)
  | k_section_count => Js.VNumber (section_count m)
  | k_section_depth => Js.VNumber (section_depth m)
  | k_code_blocks => Js.VNumber (code_blocks m)
  | k_avg_section_length => Js.VNumber (avg_section_length m)
  | k_readability_score => Js.VNumber (readability_score m)
  | k_last_snapshot_delta => Js.VNumber (last_snapshot_delta m)
  end.

Record Change : Type := mkChange {
  chg_old : Js.value;
  chg_new : Js.value;
  chg_delta : option Js.number
}.

(** The [changes] object: its entries in insertion order. *)
Definition Changes : Type := list (MetricKey * Change).

Fixpoint lookup (changes : Changes) (key : MetricKey) : option Change :=
  match changes with
  | [] => None
  | (k, c) :: rest => if MetricKey_eqb k key then Some c else lookup rest key
  end.

(** [changes[key] = c]: an existing entry keeps its place. *)
Fixpoint assign (changes : Changes) (key : MetricKey) (c : Change) : Changes :=
  match changes with
  | [] => [(key, c)]
  | (k, c') :: rest =>
      if MetricKey_eqb k key then (k, c) :: rest else (k, c') :: assign rest key c
  end.

(** The body of the [for] loop of [compareMetrics]. *)
Definition compareMetrics_step (old current : HealthMetrics)
    (changes : Changes) (key : MetricKey) : Changes :=
  let oldValue := get old key in
  let newValue := get current key in
  if negb (String.eqb (Js.stringify oldValue) (Js.stringify newValue))
  then
    let entry := mkChange oldValue newValue None in
    let changes := assign changes key entry in
    match oldValue, newValue with
    | Js.VNumber o, Js.VNumber n =>
        assign changes key (mkChange oldValue newValue (Some (Js.subtract n o)))
    | _, _ => changes
    end
  else changes.

Definition compareMetrics (old current : HealthMetrics) : Changes :=
  fold_left (compareMetrics_step old current) keys [].

(** ** Comparison of two snapshots *)

Record MetricsDiff : Type := mkMetricsDiff {
  metrics_old : HealthMetrics;
  metrics_new : HealthMetrics;
  changes : Changes
}.

Record SnapshotDiff : Type := mkSnapshotDiff {
  oldPath : string;
  newPath : string;
  metrics : MetricsDiff;
  diff_content : ContentDiff
}.

(** Which of the two concurrent parses settles first; [Promise.all] rejects
    with the error of the first one that fails. *)
Inductive Side : Type := OldFirst | NewFirst.

(** [health_metrics!] followed by a use of the record: on [undefined] the
    first property access throws. *)
Definition assertMetrics (m : option HealthMetrics) : exn + HealthMetrics :=
  match m with
  | Some h => inr h
  | None => inl TypeError
  end.

Definition compareSnapshots (fs : FileSystem) (first : Side)
    (oldPath newPath : string) : exn + SnapshotDiff :=
  match parseSnapshot fs oldPath, parseSnapshot fs newPath with
  | inr oldSnapshot, inr newSnapshot =>
      o <- assertMetrics (health_metrics (metadata oldSnapshot)) ;;
      n <- assertMetrics (health_metrics (metadata newSnapshot)) ;;
      inr {| oldPath := oldPath;
             newPath := newPath;
             metrics := {| metrics_old := o;
                           metrics_new := n;
                           changes := compareMetrics o n |};
             diff_content := compareContent (content oldSnapshot) (content newSnapshot) |}
  | inl e, inr _ => inl e
  | inr _, inl e => inl e
  | inl e1, inl e2 => inl (match first with OldFirst => e1 | NewFirst => e2 end)
  end.

(** ** The metadata header written by the template renderer *)

Record Dependency : Type := mkDependency { dep_name : string; dep_version : string }.

Record DocumentationMetadata : Type := mkDocumentationMetadata {
  doc_version : string;
  doc_created_at : string;
  doc_updated_at : string;
  dependencies : list Dependency;
  doc_health_metrics : option HealthMetrics;
  tags : list string
}.

(** The lines pushed before the metrics block. *)
Definition headerPreamble (md : DocumentationMetadata) : list string :=
  ["=== MEMENTOR SNAPSHOT ===";
   "Version: " ++ doc_version md;
   "Created: " ++ doc_created_at md;
   "Updated: " ++ doc_updated_at md;
   EmptyString;
   "Dependencies:"]
  ++ map (fun dep => "- " ++ dep_name dep ++ ": " ++ dep_version dep) (dependencies md).

(** The lines pushed for [metadata.health_metrics]. *)
Definition headerMetrics (m : HealthMetrics) : list string :=
  [EmptyString;
   "Health Metrics:";
   "- Word Count: " ++ Js.toString (word_count m);
   "- Reading Time: " ++ Js.toString (reading_time m) ++ " minutes";
   "- TODOs: " ++ Js.toString (todo_count m);
   "- Completion: " ++ Js.toString (completion_percentage m) ++ "%";
   "- Sections: " ++ Js.toString (section_count m);
   "- Code Blocks: " ++ Js.toString (code_blocks m);
   "- Days Since Last Snapshot: " ++ Js.toString (last_snapshot_delta m)].

Definition headerTags (md : DocumentationMetadata) : list string :=
  match tags md with
  | [] => []
  | ts => [EmptyString; "Tags:"] ++ map (fun tag => "- " ++ tag) ts
  end.

Definition headerLines (md : DocumentationMetadata) : list string :=
  (headerPreamble md
   ++ match doc_health_metrics md with
      | Some m => headerMetrics m
      | None => []
      end
   ++ headerTags md)%list.

Definition generateMetadataHeader (md : DocumentationMetadata) : string :=
  Js.join LF (headerLines md).

(** [createSnapshot] once the template has been rendered to [rendered]. *)
Definition createSnapshot (md : option DocumentationMetadata) (rendered : string) : string :=
  match md with
  | Some m => generateMetadataHeader m ++ LF ++ LF ++ "---" ++ LF ++ LF ++ rendered
  | None => rendered
  end.

(** ** Notions used to state the properties *)

(** A new line that is reported as added, resp. as the new side of a
    modified pair, and the pair that is then pushed. *)
Definition isAdded (oldLines : list string) (line : string) : bool :=
  negb (Js.has (Js.newSet oldLines) line)
  && negb (truthy (findSimilarLine line oldLines)).

Definition isModified (oldLines : list string) (line : string) : bool :=
  negb (Js.has (Js.newSet oldLines) line)
  && truthy (findSimilarLine line oldLines).

Definition pairOf (oldLines : list string) (line : string) : ModifiedPair :=
  mkModified (unwrap (findSimilarLine line oldLines)) line.

(** The similarity test of the specification: the two lines share at least
    70% of their words, counted over the larger of the two word sets. *)
Definition commonWords (a b : string) : nat :=
  List.length (filter (fun word => Js.has (wordSet b) word) (wordSet a)).

Definition largerSize (a b : string) : nat :=
  Nat.max (Js.size (wordSet a)) (Js.size (wordSet b)).

Definition similar (a b : string) : bool :=
  geThreshold (similarity (wordSet a) (wordSet b)).

(** The first line of the old sequence that meets the threshold. *)
Definition firstSimilar (line : string) (oldLines : list string) : option string :=
  find (similar line) oldLines.

Definition ExactlyOne (A B C : Prop) : Prop :=
  (A /\ ~ B /\ ~ C) \/ (~ A /\ B /\ ~ C) \/ (~ A /\ ~ B /\ C).

(** *** The similarity test as the specification words it

    These definitions do not use the functions of the source: they are what
    the comparison of the source is measured against. *)

(** The words of a text: the maximal runs of code units that are not white
    space; [cur] is the word being read. *)
Fixpoint words_from (s cur : string) : list string :=
  match s with
  | EmptyString =>
      match cur with
      | EmptyString => []
      | _ => [cur]
      end
  | String c s' =>
      if Js.isWhiteSpace c
      then match cur with
           | EmptyString => words_from s' EmptyString
           | _ => cur :: words_from s' EmptyString
           end
      else words_from s' (cur ++ String c EmptyString)
  end.

(** A list without its repetitions. *)
Fixpoint distinct (l : list string) : list string :=
  match l with
  | [] => []
  | x :: rest => if existsb (String.eqb x) rest then distinct rest else x :: distinct rest
  end.

(** The word set of a line: its case-folded words. *)
Definition wordsOf (line : string) : list string :=
  distinct (words_from (Js.toLowerCase line) EmptyString).

(** The size of the intersection of two sets. *)
Definition overlap (A B : list string) : nat :=
  List.length (filter (fun w => existsb (String.eqb w) B) A).

(** [|A n B| / max(|A|, |B|) >= 0.70], written without the division; the
    quotient of two empty sets is not a number and meets no threshold. *)
Definition atLeast70 (A B : list string) : bool :=
  let larger := Nat.max (List.length A) (List.length B) in
  ((0 <? larger) && (7 * larger <=? 10 * overlap A B))%nat.

(** The test of the specification on two lines. *)
Definition similarAsStated (a b : string) : bool :=
  atLeast70 (wordsOf a) (wordsOf b).

Definition startsWithWhiteSpace (s : string) : bool :=
  match s with
  | String c _ => Js.isWhiteSpace c
  | EmptyString => false
  end.

Fixpoint endsWithWhiteSpace (s : string) : bool :=
  match s with
  | EmptyString => false
  | String c EmptyString => Js.isWhiteSpace c
  | String _ s' => endsWithWhiteSpace s'
  end.

(** The lines whose split at white space has an empty piece: the empty line
    and the lines that start or end with white space. *)
Definition hasEmptyPiece (line : string) : bool :=
  String.eqb line EmptyString || startsWithWhiteSpace line || endsWithWhiteSpace line.

(** The word set that the split of the source amounts to: the words of the
    line, and the empty string when the split has an empty piece. *)
Definition splitWords (line : string) : list string :=
  if hasEmptyPiece line then EmptyString :: wordsOf line else wordsOf line.

Definition similarBySplit (a b : string) : bool :=
  atLeast70 (splitWords a) (splitWords b).

(** A new line that is not in the old sequence is paired with the first old
    line that passes a test when there is one, and is added otherwise. *)
Definition pairedByTest (test : string -> string -> bool)
    (oldLines newLines : list string) (line : string) : Prop :=
  let d := compareContent oldLines newLines in
  match find (test line) oldLines with
  | Some o =>
      In (mkModified o line) (modified d)
      /\ ~ In line (added d)
      /\ (forall p, In p (modified d) -> mod_new p = line -> mod_old p = o)
  | None =>
      In line (added d) /\ ~ In line (map mod_new (modified d))
  end.

(** The new lines fall in exactly one of: matched verbatim, added, new side
    of a modified pair. *)
Definition newSidePartition (oldLines newLines : list string) : Prop :=
  let d := compareContent oldLines newLines in
  forall line, In line newLines ->
    ExactlyOne (In line oldLines)
               (In line (added d))
               (In line (map mod_new (modified d))).

(** The old lines fall in exactly one of: matched verbatim, removed, old
    side of a modified pair. *)
Definition oldSidePartition (oldLines newLines : list string) : Prop :=
  let d := compareContent oldLines newLines in
  forall line, In line oldLines ->
    ExactlyOne (In line newLines)
               (In line (removed d))
               (In line (map mod_old (modified d))).

(** A new line that is not in the old sequence is paired with the first old
    line meeting the threshold when there is one, and is added otherwise. *)
Definition pairedByThreshold (oldLines newLines : list string) (line : string) : Prop :=
  let d := compareContent oldLines newLines in
  match firstSimilar line oldLines with
  | Some o =>
      In (mkModified o line) (modified d)
      /\ ~ In line (added d)
      /\ (forall p, In p (modified d) -> mod_new p = line -> mod_old p = o)
  | None =>
      In line (added d) /\ ~ In line (map mod_new (modified d))
  end.

(** The metrics that have a line in the header: label, percentage flag and
    the field of the record that receives the value. *)
Definition metricFields : list (string * bool * (HealthMetrics -> Js.number)) :=
  [("Word Count", false, word_count);
   ("Reading Time", false, reading_time);
   ("TODOs", false, todo_count);
   ("Completion", true, completion_percentage);
   ("Sections", false, section_count);
   ("Code Blocks", false, code_blocks);
   ("Days Since Last Snapshot", false, last_snapshot_delta)].

(** The first line that carries the label of a metric. *)
Definition metricLine (lines : list string) (key : string) : option string :=
  find (fun l => Js.includes l ("- " ++ key ++ ":")) lines.

(** The text that [extractMetric] hands to [parseInt] or [parseFloat]. *)
Definition metricText (lines : list string) (key : string) (isPercentage : bool)
  : option string :=
  match metricLine lines key with
  | None => None
  | Some line =>
      match nth_error (Js.split line ":") 1 with
      | None => None
      | Some piece =>
          if isPercentage then Some (Js.removeFirst (Js.trim piece) "%")
          else nth_error (Js.split (Js.trim piece) " ") 0
      end
  end.

(** Occurrence of a code unit in a string. *)
Fixpoint occurs (c : ascii) (s : string) : bool :=
  match s with
  | EmptyString => false
  | String d s' => Ascii.eqb c d || occurs c s'
  end.

(** The body lines kept by the parser. *)
Definition notBlank (line : string) : bool :=
  negb (String.eqb (Js.trim line) EmptyString).

(** The metadata read from the lines in front of the separator. *)
Definition metadataOf (metadataLines : list string) (m : HealthMetrics) : SnapshotMetadata :=
  {| version := headerField metadataLines "Version:";
     created_at := headerField metadataLines "Created:";
     updated_at := headerField metadataLines "Updated:";
     health_metrics := Some m |}.

Definition isError {A : Type} (r : exn + A) : bool :=
  match r with inl _ => true | inr _ => false end.

(** The lines in front of the first separator line. *)
Definition metadataLinesOf (text : string) : list string :=
  let lines := Js.split text LF in
  match findIndex (fun line => String.eqb line "---") lines with
  | Some metadataEndIndex => firstn metadataEndIndex lines
  | None => []
  end.

(** The invariant of the data model: the numeric fields are non-negative and
    [has_todos] is [todo_count > 0]. *)
Definition recordInvariant (m : HealthMetrics) : Prop :=
  Js.nonNegative (word_count m) = true
  /\ Js.nonNegative (reading_time m) = true
  /\ Js.nonNegative (todo_count m) = true
  /\ Js.nonNegative (completion_percentage m) = true
  /\ Js.nonNegative (section_count m) = true
  /\ Js.nonNegative (section_depth m) = true
  /\ Js.nonNegative (code_blocks m) = true
  /\ Js.nonNegative (avg_section_length m) = true
  /\ Js.nonNegative (readability_score m) = true
  /\ Js.nonNegative (last_snapshot_delta m) = true
  /\ has_todos m = Js.gtZero (todo_count m).

(** The text parsed for a metric is written with a minus sign. *)
Definition writtenNegative (lines : list string) (label : string) (isPercentage : bool) : Prop :=
  exists t, metricText lines label isPercentage = Some t
            /\ Js.startsWith (Js.trimStart t) "-" = true.

(** A file system with two snapshot files, used in examples. *)
Definition twoFiles (oldText newText : string) : FileSystem :=
  fun filePath =>
    if String.eqb filePath "old.md" then Some oldText
    else if String.eqb filePath "new.md" then Some newText
    else None.

(** Every code unit of a string satisfies a test. *)
Fixpoint allChars (p : ascii -> bool) (s : string) : bool :=
  match s with
  | EmptyString => true
  | String c s' => p c && allChars p s'
  end.

(** Reading back one code unit of a JSON string literal. *)
Definition hexValue (c : ascii) : option N :=
  let n := N_of_ascii c in
  if ((48 <=? n) && (n <=? 57))%N then Some (n - 48)%N
  else if ((97 <=? n) && (n <=? 102))%N then Some (n - 87)%N
  else None.

Definition decodeChar (s : string) : option (ascii * string) :=
  match s with
  | EmptyString => None
  | String c r =>
      if Ascii.eqb c Js.backslash
      then match r with
           | String e r' =>
               match N_of_ascii e with
               | 98%N => Some (ascii_of_N 8, r')
               | 116%N => Some (ascii_of_N 9, r')
               | 110%N => Some (ascii_of_N 10, r')
               | 102%N => Some (ascii_of_N 12, r')
               | 114%N => Some (ascii_of_N 13, r')
               | 34%N => Some (Js.doubleQuote, r')
               | 92%N => Some (Js.backslash, r')
               | 117%N =>
                   match r' with
                   | String _ (String _ (String h (String l r''))) =>
                       match hexValue h, hexValue l with
                       | Some a, Some b => Some (ascii_of_N (16 * a + b), r'')
                       | _, _ => None
                       end
                   | _ => None
                   end
               | _ => None
               end
           | EmptyString => None
           end
      else if Ascii.eqb c Js.doubleQuote then None
      else Some (c, r)
  end.

(** Deep equality of two values of a metrics record. *)
Definition sameValue (a b : Js.value) : Prop :=
  match a, b with
  | Js.VString s, Js.VString t => s = t
  | Js.VNumber x, Js.VNumber y => Js.sameNumber x y = true
  | Js.VBoolean p, Js.VBoolean q => p = q
  | Js.VArray l, Js.VArray l' => l = l'
  | _, _ => False
  end.

(** The value is not [NaN] or an infinity. *)
Definition finiteValue (v : Js.value) : Prop :=
  match v with
  | Js.VNumber x => Js.isFinite x = true
  | _ => True
  end.

(** The entry that the metric differ records for a field, if any. *)
Definition changeOf (old current : HealthMetrics) (key : MetricKey) : option Change :=
  if String.eqb (Js.stringify (get old key)) (Js.stringify (get current key))
  then None
  else Some (mkChange (get old key) (get current key)
                      match get old key, get current key with
                      | Js.VNumber o, Js.VNumber n => Some (Js.subtract n o)
                      | _, _ => None
                      end).

(** What follows a serialized element of an array. *)
Definition arrayTail (l : list string) : string :=
  match l with
  | [] => EmptyString
  | _ => "," ++ Js.join "," (map Js.quoteJSONString l)
  end.

(** A record whose fields are empty or zero, the completion percentage apart
    (used to build records that differ in that field only). *)
Definition emptyMetrics (completion : Js.number) : HealthMetrics :=
  {| last_updated := EmptyString;
     word_count := Js.zero;
     reading_time := Js.zero;
     has_todos := false;
     todo_count := Js.zero;
     linked_files := [];
     broken_links := [];
     completion_percentage := completion;
     section_count := Js.zero;
     section_depth := Js.zero;
     code_blocks := Js.zero;
     avg_section_length := Js.zero;
     readability_score := Js.zero;
     last_snapshot_delta := Js.zero |}.

(** The metrics block of the header, as a function of the printed values. *)
Definition metricsBlock (v1 v2 v3 v4 v5 v6 v7 : string) : list string :=
  [EmptyString;
   "Health Metrics:";
   "- Word Count: " ++ v1;
   "- Reading Time: " ++ v2 ++ " minutes";
   "- TODOs: " ++ v3;
   "- Completion: " ++ v4 ++ "%";
   "- Sections: " ++ v5;
   "- Code Blocks: " ++ v6;
   "- Days Since Last Snapshot: " ++ v7].

(** Code units that are neither white space, nor a colon, nor a percent
    sign. *)
Definition plainChar (c : ascii) : bool :=
  negb (Js.isWhiteSpace c) && negb (Ascii.eqb c ":") && negb (Ascii.eqb c "%").

(** A count as the data model has it: a non-negative integer, here below
    10^21, from where on JavaScript prints a number in exponential
    notation. *)
Definition isCount (x : Js.number) (w : Z) : Prop :=
  (0 <= w < 10 ^ 21)%Z /\ Js.sameNumber x (Js.ofZ w) = true.

(** No line of the rendered text carries the label of a metric or is the
    separator. *)
Definition carriesLabel (line : string) : bool :=
  existsb (fun entry => Js.includes line ("- " ++ fst (fst entry) ++ ":")) metricFields.

Definition cleanLine (line : string) : bool :=
  negb (carriesLabel line) && negb (String.eqb line "---").

Definition cleanPreamble (md : DocumentationMetadata) : Prop :=
  forall line, In line (Js.split (Js.join LF (headerPreamble md)) LF) ->
               cleanLine line = true.

(** The metadata that [SnapshotGenerator.createSnapshot] passes to the
    renderer, for given time stamps and metrics. *)
Definition generatorMetadata (created updated : string) (m : HealthMetrics)
  : DocumentationMetadata :=
  {| doc_version := "1.0.0";
     doc_created_at := created;
     doc_updated_at := updated;
     dependencies := [mkDependency "mementor-ts" "1.0.0"];
     doc_health_metrics := Some m;
     tags := ["documentation"; "snapshot"] |}.

(** The seven metrics with a header line have the same values in two
    records. *)
Definition sameRepresentedMetrics (p m : HealthMetrics) : Prop :=
  Js.sameNumber (word_count p) (word_count m) = true
  /\ Js.sameNumber (reading_time p) (reading_time m) = true
  /\ Js.sameNumber (todo_count p) (todo_count m) = true
  /\ Js.sameNumber (completion_percentage p) (completion_percentage m) = true
  /\ Js.sameNumber (section_count p) (section_count m) = true
  /\ Js.sameNumber (code_blocks p) (code_blocks m) = true
  /\ Js.sameNumber (last_snapshot_delta p) (last_snapshot_delta m) = true.

(** Sample metrics used in examples. *)
Definition sampleMetrics (words : Js.number) : HealthMetrics :=
  {| last_updated := "2024-05-01T08:30:00.000Z";
     word_count := words;
     reading_time := Js.Finite 3 0;
     has_todos := true;
     todo_count := Js.Finite 3 0;
     linked_files := [];
     broken_links := [];
     completion_percentage := Js.Finite 625 (-1);
     section_count := Js.Finite 12 0;
     section_depth := Js.Finite 3 0;
     code_blocks := Js.Finite 0 0;
     avg_section_length := Js.Finite 45 0;
     readability_score := Js.zero;
     last_snapshot_delta := Js.Finite 7 0 |}.

(** ** The report of a comparison ([formatDiff]) *)

Module Node.

(** [path.basename(p)] in its POSIX flavour: trailing slashes are ignored
    and the part after the last remaining slash is returned. *)
Fixpoint trimSlashes (p : string) : string :=
  match p with
  | EmptyString => EmptyString
  | String c p' =>
      match trimSlashes p' with
      | EmptyString => if Ascii.eqb c "/" then EmptyString else String c EmptyString
      | t => String c t
      end
  end.

Fixpoint lastSegment (p cur : string) : string :=
  match p with
  | EmptyString => cur
  | String c p' =>
      if Ascii.eqb c "/" then lastSegment p' EmptyString
      else lastSegment p' (cur ++ String c EmptyString)
  end.

Definition basename (p : string) : string :=
  lastSegment (trimSlashes p) EmptyString.

End Node.

(** The name of a field, as [Object.entries] gives it. *)
Definition keyName (key : MetricKey) : string :=
  match key with
  | k_last_updated => "last_updated"
  | k_word_count => "word_count"
  | k_reading_time => "reading_time"
  | k_has_todos => "has_todos"
  | k_todo_count => "todo_count"
  | k_linked_files => "linked_files"
  | k_broken_links => "broken_links"
  | k_completion_percentage => "completion_percentage"
  | k_section_count => "section_count"
  | k_section_depth => "section_depth"
  | k_code_blocks => "code_blocks"
  | k_avg_section_length => "avg_section_length"
  | k_readability_score => "readability_score"
  | k_last_snapshot_delta => "last_snapshot_delta"
  end.

(** [word.charAt(0).toUpperCase() + word.slice(1)] *)
Definition capitalize (word : string) : string :=
  match word with
  | EmptyString => EmptyString
  | String c rest => String (Js.toUpperCaseChar c) rest
  end.

Definition formattedKey (key : string) : string :=
  Js.join " " (map capitalize (Js.split key "_")).

(** The arrow and the three trend marks of the report.  The source writes
    them as characters outside the code units kept by the model, so they are
    taken as they come. *)
Record Marks : Type := mkMarks {
  arrow : string;
  trendUp : string;
  trendDown : string;
  trendFlat : string
}.

(** [change.delta] in a comparison or in a template literal; a missing
    [delta] is [undefined], which compares false with 0. *)
Definition deltaGtZero (delta : option Js.number) : bool :=
  match delta with Some d => Js.gtZero d | None => false end.

Definition deltaLtZero (delta : option Js.number) : bool :=
  match delta with Some d => Js.ltZero d | None => false end.

Definition deltaGeZero (delta : option Js.number) : bool :=
  match delta with Some d => Js.nonNegative d | None => false end.

Definition deltaToString (delta : option Js.number) : string :=
  match delta with Some d => Js.toString d | None => "undefined" end.

(** The second line pushed for an entry of the changes. *)
Definition formatChange (g : Marks) (change : Change) : string :=
  if Js.isNumber (chg_old change) && Js.isNumber (chg_new change)
  then
    let trend :=
      if deltaGtZero (chg_delta change) then trendUp g
      else if deltaLtZero (chg_delta change) then trendDown g
      else trendFlat g in
    "  " ++ Js.valueToString (chg_old change) ++ " " ++ arrow g ++ " "
         ++ Js.valueToString (chg_new change) ++ " " ++ trend
         ++ " (" ++ (if deltaGeZero (chg_delta change) then "+" else EmptyString)
         ++ deltaToString (chg_delta change) ++ ")"
  else
    "  " ++ Js.valueToString (chg_old change) ++ " " ++ arrow g ++ " "
         ++ Js.valueToString (chg_new change).

(** The lines pushed for the entries of the changes, in their order. *)
Definition metricLines (g : Marks) (changes : Changes) : list string :=
  flat_map (fun entry => [formattedKey (keyName (fst entry)) ++ ":";
                          formatChange g (snd entry)])
           changes.

Definition addedLines (added : list string) : list string :=
  match added with
  | [] => []
  | _ => [EmptyString; "=== ADDED CONTENT ==="] ++ map (fun line => "+ " ++ line) added
  end.

Definition removedLines (removed : list string) : list string :=
  match removed with
  | [] => []
  | _ => [EmptyString; "=== REMOVED CONTENT ==="] ++ map (fun line => "- " ++ line) removed
  end.

Definition modifiedLines (modified : list ModifiedPair) : list string :=
  match modified with
  | [] => []
  | _ =>
      [EmptyString; "=== MODIFIED CONTENT ==="]
      ++ flat_map (fun m => ["- " ++ mod_old m; "+ " ++ mod_new m; EmptyString]) modified
  end.

(** The array [lines] of [formatDiff] before it is joined. *)
Definition reportHeader (diff : SnapshotDiff) : list string :=
  ["=== SNAPSHOT COMPARISON ===";
   "Old: " ++ Node.basename (oldPath diff);
   "New: " ++ Node.basename (newPath diff);
   EmptyString;
   "=== METRICS CHANGES ==="].

Definition reportLines (g : Marks) (diff : SnapshotDiff) : list string :=
  (reportHeader diff
   ++ metricLines g (changes (metrics diff))
   ++ addedLines (added (diff_content diff))
   ++ removedLines (removed (diff_content diff))
   ++ modifiedLines (modified (diff_content diff)))%list.

Definition formatDiff (g : Marks) (diff : SnapshotDiff) : string :=
  Js.join LF (reportLines g diff).

(** ** Notions used to state further properties *)

(** The opposite of a number. *)
Definition negate (x : Js.number) : Js.number :=
  match x with
  | Js.NaN => Js.NaN
  | Js.Infinity negative => Js.Infinity (negb negative)
  | Js.Finite m e => Js.Finite (- m) e
  end.

(** The entries that the metric differ records, field by field. *)
Definition entryOf (old current : HealthMetrics) (key : MetricKey)
  : list (MetricKey * Change) :=
  match changeOf old current key with
  | Some c => [(key, c)]
  | None => []
  end.

(** The same change seen from the other side. *)
Definition swapChange (c : Change) : Change :=
  mkChange (chg_new c) (chg_old c) (option_map negate (chg_delta c)).

(** Two changes that carry the same values. *)
Definition sameDelta (a b : option Js.number) : Prop :=
  match a, b with
  | Some x, Some y => Js.sameNumber x y = true
  | None, None => True
  | _, _ => False
  end.

(** The carriage return that precedes a line feed in a text with Windows
    line ends. *)
Definition CR : string := String "013" EmptyString.

(** ** The templates of the renderer *)

(** [listTemplates] once the template directory has been read. *)
Definition listTemplates (files : list string) : list string :=
  map (fun file => Js.removeFirst file ".mustache")
      (filter (fun file => Js.endsWith file ".mustache") files).

(** The file that [renderTemplate] reads for a template name. *)
Definition templateFile (templateName : string) : string :=
  templateName ++ ".mustache".

(** A file name that ends in the extension does not hold the extension
    anywhere in front of that. *)
Definition extensionAtEnd (file : string) : bool :=
  negb (Js.endsWith file ".mustache")
  || negb (Js.includes (Js.take (String.length file - String.length ".mustache") file)
                       ".mustache").

(** ** The snapshot generator ([SnapshotGenerator] of core/documentation.ts) *)

(** The code units after which the anchor [^] of a multi-line regular
    expression matches: LF and CR. *)
Definition isLineTerminator (c : ascii) : bool :=
  Ascii.eqb c "010" || Ascii.eqb c "013".

(** [content.match(re)] for a global regular expression: the matched texts
    from left to right, each search resuming where the previous match
    ended.  [matchAt lineStart s] is the length of the match of [re] at the
    start of [s], if there is one; [lineStart] tells whether [s] starts a
    line, [skip] counts the code units of the last match still to be passed.
    No expression of the source matches the empty text.  The source tests
    the result with [?.length || 0], which is the length of this list. *)
Fixpoint matchAll (matchAt : bool -> string -> option nat) (s : string)
    (lineStart : bool) (skip : nat) : list string :=
  match s with
  | EmptyString => []
  | String c s' =>
      match skip with
      | S k => matchAll matchAt s' (isLineTerminator c) k
      | O =>
          match matchAt lineStart s with
          | Some (S n) => Js.take (S n) s :: matchAll matchAt s' (isLineTerminator c) n
          | _ => matchAll matchAt s' (isLineTerminator c) 0
          end
      end
  end.

Definition matches (matchAt : bool -> string -> option nat) (content : string)
  : list string :=
  matchAll matchAt content true 0.

(** The number of [#] at the start of a text. *)
Fixpoint hashes (s : string) : nat :=
  match s with
  | String "#" s' => S (hashes s')
  | _ => 0
  end.

(** [/^#{1,6}\s/gm]: at the start of a line, one to six [#] and a white
    space. *)
Definition headingAt (lineStart : bool) (s : string) : option nat :=
  let h := hashes s in
  if lineStart && (1 <=? h)%nat && (h <=? 6)%nat && startsWithWhiteSpace (Js.drop h s)
  then Some (h + 1)
  else None.

(** The number of white space code units at the start of a text. *)
Fixpoint blanks (s : string) : nat :=
  match s with
  | String c s' => if Js.isWhiteSpace c then S (blanks s') else 0
  | EmptyString => 0
  end.

(** [/\[[\s\t]*\]/g]: an opening bracket, white space, a closing bracket. *)
Definition todoAt (lineStart : bool) (s : string) : option nat :=
  match s with
  | String "[" r =>
      match Js.drop (blanks r) r with
      | String "]" _ => Some (blanks r + 2)
      | _ => None
      end
  | _ => None
  end.

(** [/\[x\]/gi] *)
Definition doneAt (lineStart : bool) (s : string) : option nat :=
  match s with
  | String "[" (String c (String "]" _)) =>
      if Ascii.eqb c "x" || Ascii.eqb c "X" then Some 3 else None
  | _ => None
  end.

(** The position of the first occurrence of [p] in [s]. *)
Fixpoint indexOf (s p : string) : option nat :=
  if Js.startsWith s p then Some 0
  else match s with
       | EmptyString => None
       | String _ s' => option_map S (indexOf s' p)
       end.

Definition fence : string := "```".

(** The expression for fenced code: a fence, as little text as possible,
    a fence. *)
Definition codeBlockAt (lineStart : bool) (s : string) : option nat :=
  if Js.startsWith s fence
  then match indexOf (Js.drop 3 s) fence with
       | Some i => Some (3 + i + 3)
       | None => None
       end
  else None.

(** A count as a number. *)
Definition count (n : nat) : Js.number := Js.ofZ (Z.of_nat n).

(** [Math.ceil(words / 200)].  For an integer below 2^53 the binary64
    quotient by 200 lies on the same side of every integer as the exact
    quotient, so the ceiling is the ceiling of the exact quotient. *)
Definition ceilDiv (n d : nat) : nat := (n + (d - 1)) / d.

(** [Math.max(...xs)] on a non-empty list of lengths. *)
Definition maxOf (xs : list nat) : nat := fold_right Nat.max 0 xs.

(** The division and the multiplication of binary64: they round, which the
    decimal numbers of the model do not follow, so they are taken as they
    come. *)
Record Binary64 : Type := mkBinary64 {
  fdiv : nat -> nat -> Js.number;
  fmul : Js.number -> Js.number -> Js.number
}.

(** [h.trim().length] for each match of the heading expression, or [[0]]
    when there is no match. *)
Definition headingDepths (content : string) : list nat :=
  match matches headingAt content with
  | [] => [0]
  | hs => map (fun h => String.length (Js.trim h)) hs
  end.

(** [calculateHealthMetrics] once the document has been read; [now] is
    [new Date().toISOString()]. *)
Definition calculateHealthMetrics (f : Binary64) (now content : string) : HealthMetrics :=
  let words := List.length (Js.splitWhiteSpace content) in
  let sections := List.length (matches headingAt content) in
  let todos := List.length (matches todoAt content) in
  let completedTodos := List.length (matches doneAt content) in
  let codeBlocks := List.length (matches codeBlockAt content) in
  {| last_updated := now;
     word_count := count words;
     reading_time := count (ceilDiv words 200);
     has_todos := (0 <? todos)%nat;
     todo_count := count todos;
     linked_files := [];
     broken_links := [];
     completion_percentage :=
       if (0 <? todos)%nat then fmul f (fdiv f completedTodos todos) (count 100)
       else count 100;
     section_count := count sections;
     section_depth := count (maxOf (headingDepths content));
     code_blocks := count codeBlocks;
     avg_section_length :=
       if (0 <? sections)%nat then fdiv f words sections else count words;
     readability_score := Js.zero;
     last_snapshot_delta := Js.zero |}.

(** [healthMetrics.last_snapshot_delta = delta] *)
Definition setLastSnapshotDelta (m : HealthMetrics) (delta : Js.number) : HealthMetrics :=
  {| last_updated := last_updated m;
     word_count := word_count m;
     reading_time := reading_time m;
     has_todos := has_todos m;
     todo_count := todo_count m;
     linked_files := linked_files m;
     broken_links := broken_links m;
     completion_percentage := completion_percentage m;
     section_count := section_count m;
     section_depth := section_depth m;
     code_blocks := code_blocks m;
     avg_section_length := avg_section_length m;
     readability_score := readability_score m;
     last_snapshot_delta := delta |}.

(** An entry of the snapshots directory: its name and the time of its last
    modification in milliseconds, when [fs.stat] gives it. *)
Record DirEntry : Type := mkDirEntry {
  entry_name : string;
  entry_mtime : option Z
}.

(** [Promise.all] over the calls of [fs.stat]: the time stamps, unless one
    call fails. *)
Fixpoint statAll (entries : list DirEntry) : option (list (string * Z)) :=
  match entries with
  | [] => Some []
  | e :: rest =>
      match entry_mtime e, statAll rest with
      | Some t, Some l => Some ((entry_name e, t) :: l)
      | _, _ => None
      end
  end.

Definition millisecondsPerDay : Z := 1000 * 60 * 60 * 24.

(** [getLastSnapshotDelta]: [readdir] is the listing of the directory, or
    [None] when it cannot be read; [now] is [Date.now()].  An error is
    caught and gives 0.  The time stamps are integers, and while they are
    less than 10^8 days apart the floor of the binary64 quotient is the
    floor of the exact quotient. *)
Definition getLastSnapshotDelta (readdir : option (list DirEntry)) (now : Z) : Js.number :=
  match readdir with
  | None => Js.zero
  | Some [] => Js.zero
  | Some files =>
      match statAll (filter (fun e => Js.endsWith (entry_name e) ".md") files) with
      | None => Js.zero
      | Some [] => Js.zero
      | Some (first :: rest) =>
          let latestSnapshot :=
            fold_left (fun latest current =>
                         if (snd latest <? snd current)%Z then current else latest)
                      rest first in
          Js.ofZ ((now - snd latestSnapshot) / millisecondsPerDay)
      end
  end.

(** [s.padStart(n, '0')] *)
Definition padStart (n : nat) (s : string) : string :=
  Js.zeros (n - String.length s) ++ s.

(** The names of the three directories made by [ensureSnapshotDirectory]
    for a date, given [getFullYear()], [getMonth()] and [getDate()]. *)
Definition snapshotDirectoryNames (fullYear month date : Z) : string * string * string :=
  (Js.toString (Js.ofZ fullYear),
   padStart 2 (Js.toString (Js.ofZ (month + 1))),
   padStart 2 (Js.toString (Js.ofZ date))).

(** The text that [SnapshotGenerator.createSnapshot] writes, once the
    document has been read, the delta computed and the template
    rendered. *)
Definition generatedSnapshot (f : Binary64) (now created updated content : string)
    (delta : Js.number) (rendered : string) : string :=
  let healthMetrics :=
    setLastSnapshotDelta (calculateHealthMetrics f now content) delta in
  createSnapshot (Some (generatorMetadata created updated healthMetrics)) rendered.

(** Both values are numbers that are not finite. *)
Definition bothNonFinite (a b : Js.value) : Prop :=
  match a, b with
  | Js.VNumber x, Js.VNumber y => Js.isFinite x = false /\ Js.isFinite y = false
  | _, _ => False
  end.

(** ** The compare command ([findSnapshots], [handleCompareCommand]) *)

(** [item.startsWith('snapshot_') && item.endsWith('.md')] *)
Definition isSnapshotFile (item : string) : bool :=
  Js.startsWith item "snapshot_" && Js.endsWith item ".md".

(** What the walk meets in a directory: a file, or a directory with its
    own items; the items come in the order of [fs.readdir]. *)
Inductive Item : Type :=
| FileItem (name : string)
| DirectoryItem (name : string) (items : Items)
with Items : Type :=
| NoItems
| ConsItem (item : Item) (rest : Items).

(** [walk(dir)]: the paths pushed to [snapshots], in the order of the
    traversal; [join] is [path.join]. *)
Fixpoint walkItem (join : string -> string -> string) (dir : string) (item : Item)
  : list string :=
  match item with
  | DirectoryItem name items => walk join (join dir name) items
  | FileItem name => if isSnapshotFile name then [join dir name] else []
  end
with walk (join : string -> string -> string) (dir : string) (items : Items)
  : list string :=
  match items with
  | NoItems => []
  | ConsItem item rest => (walkItem join dir item ++ walk join dir rest)%list
  end.

(** [findSnapshots(snapshotsDir)] without a date, once the tree has been
    read. *)
Definition findSnapshots (join : string -> string -> string) (snapshotsDir : string)
    (items : Items) : list string :=
  Js.sort (walk join snapshotsDir items).

(** The two paths that [handleCompareCommand] compares when they are not
    given: [snapshots[length - 2]] and [snapshots[length - 1]], or nothing
    when fewer than two snapshots are found. *)
Definition selectSnapshots (snapshots : list string) : option (string * string) :=
  if (List.length snapshots <? 2)%nat then None
  else match nth_error snapshots (List.length snapshots - 2),
             nth_error snapshots (List.length snapshots - 1) with
       | Some oldPath, Some newPath => Some (oldPath, newPath)
       | _, _ => None
       end.

(** * Properties *)

(** ** Sets and the loops of the content differ *)

Section ContentDiffer.

Lemma has_In (s : list string) (x : string) : Js.has s x = true <-> In x s.
Proof.
  unfold Js.has. rewrite existsb_exists. split.
  - intros [y [Hy Hxy]]. apply String.eqb_eq in Hxy. now subst.
  - intros H. exists x. split; [assumption | apply String.eqb_refl].
Qed.

Lemma has_add (s : list string) (a x : string) :
  Js.has (Js.add s a) x = Js.has s x || String.eqb x a.
Proof.
  unfold Js.add. destruct (Js.has s a) eqn:Ha.
  - destruct (String.eqb x a) eqn:Hxa.
    + apply String.eqb_eq in Hxa. subst. rewrite Ha. reflexivity.
    + now rewrite orb_false_r.
  - unfold Js.has. rewrite existsb_app. simpl. now rewrite orb_false_r.
Qed.

Lemma has_fold_add (l acc : list string) (x : string) :
  Js.has (fold_left Js.add l acc) x = Js.has acc x || existsb (String.eqb x) l.
Proof.
  revert acc. induction l as [|a l IH]; intros acc; simpl.
  - now rewrite orb_false_r.
  - rewrite IH, has_add. now rewrite orb_assoc.
Qed.

Lemma has_newSet (l : list string) (x : string) :
  Js.has (Js.newSet l) x = Js.has l x.
Proof. unfold Js.newSet. now rewrite has_fold_add. Qed.

Lemma newSet_nonempty (l : list string) : l <> [] -> Js.newSet l <> [].
Proof.
  destruct l as [|a l]; [congruence|]. intros _ Hnil.
  assert (H : Js.has (Js.newSet (a :: l)) a = true).
  { rewrite has_newSet. simpl. now rewrite String.eqb_refl. }
  rewrite Hnil in H. discriminate.
Qed.

Lemma splitWhiteSpace_from_nonempty (s : string) (b : bool) (cur : string) :
  Js.splitWhiteSpace_from s b cur <> [].
Proof.
  revert b cur. induction s as [|c s IH]; intros b cur; simpl; [discriminate|].
  destruct (Js.isWhiteSpace c); [destruct b|]; try apply IH; discriminate.
Qed.

Lemma wordSet_nonempty (line : string) : wordSet line <> [].
Proof. apply newSet_nonempty, splitWhiteSpace_from_nonempty. Qed.

Variable oldLines : list string.

Lemma compareContent_loop (newLines added0 : list string) (modified0 : list ModifiedPair) :
  fold_left (compareContent_step oldLines (Js.newSet oldLines)) newLines (added0, modified0)
  = ((added0 ++ filter (isAdded oldLines) newLines)%list,
     (modified0 ++ map (pairOf oldLines) (filter (isModified oldLines) newLines))%list).
Proof.
  revert added0 modified0.
  induction newLines as [|line rest IH]; intros added0 modified0; simpl.
  - now rewrite !app_nil_r.
  - unfold isAdded, isModified at 1.
    destruct (Js.has (Js.newSet oldLines) line); simpl.
    + apply IH.
    + destruct (truthy (findSimilarLine line oldLines)); simpl;
        rewrite IH, <- app_assoc; reflexivity.
Qed.

End ContentDiffer.

Lemma compareContent_added (oldLines newLines : list string) :
  added (compareContent oldLines newLines) = filter (isAdded oldLines) newLines.
Proof. unfold compareContent. now rewrite compareContent_loop. Qed.

Lemma compareContent_modified (oldLines newLines : list string) :
  modified (compareContent oldLines newLines)
  = map (pairOf oldLines) (filter (isModified oldLines) newLines).
Proof. unfold compareContent. now rewrite compareContent_loop. Qed.

Lemma compareContent_removed (oldLines newLines : list string) :
  removed (compareContent oldLines newLines)
  = filter (fun line =>
              negb (Js.has (Js.newSet newLines) line)
              && negb (existsb (fun m => String.eqb (mod_old m) line)
                               (modified (compareContent oldLines newLines))))
           oldLines.
Proof. unfold compareContent. now rewrite compareContent_loop. Qed.

Lemma findSimilarLine_firstSimilar (line : string) (oldLines : list string) :
  findSimilarLine line oldLines = firstSimilar line oldLines.
Proof.
  unfold findSimilarLine, firstSimilar.
  induction oldLines as [|o rest IH]; simpl; [reflexivity|].
  unfold similar at 1. now destruct (geThreshold _).
Qed.

Lemma not_has_newSet (l : list string) (x : string) :
  ~ In x l -> Js.has (Js.newSet l) x = false.
Proof.
  intros H. rewrite has_newSet. destruct (Js.has l x) eqn:E; [|reflexivity].
  apply has_In in E. contradiction.
Qed.

Lemma has_newSet_In (l : list string) (x : string) :
  Js.has (Js.newSet l) x = true <-> In x l.
Proof. rewrite has_newSet. apply has_In. Qed.

Lemma truthy_Some (s : string) : s <> EmptyString -> truthy (Some s) = true.
Proof.
  intros H. simpl. destruct (String.eqb s EmptyString) eqn:E; [|reflexivity].
  apply String.eqb_eq in E. contradiction.
Qed.

Lemma modified_new_sides (oldLines newLines : list string) :
  map mod_new (modified (compareContent oldLines newLines))
  = filter (isModified oldLines) newLines.
Proof.
  rewrite compareContent_modified, map_map. simpl. apply map_id.
Qed.

Lemma In_modified_old_sides (line : string) (ms : list ModifiedPair) :
  existsb (fun m => String.eqb (mod_old m) line) ms = true
  <-> In line (map mod_old ms).
Proof.
  rewrite existsb_exists, in_map_iff. split.
  - intros [m [Hm E]]. apply String.eqb_eq in E. now exists m.
  - intros [m [E Hm]]. exists m. split; [assumption|]. subst. apply String.eqb_refl.
Qed.

(** The test [similarity >= 0.7] in integers. *)
Lemma similar_iff (a b : string) :
  similar a b = true <-> 7 * largerSize a b <= 10 * commonWords a b.
Proof.
  unfold similar, similarity, largerSize, commonWords, Js.size.
  set (c := List.length _). set (m := Nat.max _ _).
  assert (Hm : m <> 0).
  { unfold m. pose proof (wordSet_nonempty a) as Ha.
    pose proof (Nat.le_max_l (List.length (wordSet a)) (List.length (wordSet b))).
    destruct (wordSet a); [congruence|]. simpl List.length in *. lia. }
  destruct m as [|k]; [congruence|]. unfold divide. cbn [geThreshold].
  unfold Qle_bool, threshold. cbn [Qnum Qden].
  rewrite Z.leb_le, <- Pos.of_nat_succ, Zpos_P_of_succ_nat.
  lia.
Qed.

(** ** C1: the scenario of the specification *)

(** C1, as the code computes it: for the old body
    ["Fixed login bug"; "Add tests"] and the new body
    ["Fixed login issue"; "Add tests"; "Update docs"] the two login lines share
    two words out of three, which is below the threshold, so no pair is
    formed: added = ["Fixed login issue"; "Update docs"],
    removed = ["Fixed login bug"], modified = []. *)
Theorem C1_scenario_as_computed :
  compareContent ["Fixed login bug"; "Add tests"]
                 ["Fixed login issue"; "Add tests"; "Update docs"]
  = {| added := ["Fixed login issue"; "Update docs"];
       removed := ["Fixed login bug"];
       modified := [] |}
  /\ commonWords "Fixed login issue" "Fixed login bug" = 2
  /\ largerSize "Fixed login issue" "Fixed login bug" = 3
  /\ similar "Fixed login issue" "Fixed login bug" = false.
Proof. repeat split; vm_compute; reflexivity. Qed.

(** The result stated by the scenario is not the one computed. *)
Lemma C1_scenario_refuted :
  compareContent ["Fixed login bug"; "Add tests"]
                 ["Fixed login issue"; "Add tests"; "Update docs"]
  <> {| added := ["Update docs"];
        removed := [];
        modified := [mkModified "Fixed login bug" "Fixed login issue"] |}.
Proof. vm_compute. discriminate. Qed.

(** ** Pairing by the similarity threshold *)

Lemma paired_when_old_nonempty (oldLines newLines : list string) (line : string) :
  ~ In EmptyString oldLines ->
  In line newLines ->
  ~ In line oldLines ->
  pairedByThreshold oldLines newLines line.
Proof.
  intros Hne Hnew Hold. unfold pairedByThreshold. cbv zeta.
  pose proof (not_has_newSet _ _ Hold) as Hhas.
  pose proof (findSimilarLine_firstSimilar line oldLines) as Hfs.
  destruct (firstSimilar line oldLines) as [o|] eqn:Hfirst.
  - assert (Ho : o <> EmptyString).
    { apply find_some in Hfirst. intros ->. now apply Hne. }
    assert (Hmod : isModified oldLines line = true).
    { unfold isModified. rewrite Hhas, Hfs. simpl negb. now rewrite truthy_Some. }
    assert (Hpair : pairOf oldLines line = mkModified o line).
    { unfold pairOf. now rewrite Hfs. }
    repeat split.
    + rewrite compareContent_modified, <- Hpair.
      apply in_map, filter_In. now split.
    + rewrite compareContent_added, filter_In. intros [_ Hadd].
      unfold isAdded in Hadd. unfold isModified in Hmod.
      destruct (negb _); [|discriminate]. simpl in *. rewrite Hmod in Hadd. discriminate.
    + intros p Hp Hpn. rewrite compareContent_modified in Hp.
      apply in_map_iff in Hp. destruct Hp as [l [<- _]].
      simpl in Hpn. subst l. now rewrite Hpair.
  - assert (Hadd : isAdded oldLines line = true).
    { unfold isAdded. now rewrite Hhas, Hfs. }
    split.
    + rewrite compareContent_added. apply filter_In. now split.
    + rewrite modified_new_sides, filter_In. intros [_ Hmod].
      unfold isModified in Hmod. rewrite Hfs in Hmod. simpl in Hmod.
      now rewrite andb_false_r in Hmod.
Qed.

Lemma compareContent_two_lines (o n : string) :
  o <> EmptyString -> o <> n ->
  compareContent [o] [n]
  = if similar n o
    then {| added := []; removed := []; modified := [mkModified o n] |}
    else {| added := [n]; removed := [o]; modified := [] |}.
Proof.
  intros Ho Hon.
  assert (Hno : String.eqb n o = false) by (apply String.eqb_neq; congruence).
  assert (Hon' : String.eqb o n = false) by (now apply String.eqb_neq).
  assert (Htr : truthy (Some o) = true) by (now apply truthy_Some).
  assert (Hf : findSimilarLine n [o] = if similar n o then Some o else None)
    by reflexivity.
  assert (Hs1 : Js.has (Js.newSet [o]) n = false)
    by (rewrite has_newSet; simpl; now rewrite Hno).
  assert (Hs2 : Js.has (Js.newSet [n]) o = false)
    by (rewrite has_newSet; simpl; now rewrite Hon').
  unfold compareContent. rewrite compareContent_loop.
  unfold isAdded, isModified, pairOf.
  cbn [filter app map]. rewrite Hs1, Hf. cbn [negb andb].
  destruct (similar n o).
  - rewrite Htr. cbn [app map filter existsb mod_old unwrap negb andb orb].
    rewrite Hs2, Hf. cbn [unwrap]. now rewrite String.eqb_refl.
  - cbn [truthy app map filter existsb mod_old unwrap negb andb orb].
    now rewrite Hs2.
Qed.

(** ** C3: the buckets of the content diff *)

Lemma new_side_partition (oldLines newLines : list string) :
  newSidePartition oldLines newLines.
Proof.
  unfold newSidePartition. cbv zeta. intros line Hnew.
  rewrite compareContent_added, modified_new_sides.
  unfold ExactlyOne. rewrite !filter_In. unfold isAdded, isModified.
  destruct (Js.has (Js.newSet oldLines) line) eqn:Hhas.
  - apply has_newSet_In in Hhas. left. simpl. intuition discriminate.
  - assert (Hold : ~ In line oldLines).
    { intros Hin. apply has_newSet_In in Hin. congruence. }
    right. simpl. destruct (truthy (findSimilarLine line oldLines)); simpl.
    + right. intuition discriminate.
    + left. intuition discriminate.
Qed.

Lemma old_side_cover (oldLines newLines : list string) (line : string) :
  let d := compareContent oldLines newLines in
  In line oldLines ->
  (In line newLines \/ In line (removed d) \/ In line (map mod_old (modified d)))
  /\ (In line (removed d) ->
      ~ In line newLines /\ ~ In line (map mod_old (modified d))).
Proof.
  cbv zeta. intros Hold. rewrite compareContent_removed, filter_In.
  set (ms := modified (compareContent oldLines newLines)).
  pose proof (has_newSet_In newLines line) as Hv.
  pose proof (In_modified_old_sides line ms) as Hm.
  destruct (Js.has (Js.newSet newLines) line);
    destruct (existsb (fun m => String.eqb (mod_old m) line) ms); simpl.
  - split; [left; now apply Hv|]. intros [_ H]. discriminate.
  - split; [left; now apply Hv|]. intros [_ H]. discriminate.
  - split; [right; right; now apply Hm|]. intros [_ H]. discriminate.
  - split; [right; left; now split|]. intros _. split.
    + intros H. apply Hv in H. discriminate.
    + intros H. apply Hm in H. discriminate.
Qed.

(** C3, amended: every line of the new sequence falls in exactly one of
    verbatim-matched, added, modified.new; every line of the old sequence
    falls in at least one of verbatim-matched, removed, modified.old, and a
    removed line falls in neither of the other two (an old line may be both
    verbatim-matched and the old side of a modified pair). *)
Theorem C3_buckets (oldLines newLines : list string) :
  let d := compareContent oldLines newLines in
  (forall line, In line newLines ->
     ExactlyOne (In line oldLines)
                (In line (added d))
                (In line (map mod_new (modified d))))
  /\ (forall line, In line oldLines ->
        (In line newLines \/ In line (removed d) \/ In line (map mod_old (modified d)))
        /\ (In line (removed d) ->
            ~ In line newLines /\ ~ In line (map mod_old (modified d)))).
Proof.
  cbv zeta. split.
  - apply new_side_partition.
  - intros line. apply old_side_cover.
Qed.

Lemma C3_buckets_witness :
  ExactlyOne (In "a b c d e" ["a b c d"])
             (In "a b c d e" (added (compareContent ["a b c d"] ["a b c d"; "a b c d e"])))
             (In "a b c d e"
                 (map mod_new (modified (compareContent ["a b c d"] ["a b c d"; "a b c d e"]))))
  /\ (In "a b c d" ["a b c d"; "a b c d e"]
      \/ In "a b c d" (removed (compareContent ["a b c d"] ["a b c d"; "a b c d e"]))
      \/ In "a b c d"
            (map mod_old (modified (compareContent ["a b c d"] ["a b c d"; "a b c d e"])))).
Proof.
  split.
  - apply (proj1 (C3_buckets ["a b c d"] ["a b c d"; "a b c d e"])).
    simpl. right. left. reflexivity.
  - apply (proj2 (C3_buckets ["a b c d"] ["a b c d"; "a b c d e"])).
    simpl. left. reflexivity.
Defined.

(** C3 as stated fails on the old side: the old line ["a b c d"] is matched
    verbatim and is also the old side of a modified pair. *)
Lemma C3_old_side_refuted :
  ~ (newSidePartition ["a b c d"] ["a b c d"; "a b c d e"]
     /\ oldSidePartition ["a b c d"] ["a b c d"; "a b c d e"]).
Proof.
  intros [_ H]. specialize (H "a b c d" (or_introl eq_refl)).
  vm_compute in H.
  destruct H as [[_ [_ H]]|[[H _]|[H _]]]; apply H; left; reflexivity.
Qed.

(** ** C10: the old side of modified pairs is not consumed *)


(** ** The metric extractor never throws *)

Lemma occurs_append (c : ascii) (s t : string) :
  occurs c (s ++ t) = occurs c s || occurs c t.
Proof.
  induction s as [|d s IH]; simpl; [reflexivity|]. now rewrite IH, orb_assoc.
Qed.

Lemma startsWith_occurs (c : ascii) (s p : string) :
  Js.startsWith s p = true -> occurs c p = true -> occurs c s = true.
Proof.
  revert s. induction p as [|a p IH]; intros s Hs Hc; simpl in *; [discriminate|].
  destruct s as [|b s]; [discriminate|]. simpl.
  apply andb_true_iff in Hs. destruct Hs as [Hab Hs].
  apply Ascii.eqb_eq in Hab. subst b.
  apply orb_true_iff in Hc. destruct Hc as [Hc|Hc].
  - now rewrite Hc.
  - rewrite (IH s Hs Hc). apply orb_true_r.
Qed.

Lemma includes_occurs (c : ascii) (s p : string) :
  Js.includes s p = true -> occurs c p = true -> occurs c s = true.
Proof.
  intros Hi Hc. induction s as [|b s IH].
  - simpl in Hi. rewrite orb_false_r in Hi. eapply startsWith_occurs; eauto.
  - simpl in Hi. apply orb_true_iff in Hi. destruct Hi as [Hi|Hi].
    + eapply startsWith_occurs; eauto.
    + simpl. rewrite (IH Hi). apply orb_true_r.
Qed.

Lemma split_from_nonempty (sep s : string) (skip : nat) (cur : string) :
  Js.split_from sep s skip cur <> [].
Proof.
  revert skip cur.
  induction s as [|c s IH]; intros skip cur; cbn [Js.split_from]; [discriminate|].
  destruct skip; [|apply IH].
  destruct (Js.startsWith (String c s) sep); [discriminate|apply IH].
Qed.

Lemma split_char_two_pieces (c : ascii) (s cur : string) :
  occurs c s = true ->
  2 <= List.length (Js.split_from (String c EmptyString) s 0 cur).
Proof.
  revert cur. induction s as [|d s IH]; intros cur Hc; simpl in *; [discriminate|].
  destruct (Ascii.eqb c d) eqn:Hcd; simpl in *.
  - pose proof (split_from_nonempty (String c EmptyString) s 0 EmptyString) as Hne.
    destruct (Js.startsWith s EmptyString) eqn:E.
    + simpl. destruct (Js.split_from _ s 0 EmptyString); [congruence|simpl; lia].
    + destruct s; discriminate.
  - now apply IH.
Qed.

Lemma split_second_piece (c : ascii) (s : string) :
  occurs c s = true ->
  exists piece, nth_error (Js.split s (String c EmptyString)) 1 = Some piece.
Proof.
  intros H. apply (split_char_two_pieces c s EmptyString) in H.
  unfold Js.split. destruct (Js.split_from _ s 0 EmptyString) as [|x [|y l]];
    simpl in H; try lia. now exists y.
Qed.

Lemma split_first_piece (sep s : string) :
  exists piece, nth_error (Js.split s sep) 0 = Some piece.
Proof.
  unfold Js.split. pose proof (split_from_nonempty sep s 0 EmptyString).
  destruct (Js.split_from sep s 0 EmptyString) as [|x l]; [congruence|]. now exists x.
Qed.

Lemma label_has_colon (key : string) : occurs ":" ("- " ++ key ++ ":") = true.
Proof. simpl. rewrite occurs_append. simpl. apply orb_true_r. Qed.

Lemma metricLine_has_colon (lines : list string) (key line : string) :
  metricLine lines key = Some line -> occurs ":" line = true.
Proof.
  unfold metricLine. intros H. apply find_some in H. destruct H as [_ H].
  eapply includes_occurs; [exact H | apply label_has_colon].
Qed.

(** What [extractMetric] returns, by cases on the text it parses. *)
Lemma extractMetric_value (lines : list string) (key : string) (isPercentage : bool) :
  extractMetric lines key isPercentage
  = inr match metricLine lines key with
        | None => Js.zero
        | Some _ =>
            match metricText lines key isPercentage with
            | Some t => if isPercentage then Js.parseFloat t else Js.parseInt t
            | None => Js.NaN
            end
        end.
Proof.
  unfold extractMetric, metricText. fold (metricLine lines key).
  destruct (metricLine lines key) as [line|] eqn:Hline; [|reflexivity].
  pose proof (metricLine_has_colon _ _ _ Hline) as Hc.
  destruct (String.eqb line EmptyString) eqn:He.
  { apply String.eqb_eq in He. subst. discriminate. }
  destruct (split_second_piece ":" line Hc) as [piece Hp].
  change (String ":" EmptyString) with ":" in Hp. rewrite Hp.
  destruct isPercentage; [reflexivity|].
  destruct (split_first_piece " " (Js.trim piece)) as [tok Ht]. rewrite Ht. reflexivity.
Qed.

Lemma extractMetric_total (lines : list string) (key : string) (isPercentage : bool) :
  exists x, extractMetric lines key isPercentage = inr x.
Proof. rewrite extractMetric_value. eauto. Qed.

Lemma parseHealthMetrics_value (lines : list string) (updated : string) :
  exists wc rt tc cp sc cb ld,
    extractMetric lines "Word Count" false = inr wc
    /\ extractMetric lines "Reading Time" false = inr rt
    /\ extractMetric lines "TODOs" false = inr tc
    /\ extractMetric lines "Completion" true = inr cp
    /\ extractMetric lines "Sections" false = inr sc
    /\ extractMetric lines "Code Blocks" false = inr cb
    /\ extractMetric lines "Days Since Last Snapshot" false = inr ld
    /\ parseHealthMetrics lines updated
       = inr {| last_updated := updated;
                word_count := Js.orZero wc;
                reading_time := Js.orZero rt;
                has_todos := Js.gtZero tc;
                todo_count := Js.orZero tc;
                linked_files := [];
                broken_links := [];
                completion_percentage := Js.orZero cp;
                section_count := Js.orZero sc;
                section_depth := Js.zero;
                code_blocks := Js.orZero cb;
                avg_section_length := Js.zero;
                readability_score := Js.zero;
                last_snapshot_delta := Js.orZero ld |}.
Proof.
  destruct (extractMetric_total lines "Word Count" false) as [wc Hwc].
  destruct (extractMetric_total lines "Reading Time" false) as [rt Hrt].
  destruct (extractMetric_total lines "TODOs" false) as [tc Htc].
  destruct (extractMetric_total lines "Completion" true) as [cp Hcp].
  destruct (extractMetric_total lines "Sections" false) as [sc Hsc].
  destruct (extractMetric_total lines "Code Blocks" false) as [cb Hcb].
  destruct (extractMetric_total lines "Days Since Last Snapshot" false) as [ld Hld].
  exists wc, rt, tc, cp, sc, cb, ld. repeat (split; [assumption|]).
  unfold parseHealthMetrics. rewrite Hwc, Hrt, Htc, Hcp, Hsc, Hcb, Hld. reflexivity.
Qed.

Lemma orZero_of_parsed (lines : list string) (label : string) (pct : bool) (x : Js.number) :
  extractMetric lines label pct = inr x ->
  (metricLine lines label = None -> Js.orZero x = Js.zero)
  /\ (forall t, metricText lines label pct = Some t ->
                (if pct then Js.parseFloat t else Js.parseInt t) = Js.NaN ->
                Js.orZero x = Js.zero).
Proof.
  rewrite extractMetric_value. intros H. injection H as <-. split.
  - intros ->. reflexivity.
  - intros t Ht Hnan. destruct (metricLine lines label); [|reflexivity].
    rewrite Ht, Hnan. reflexivity.
Qed.

(** ** C5: soft-parse degradation *)

(** C5: for every list of metadata lines the extraction returns a record
    (no call throws), and a metric whose label line is absent, or whose text
    is not parsed as a number, is 0 in that record; [has_todos] is then
    false. *)
Theorem C5_extraction_total (lines : list string) (updated : string) :
  exists m,
    parseHealthMetrics lines updated = inr m
    /\ (forall label pct field, In (label, pct, field) metricFields ->
          (metricLine lines label = None -> field m = Js.zero)
          /\ (forall t, metricText lines label pct = Some t ->
                        (if pct then Js.parseFloat t else Js.parseInt t) = Js.NaN ->
                        field m = Js.zero))
    /\ (todo_count m = Js.zero -> has_todos m = false).
Proof.
  destruct (parseHealthMetrics_value lines updated)
    as (wc & rt & tc & cp & sc & cb & ld & Hwc & Hrt & Htc & Hcp & Hsc & Hcb & Hld & Hm).
  eexists. split; [exact Hm|]. split.
  - intros label pct field Hin. simpl in Hin.
    repeat (destruct Hin as [Hin|Hin];
            [injection Hin as <- <- <-; cbn [word_count reading_time todo_count
               completion_percentage section_count code_blocks last_snapshot_delta];
             now apply orZero_of_parsed|]).
    contradiction.
  - cbn [todo_count has_todos]. destruct tc as [|neg|mz ez]; simpl; try discriminate.
    + reflexivity.
    + unfold Js.orZero. simpl. destruct (Z.eqb_spec mz 0); simpl.
      * subst. reflexivity.
      * intros H. injection H as H _. contradiction.
Qed.

Lemma C5_extraction_total_witness :
  exists m,
    parseHealthMetrics ["- Word Count: n/a"; "- Completion: soon"] "2024-01-01" = inr m
    /\ word_count m = Js.zero
    /\ completion_percentage m = Js.zero
    /\ section_count m = Js.zero
    /\ has_todos m = false.
Proof.
  destruct (C5_extraction_total ["- Word Count: n/a"; "- Completion: soon"] "2024-01-01")
    as [m [Hm [Hfields Htodo]]].
  exists m. split; [exact Hm|].
  split.
  { apply (proj2 (Hfields "Word Count" false word_count (or_introl eq_refl)) "n/a");
      reflexivity. }
  split.
  { apply (proj2 (Hfields "Completion" true completion_percentage
                          (or_intror (or_intror (or_intror (or_introl eq_refl))))) "soon");
      reflexivity. }
  split.
  { apply (proj1 (Hfields "Sections" false section_count
                          (or_intror (or_intror (or_intror (or_intror (or_introl eq_refl)))))));
      reflexivity. }
  apply Htodo.
  apply (proj1 (Hfields "TODOs" false todo_count (or_intror (or_intror (or_introl eq_refl)))));
    reflexivity.
Defined.

(** ** C8: the invariant of parsed records *)

Lemma splitSign_negative (s : string) :
  fst (Js.splitSign s) = true -> Js.startsWith s "-" = true.
Proof.
  destruct s as [|c r]; simpl; [discriminate|].
  destruct c as [[] [] [] [] [] [] [] []]; simpl; intros H;
    try discriminate; destruct r; reflexivity.
Qed.

Lemma signed_nonneg (n : N) : (0 <=? Js.signed false n)%Z = true.
Proof. apply Z.leb_le. simpl. apply N2Z.is_nonneg. Qed.

Lemma parseInt_sign (t : string) :
  Js.parseInt t = Js.NaN
  \/ Js.nonNegative (Js.parseInt t) = true
  \/ Js.startsWith (Js.trimStart t) "-" = true.
Proof.
  unfold Js.parseInt.
  pose proof (splitSign_negative (Js.trimStart t)) as Hs.
  destruct (Js.splitSign (Js.trimStart t)) as [negative r]. simpl in Hs.
  destruct (Js.takeDigits r); [now left|]. right.
  destruct negative; [right; now apply Hs|left]. apply signed_nonneg.
Qed.

Lemma parseFloat_sign (t : string) :
  Js.parseFloat t = Js.NaN
  \/ Js.nonNegative (Js.parseFloat t) = true
  \/ Js.startsWith (Js.trimStart t) "-" = true.
Proof.
  unfold Js.parseFloat.
  pose proof (splitSign_negative (Js.trimStart t)) as Hs.
  destruct (Js.splitSign (Js.trimStart t)) as [negative r]. simpl in Hs.
  destruct negative; [right; right; now apply Hs|].
  destruct (Js.startsWith r "Infinity"); [right; left; reflexivity|].
  unfold Js.parseDecimal.
  match goal with |- context [let '(fp, r2) := ?p in _] => destruct p as [fp r2] end.
  destruct (Js.takeDigits r ++ fp); [now left|]. right. left. apply signed_nonneg.
Qed.

Lemma orZero_not_NaN (x : Js.number) : Js.orZero x <> Js.NaN.
Proof. destruct x; unfold Js.orZero; simpl; try discriminate. destruct (negb _); discriminate. Qed.

Lemma orZero_nonNegative (x : Js.number) :
  x = Js.NaN \/ Js.nonNegative x = true -> Js.nonNegative (Js.orZero x) = true.
Proof.
  intros [->|H]; [reflexivity|]. unfold Js.orZero.
  destruct (Js.truthyNumber x); [assumption|reflexivity].
Qed.

Lemma gtZero_orZero (x : Js.number) : Js.gtZero (Js.orZero x) = Js.gtZero x.
Proof.
  destruct x as [|neg|m e]; unfold Js.orZero; simpl; try reflexivity.
  destruct (Z.eqb_spec m 0); simpl; [subst|]; reflexivity.
Qed.

Lemma parsed_field_sign (lines : list string) (label : string) (pct : bool) (x : Js.number) :
  extractMetric lines label pct = inr x ->
  Js.orZero x <> Js.NaN
  /\ (Js.nonNegative (Js.orZero x) = true \/ writtenNegative lines label pct).
Proof.
  intros H. split; [apply orZero_not_NaN|].
  rewrite extractMetric_value in H. injection H as <-.
  unfold writtenNegative.
  destruct (metricLine lines label); [|now left].
  destruct (metricText lines label pct) as [t|]; [|now left].
  destruct pct.
  - destruct (parseFloat_sign t) as [H|[H|H]].
    + left. apply orZero_nonNegative. now left.
    + left. apply orZero_nonNegative. now right.
    + right. now exists t.
  - destruct (parseInt_sign t) as [H|[H|H]].
    + left. apply orZero_nonNegative. now left.
    + left. apply orZero_nonNegative. now right.
    + right. now exists t.
Qed.

Lemma findIndex_Some {A : Type} (p : A -> bool) (l : list A) (i : nat) :
  findIndex p l = Some i ->
  exists x, l = (firstn i l ++ x :: skipn (i + 1) l)%list
            /\ p x = true
            /\ (forall y, In y (firstn i l) -> p y = false).
Proof.
  revert i. induction l as [|a l IH]; intros i H; simpl in H; [discriminate|].
  destruct (p a) eqn:Hpa.
  - injection H as <-. exists a. simpl. repeat split; auto. intros y [].
  - destruct (findIndex p l) as [j|] eqn:Hj; [|discriminate].
    simpl in H. injection H as <-.
    destruct (IH j eq_refl) as (x & Hl & Hx & Hpre).
    exists x. simpl. repeat split; auto.
    + now rewrite <- Hl.
    + intros y [<-|Hy]; auto.
Qed.

Lemma findIndex_None {A : Type} (p : A -> bool) (l : list A) :
  findIndex p l = None <-> (forall y, In y l -> p y = false).
Proof.
  induction l as [|a l IH]; simpl.
  - split; [intros _ y []|reflexivity].
  - destruct (p a) eqn:Hpa.
    + split; [discriminate|]. intros H. specialize (H a (or_introl eq_refl)). congruence.
    + destruct (findIndex p l); simpl.
      * split; [discriminate|]. intros H.
        assert (Hn : Some n = None); [|discriminate].
        apply IH. intros y Hy. apply H. now right.
      * split; [|reflexivity]. intros _ y [<-|Hy]; [assumption|].
        now apply (proj1 IH).
Qed.

Lemma parseDocument_cases (text : string) :
  match findIndex (fun line => String.eqb line "---") (Js.split text LF) with
  | None => parseDocument text = inl FormatError
  | Some i =>
      let metadataLines := firstn i (Js.split text LF) in
      exists m,
        parseHealthMetrics metadataLines (headerField metadataLines "Updated:") = inr m
        /\ parseDocument text
           = inr {| metadata := metadataOf metadataLines m;
                    content := filter notBlank (skipn (i + 1) (Js.split text LF)) |}
  end.
Proof.
  unfold parseDocument.
  destruct (findIndex _ (Js.split text LF)) as [i|]; [|reflexivity].
  cbv zeta.
  destruct (parseHealthMetrics_value (firstn i (Js.split text LF))
              (headerField (firstn i (Js.split text LF)) "Updated:"))
    as (wc & rt & tc & cp & sc & cb & ld & _ & _ & _ & _ & _ & _ & _ & Hm).
  eexists. split; [exact Hm|]. rewrite Hm. reflexivity.
Qed.

Lemma parseDocument_metrics (text : string) (s : Snapshot) (m : HealthMetrics) :
  parseDocument text = inr s ->
  health_metrics (metadata s) = Some m ->
  parseHealthMetrics (metadataLinesOf text)
                     (headerField (metadataLinesOf text) "Updated:") = inr m.
Proof.
  intros Hs Hm. pose proof (parseDocument_cases text) as H. unfold metadataLinesOf.
  destruct (findIndex _ (Js.split text LF)) as [i|].
  - cbv zeta in H. destruct H as (m' & Hm' & Hdoc).
    rewrite Hdoc in Hs. injection Hs as <-. simpl in Hm. injection Hm as <-. exact Hm'.
  - rewrite H in Hs. discriminate.
Qed.

(** C8, amended: in every record produced by parsing a snapshot document
    [has_todos] is exactly [todo_count > 0], the fields without a header line
    are 0, and every extracted numeric field is a number that is non-negative
    unless the text parsed for it is written with a minus sign. *)
Theorem C8_parsed_invariant (text : string) (s : Snapshot) (m : HealthMetrics) :
  parseDocument text = inr s ->
  health_metrics (metadata s) = Some m ->
  has_todos m = Js.gtZero (todo_count m)
  /\ section_depth m = Js.zero
  /\ avg_section_length m = Js.zero
  /\ readability_score m = Js.zero
  /\ (forall label pct field, In (label, pct, field) metricFields ->
        field m <> Js.NaN
        /\ (Js.nonNegative (field m) = true
            \/ writtenNegative (metadataLinesOf text) label pct)).
Proof.
  intros Hs Hm. pose proof (parseDocument_metrics text s m Hs Hm) as Hp.
  destruct (parseHealthMetrics_value (metadataLinesOf text)
              (headerField (metadataLinesOf text) "Updated:"))
    as (wc & rt & tc & cp & sc & cb & ld & Hwc & Hrt & Htc & Hcp & Hsc & Hcb & Hld & Hv).
  rewrite Hv in Hp. injection Hp as <-.
  cbn [has_todos todo_count section_depth avg_section_length readability_score].
  split; [now rewrite gtZero_orZero|]. do 3 (split; [reflexivity|]).
  intros label pct field Hin. simpl in Hin.
  repeat (destruct Hin as [Hin|Hin];
          [injection Hin as <- <- <-; cbn [word_count reading_time todo_count
             completion_percentage section_count code_blocks last_snapshot_delta];
           now apply parsed_field_sign|]).
  contradiction.
Qed.

Lemma C8_parsed_invariant_witness :
  exists s m,
    parseDocument ("- TODOs: 3" ++ LF ++ "- Completion: 40%" ++ LF ++ "---" ++ LF ++ "text")
    = inr s
    /\ health_metrics (metadata s) = Some m
    /\ has_todos m = Js.gtZero (todo_count m)
    /\ section_depth m = Js.zero.
Proof.
  eexists. eexists.
  split; [vm_compute; reflexivity|]. split; [reflexivity|].
  pose proof (C8_parsed_invariant
                ("- TODOs: 3" ++ LF ++ "- Completion: 40%" ++ LF ++ "---" ++ LF ++ "text")
                _ _ eq_refl eq_refl) as H.
  split; [exact (proj1 H)|exact (proj1 (proj2 H))].
Defined.

(** C8 as stated fails: a header line [- Word Count: -5] is parsed to the
    negative count -5. *)
Lemma C8_negative_count_refutes :
  exists s m,
    parseDocument ("- Word Count: -5" ++ LF ++ "---" ++ LF ++ "text") = inr s
    /\ health_metrics (metadata s) = Some m
    /\ word_count m = Js.Finite (-5) 0
    /\ ~ recordInvariant m.
Proof.
  eexists. eexists.
  split; [vm_compute; reflexivity|]. split; [reflexivity|].
  split; [reflexivity|]. intros [H _]. vm_compute in H. discriminate.
Qed.

(** ** C4: the separator line and the result of a comparison *)

Lemma findIndex_app {A : Type} (p : A -> bool) (pre post : list A) (x : A) :
  (forall y, In y pre -> p y = false) -> p x = true ->
  findIndex p (pre ++ x :: post) = Some (List.length pre).
Proof.
  intros Hpre Hx. induction pre as [|a pre IH]; simpl.
  - now rewrite Hx.
  - rewrite (Hpre a (or_introl eq_refl)), IH; [reflexivity|].
    intros y Hy. apply Hpre. now right.
Qed.

Lemma separator_absent (lines : list string) :
  findIndex (fun line => String.eqb line "---") lines = None <-> ~ In "---" lines.
Proof.
  rewrite findIndex_None. split.
  - intros H Hin. specialize (H _ Hin). discriminate.
  - intros H y Hy. apply String.eqb_neq. intros ->. contradiction.
Qed.

Lemma parseDocument_FormatError (text : string) :
  parseDocument text = inl FormatError <-> ~ In "---" (Js.split text LF).
Proof.
  rewrite <- separator_absent. pose proof (parseDocument_cases text) as H.
  destruct (findIndex _ (Js.split text LF)) as [i|].
  - cbv zeta in H. destruct H as (m & _ & ->). split; discriminate.
  - now split.
Qed.

Lemma parseDocument_only_FormatError (text : string) (e : exn) :
  parseDocument text = inl e -> e = FormatError.
Proof.
  pose proof (parseDocument_cases text) as H.
  destruct (findIndex _ (Js.split text LF)) as [i|].
  - cbv zeta in H. destruct H as (m & _ & ->). discriminate.
  - rewrite H. now intros [= <-].
Qed.

Lemma firstn_before {A : Type} (pre post : list A) (x : A) :
  firstn (List.length pre) (pre ++ x :: post) = pre.
Proof. induction pre as [|a pre IH]; simpl; [reflexivity|now rewrite IH]. Qed.

Lemma skipn_after {A : Type} (pre post : list A) (x : A) :
  skipn (List.length pre + 1) (pre ++ x :: post) = post.
Proof. induction pre as [|a pre IH]; simpl; [reflexivity|exact IH]. Qed.

Lemma parseDocument_boundary (text : string) (pre post : list string) :
  Js.split text LF = (pre ++ "---" :: post)%list ->
  ~ In "---" pre ->
  exists m,
    parseHealthMetrics pre (headerField pre "Updated:") = inr m
    /\ parseDocument text
       = inr {| metadata := metadataOf pre m; content := filter notBlank post |}.
Proof.
  intros Hsplit Hpre. pose proof (parseDocument_cases text) as H.
  rewrite Hsplit in H.
  rewrite (findIndex_app _ pre post "---") in H.
  - cbv zeta in H. now rewrite firstn_before, skipn_after in H.
  - intros y Hy. apply String.eqb_neq. intros ->. contradiction.
  - reflexivity.
Qed.

Lemma parseSnapshot_has_metrics (fs : FileSystem) (filePath : string) (s : Snapshot) :
  parseSnapshot fs filePath = inr s ->
  exists m, health_metrics (metadata s) = Some m.
Proof.
  unfold parseSnapshot. destruct (fs filePath) as [text|]; [|discriminate].
  pose proof (parseDocument_cases text) as H.
  destruct (findIndex _ (Js.split text LF)) as [i|].
  - cbv zeta in H. destruct H as (m & _ & ->). intros [= <-]. now exists m.
  - rewrite H. discriminate.
Qed.

Lemma compareSnapshots_result (fs : FileSystem) (first : Side) (old new : string) :
  match compareSnapshots fs first old new with
  | inr d =>
      exists so sn mo mn,
        parseSnapshot fs old = inr so
        /\ parseSnapshot fs new = inr sn
        /\ health_metrics (metadata so) = Some mo
        /\ health_metrics (metadata sn) = Some mn
        /\ d = {| oldPath := old;
                  newPath := new;
                  metrics := {| metrics_old := mo;
                                metrics_new := mn;
                                changes := compareMetrics mo mn |};
                  diff_content := compareContent (content so) (content sn) |}
  | inl e => parseSnapshot fs old = inl e \/ parseSnapshot fs new = inl e
  end.
Proof.
  unfold compareSnapshots.
  destruct (parseSnapshot fs old) as [e1|so] eqn:Ho;
    destruct (parseSnapshot fs new) as [e2|sn] eqn:Hn.
  - destruct first; auto.
  - auto.
  - auto.
  - destruct (parseSnapshot_has_metrics _ _ _ Ho) as [mo Hmo].
    destruct (parseSnapshot_has_metrics _ _ _ Hn) as [mn Hmn].
    rewrite Hmo, Hmn. simpl. exists so, sn, mo, mn. auto.
Qed.

Lemma compareSnapshots_error (fs : FileSystem) (first : Side) (old new : string) :
  isError (parseSnapshot fs old) = true \/ isError (parseSnapshot fs new) = true ->
  isError (compareSnapshots fs first old new) = true.
Proof.
  unfold compareSnapshots.
  destruct (parseSnapshot fs old); destruct (parseSnapshot fs new); simpl; auto.
  intros [H|H]; discriminate.
Qed.

(** C4: parsing a document fails, with the format error and with no other
    error, exactly when no line is [---]; otherwise the first such line is
    the boundary, the metadata is read from the lines before it and the body
    is the lines after it without the blank ones; a comparison returns
    either the complete diff of two parsed snapshots or an error, and it
    returns an error as soon as one parse fails. *)
Theorem C4_separator_and_atomic_result :
  (forall text, parseDocument text = inl FormatError <-> ~ In "---" (Js.split text LF))
  /\ (forall text e, parseDocument text = inl e -> e = FormatError)
  /\ (forall text pre post,
        Js.split text LF = (pre ++ "---" :: post)%list ->
        ~ In "---" pre ->
        exists m,
          parseHealthMetrics pre (headerField pre "Updated:") = inr m
          /\ parseDocument text
             = inr {| metadata := metadataOf pre m; content := filter notBlank post |})
  /\ (forall fs first old new,
        match compareSnapshots fs first old new with
        | inr d =>
            exists so sn mo mn,
              parseSnapshot fs old = inr so
              /\ parseSnapshot fs new = inr sn
              /\ health_metrics (metadata so) = Some mo
              /\ health_metrics (metadata sn) = Some mn
              /\ d = {| oldPath := old;
                        newPath := new;
                        metrics := {| metrics_old := mo;
                                      metrics_new := mn;
                                      changes := compareMetrics mo mn |};
                        diff_content := compareContent (content so) (content sn) |}
        | inl e => parseSnapshot fs old = inl e \/ parseSnapshot fs new = inl e
        end)
  /\ (forall fs first old new,
        isError (parseSnapshot fs old) = true \/ isError (parseSnapshot fs new) = true ->
        isError (compareSnapshots fs first old new) = true).
Proof.
  split; [apply parseDocument_FormatError|].
  split; [apply parseDocument_only_FormatError|].
  split; [apply parseDocument_boundary|].
  split; [apply compareSnapshots_result|apply compareSnapshots_error].
Qed.

Lemma C4_separator_and_atomic_result_witness :
  parseDocument "no separator" = inl FormatError
  /\ (exists m,
        parseHealthMetrics ["Version: 1"] (headerField ["Version: 1"] "Updated:") = inr m
        /\ parseDocument ("Version: 1" ++ LF ++ "---" ++ LF ++ "a" ++ LF ++ LF
                          ++ "---" ++ LF ++ "b")
           = inr {| metadata := metadataOf ["Version: 1"] m;
                    content := filter notBlank ["a"; EmptyString; "---"; "b"] |})
  /\ isError (compareSnapshots (twoFiles "no separator" ("---" ++ LF ++ "b"))
                               OldFirst "old.md" "new.md") = true.
Proof.
  split; [|split].
  - apply (proj1 C4_separator_and_atomic_result).
    vm_compute. intros [H|[]]. discriminate.
  - apply (proj1 (proj2 (proj2 C4_separator_and_atomic_result))).
    + vm_compute. reflexivity.
    + simpl. intros [H|[]]. discriminate.
  - apply (proj2 (proj2 (proj2 (proj2 C4_separator_and_atomic_result)))).
    left. vm_compute. reflexivity.
Defined.

(** ** C2: pairing by the similarity threshold *)

Lemma filter_notBlank_nonempty (l : list string) : ~ In EmptyString (filter notBlank l).
Proof. intros H. apply filter_In in H. destruct H as [_ H]. discriminate. Qed.

Lemma parsed_content_nonempty (fs : FileSystem) (filePath : string) (s : Snapshot) :
  parseSnapshot fs filePath = inr s -> ~ In EmptyString (content s).
Proof.
  unfold parseSnapshot. destruct (fs filePath) as [text|]; [|discriminate].
  pose proof (parseDocument_cases text) as H.
  destruct (findIndex _ (Js.split text LF)) as [i|].
  - cbv zeta in H. destruct H as (m & _ & ->). intros [= <-]. simpl.
    apply filter_notBlank_nonempty.
  - rewrite H. discriminate.
Qed.

(** ** The word set of the source and the words of a line *)

Lemma words_from_nonempty (s cur w : string) : In w (words_from s cur) -> w <> EmptyString.
Proof.
  revert cur. induction s as [|c s IH]; intros cur; simpl.
  - destruct cur; simpl; [contradiction|]. intros [<-|[]]. discriminate.
  - destruct (Js.isWhiteSpace c); [|apply IH].
    destruct cur; [apply IH|]. intros [<-|H]; [discriminate|now apply IH in H].
Qed.

(** The pieces of the split that are not empty are the words. *)
Lemma split_pieces_words (s : string) (inRun : bool) (cur w : string) :
  (inRun = true -> cur = EmptyString) -> w <> EmptyString ->
  In w (Js.splitWhiteSpace_from s inRun cur) <-> In w (words_from s cur).
Proof.
  revert inRun cur. induction s as [|c s IH]; intros inRun cur Hrun Hw; simpl.
  - destruct cur; simpl; [|reflexivity]. split; [intros [H|[]]; congruence|contradiction].
  - destruct (Js.isWhiteSpace c).
    + destruct inRun.
      * rewrite (Hrun eq_refl). now apply IH.
      * simpl. rewrite (IH true EmptyString) by auto.
        destruct cur; simpl; [|reflexivity]. split; [intros [H|H]; [congruence|assumption]|auto].
    + apply IH; [discriminate|assumption].
Qed.

Lemma endsWithWhiteSpace_cons (c : ascii) (s : string) :
  endsWithWhiteSpace (String c s)
  = match s with EmptyString => Js.isWhiteSpace c | _ => endsWithWhiteSpace s end.
Proof. reflexivity. Qed.

(** The split has an empty piece after its first piece exactly when the
    text ends with white space. *)
Lemma split_empty_piece_from (s : string) :
  (forall cur, cur <> EmptyString ->
     In EmptyString (Js.splitWhiteSpace_from s false cur) <-> endsWithWhiteSpace s = true)
  /\ (In EmptyString (Js.splitWhiteSpace_from s true EmptyString)
      <-> s = EmptyString \/ endsWithWhiteSpace s = true).
Proof.
  induction s as [|c s [IHF IHE]].
  - split.
    + intros cur Hcur. simpl. split; [intros [H|[]]; congruence|discriminate].
    + simpl. split; auto.
  - assert (Hends : Js.isWhiteSpace c = true ->
              (s = EmptyString \/ endsWithWhiteSpace s = true)
              <-> endsWithWhiteSpace (String c s) = true).
    { intros Hc. rewrite endsWithWhiteSpace_cons. destruct s; [|split; [intros [H|H]; [discriminate|assumption]|auto]].
      split; auto. }
    assert (Hends' : Js.isWhiteSpace c = false ->
              endsWithWhiteSpace s = true <-> endsWithWhiteSpace (String c s) = true).
    { intros Hc. rewrite endsWithWhiteSpace_cons. destruct s; [|reflexivity].
      simpl. rewrite Hc. reflexivity. }
    split.
    + intros cur Hcur. cbn [Js.splitWhiteSpace_from].
      destruct (Js.isWhiteSpace c) eqn:Hc.
      * rewrite <- (Hends eq_refl), <- IHE. simpl. split; [intros [H|H]; [congruence|assumption]|auto].
      * rewrite <- (Hends' eq_refl). apply IHF. now destruct cur.
    + cbn [Js.splitWhiteSpace_from].
      destruct (Js.isWhiteSpace c) eqn:Hc.
      * rewrite IHE, (Hends eq_refl). split; [auto|intros [H|H]; [discriminate|assumption]].
      * rewrite (IHF (EmptyString ++ String c EmptyString)) by discriminate.
        rewrite (Hends' eq_refl). split; [auto|intros [H|H]; [discriminate|assumption]].
Qed.

Lemma split_empty_piece (s : string) :
  In EmptyString (Js.splitWhiteSpace s) <-> hasEmptyPiece s = true.
Proof.
  unfold Js.splitWhiteSpace, hasEmptyPiece. destruct s as [|c s].
  - simpl. split; auto.
  - cbn [Js.splitWhiteSpace_from String.eqb startsWithWhiteSpace orb].
    destruct (Js.isWhiteSpace c) eqn:Hc.
    + simpl. split; auto.
    + cbn [orb]. rewrite (proj1 (split_empty_piece_from s)) by discriminate.
      rewrite endsWithWhiteSpace_cons. destruct s; [|reflexivity].
      simpl. rewrite Hc. reflexivity.
Qed.

Lemma isWhiteSpace_toLowerCaseChar (c : ascii) :
  Js.isWhiteSpace (Js.toLowerCaseChar c) = Js.isWhiteSpace c.
Proof. destruct c as [[] [] [] [] [] [] [] []]; reflexivity. Qed.

Lemma hasEmptyPiece_toLowerCase (line : string) :
  hasEmptyPiece (Js.toLowerCase line) = hasEmptyPiece line.
Proof.
  unfold hasEmptyPiece. f_equal; [f_equal|].
  - now destruct line.
  - destruct line; simpl; [reflexivity|apply isWhiteSpace_toLowerCaseChar].
  - induction line as [|c s IH]; [reflexivity|].
    cbn [Js.toLowerCase]. rewrite !endsWithWhiteSpace_cons, IH.
    destruct s; simpl; [apply isWhiteSpace_toLowerCaseChar|reflexivity].
Qed.

Lemma In_distinct (l : list string) (w : string) : In w (distinct l) <-> In w l.
Proof.
  induction l as [|x l IH]; simpl; [reflexivity|].
  destruct (existsb (String.eqb x) l) eqn:E; simpl; rewrite IH; [|reflexivity].
  split; [auto|]. intros [<-|H]; [|assumption].
  apply existsb_exists in E. destruct E as [y [Hy E]]. apply String.eqb_eq in E. now subst.
Qed.

Lemma NoDup_distinct (l : list string) : NoDup (distinct l).
Proof.
  induction l as [|x l IH]; simpl; [constructor|].
  destruct (existsb (String.eqb x) l) eqn:E; [assumption|].
  constructor; [|assumption]. rewrite In_distinct. intros H.
  assert (existsb (String.eqb x) l = true)
    by (apply existsb_exists; exists x; split; [assumption|apply String.eqb_refl]).
  congruence.
Qed.

Lemma wordsOf_nonempty (line : string) : ~ In EmptyString (wordsOf line).
Proof.
  unfold wordsOf. rewrite In_distinct. intros H. now apply words_from_nonempty in H.
Qed.

(** The word set of the source holds the words of the line, and the empty
    string when the split has an empty piece; nothing else. *)
Lemma wordSet_splitWords (line w : string) :
  In w (wordSet line) <-> In w (splitWords line).
Proof.
  unfold wordSet.
  rewrite <- (has_In (Js.newSet (Js.splitWhiteSpace (Js.toLowerCase line))) w).
  rewrite has_newSet_In.
  assert (Hwords : w <> EmptyString ->
            In w (Js.splitWhiteSpace (Js.toLowerCase line)) <-> In w (wordsOf line)).
  { intros Hw. unfold wordsOf, Js.splitWhiteSpace. rewrite In_distinct.
    apply split_pieces_words; [discriminate|assumption]. }
  unfold splitWords.
  destruct (String.eqb_spec w EmptyString) as [->|Hw].
  - rewrite split_empty_piece, hasEmptyPiece_toLowerCase.
    destruct (hasEmptyPiece line); [simpl; split; auto|].
    split; [discriminate|]. intros H. now apply wordsOf_nonempty in H.
  - rewrite (Hwords Hw). destruct (hasEmptyPiece line); [|reflexivity].
    simpl. split; [auto|]. intros [H|H]; [congruence|assumption].
Qed.

Lemma NoDup_add (s : list string) (x : string) : NoDup s -> NoDup (Js.add s x).
Proof.
  intros H. unfold Js.add. destruct (Js.has s x) eqn:E; [assumption|].
  apply NoDup_app; [assumption | repeat constructor; intros [] | ].
  intros y Hy [<-|[]]. apply has_In in Hy. congruence.
Qed.

Lemma NoDup_newSet (l : list string) : NoDup (Js.newSet l).
Proof.
  unfold Js.newSet. assert (H : NoDup (@nil string)) by constructor.
  revert H. generalize (@nil string) as acc.
  induction l as [|a l IH]; intros acc H; simpl; [assumption|].
  apply IH, NoDup_add, H.
Qed.

Lemma NoDup_splitWords (line : string) : NoDup (splitWords line).
Proof.
  unfold splitWords. destruct (hasEmptyPiece line).
  - constructor; [apply wordsOf_nonempty|apply NoDup_distinct].
  - apply NoDup_distinct.
Qed.

Lemma same_elements_length (A A' : list string) :
  NoDup A -> NoDup A' -> (forall w, In w A <-> In w A') ->
  List.length A = List.length A'.
Proof.
  intros HA HA' H. apply Nat.le_antisymm; apply NoDup_incl_length; try assumption;
    intros w Hw; now apply H.
Qed.

Lemma same_elements_overlap (A A' B B' : list string) :
  NoDup A -> NoDup A' -> (forall w, In w A <-> In w A') -> (forall w, In w B <-> In w B') ->
  overlap A B = overlap A' B'.
Proof.
  intros HA HA' HAA HBB. unfold overlap. apply same_elements_length.
  - now apply NoDup_filter.
  - now apply NoDup_filter.
  - intros w. rewrite !filter_In, !existsb_exists. rewrite HAA. split.
    + intros [Hw [y [Hy E]]]. split; [assumption|]. exists y. split; [now apply HBB|assumption].
    + intros [Hw [y [Hy E]]]. split; [assumption|]. exists y. split; [now apply HBB|assumption].
Qed.

(** The test of the source is the 70% test on the word sets of the split. *)
Lemma similar_similarBySplit (a b : string) : similar a b = similarBySplit a b.
Proof.
  apply eq_true_iff_eq. rewrite similar_iff.
  unfold similarBySplit, atLeast70, largerSize, commonWords, Js.size. cbv zeta.
  rewrite (same_elements_length (wordSet a) (splitWords a)
             (NoDup_newSet _) (NoDup_splitWords a) (wordSet_splitWords a)).
  rewrite (same_elements_length (wordSet b) (splitWords b)
             (NoDup_newSet _) (NoDup_splitWords b) (wordSet_splitWords b)).
  change (List.length (filter (fun word => Js.has (wordSet b) word) (wordSet a)))
    with (overlap (wordSet a) (wordSet b)).
  rewrite (same_elements_overlap (wordSet a) (splitWords a) (wordSet b) (splitWords b)
             (NoDup_newSet _) (NoDup_splitWords a) (wordSet_splitWords a)
             (wordSet_splitWords b)).
  rewrite andb_true_iff, Nat.ltb_lt, Nat.leb_le.
  assert (Hpos : 0 < List.length (splitWords a)).
  { pose proof (wordSet_nonempty a) as Hne.
    rewrite <- (same_elements_length (wordSet a) (splitWords a)
                  (NoDup_newSet _) (NoDup_splitWords a) (wordSet_splitWords a)).
    destruct (wordSet a); [congruence|simpl; lia]. }
  split; [intros H; split; [|exact H]|intros [_ H]; exact H].
  pose proof (Nat.le_max_l (List.length (splitWords a)) (List.length (splitWords b))). lia.
Qed.

Lemma find_ext {A : Type} (f g : A -> bool) (l : list A) :
  (forall x, f x = g x) -> find f l = find g l.
Proof.
  intros H. induction l as [|a l IH]; simpl; [reflexivity|]. now rewrite H, IH.
Qed.

Lemma paired_by_split (oldLines newLines : list string) (line : string) :
  ~ In EmptyString oldLines ->
  In line newLines ->
  ~ In line oldLines ->
  pairedByTest similarBySplit oldLines newLines line.
Proof.
  intros Hne Hnew Hold.
  pose proof (paired_when_old_nonempty oldLines newLines line Hne Hnew Hold) as H.
  unfold pairedByThreshold, firstSimilar in H. unfold pairedByTest.
  now rewrite (find_ext (similarBySplit line) (similar line) oldLines)
    by (intros x; symmetry; apply similar_similarBySplit).
Qed.

Lemma splitWords_plain (line : string) :
  hasEmptyPiece line = false -> splitWords line = wordsOf line.
Proof. unfold splitWords. now intros ->. Qed.

Lemma similarBySplit_plain (a b : string) :
  hasEmptyPiece a = false -> hasEmptyPiece b = false ->
  similarBySplit a b = similarAsStated a b.
Proof.
  intros Ha Hb. unfold similarBySplit, similarAsStated.
  now rewrite !splitWords_plain by assumption.
Qed.

(** C2, amended: when no line of the old sequence is the empty string (the
    body lines kept by the parser never are), a new line that does not occur
    in the old sequence is paired with the first old line, in input order,
    whose similarity |intersection| / max(|setA|, |setB|) is at least 0.70,
    and it is added when no old line reaches the threshold.  The word set of
    a line is the set of its case-folded words together with the empty
    string when the line is empty or starts or ends with white space: the
    split of the source has an empty piece there.  For two lines that
    neither start nor end with white space the test is the test on their
    words, so that such a pair at exactly 70% is modified and a pair below
    is one added and one removed line. *)
Theorem C2_threshold_pairing :
  (forall oldLines newLines line,
      ~ In EmptyString oldLines ->
      In line newLines ->
      ~ In line oldLines ->
      pairedByTest similarBySplit oldLines newLines line)
  /\ (forall line w, In w (wordSet line) <-> In w (splitWords line))
  /\ (forall a b, hasEmptyPiece a = false -> hasEmptyPiece b = false ->
        similarBySplit a b = similarAsStated a b)
  /\ (forall o n, o <> EmptyString -> o <> n ->
        compareContent [o] [n]
        = if similarBySplit n o
          then {| added := []; removed := []; modified := [mkModified o n] |}
          else {| added := [n]; removed := [o]; modified := [] |})
  /\ (forall fs filePath s,
        parseSnapshot fs filePath = inr s -> ~ In EmptyString (content s)).
Proof.
  split; [|split; [|split; [|split]]].
  - apply paired_by_split.
  - apply wordSet_splitWords.
  - apply similarBySplit_plain.
  - intros o n Ho Hon. rewrite <- similar_similarBySplit.
    now apply compareContent_two_lines.
  - apply parsed_content_nonempty.
Qed.

(** An instance at exactly 70%: ten words on each side, seven shared. *)
Lemma C2_threshold_pairing_witness :
  pairedByTest similarBySplit ["a b c d e f g h i j"] ["a b c d e f g x y z"]
               "a b c d e f g x y z"
  /\ similarBySplit "a b c d e f g x y z" "a b c d e f g h i j"
     = similarAsStated "a b c d e f g x y z" "a b c d e f g h i j"
  /\ compareContent ["a b c d e f g h i j"] ["a b c d e f g x y z"]
     = (if similarBySplit "a b c d e f g x y z" "a b c d e f g h i j"
        then {| added := []; removed := [];
                modified := [mkModified "a b c d e f g h i j" "a b c d e f g x y z"] |}
        else {| added := ["a b c d e f g x y z"]; removed := ["a b c d e f g h i j"];
                modified := [] |}).
Proof.
  split; [|split].
  - apply (proj1 C2_threshold_pairing).
    + simpl. intros [H|[]]. discriminate.
    + simpl. left. reflexivity.
    + simpl. intros [H|[]]. discriminate.
  - apply (proj1 (proj2 (proj2 C2_threshold_pairing))); reflexivity.
  - apply (proj1 (proj2 (proj2 (proj2 C2_threshold_pairing)))); discriminate.
Defined.

(** C2 as stated fails on indented lines.  The two list items
    [  - item one] and [  - item two] are kept by the parser; they differ and
    share two of their three words, which is under 70%, and they are still
    reported as one modified pair: the split of each line starts with an
    empty piece, which makes three common pieces out of four. *)
Lemma C2_indented_lines_refute :
  "  - item one" <> "  - item two"
  /\ wordsOf "  - item one" = ["-"; "item"; "one"]
  /\ wordsOf "  - item two" = ["-"; "item"; "two"]
  /\ overlap (wordsOf "  - item two") (wordsOf "  - item one") = 2
  /\ similarAsStated "  - item two" "  - item one" = false
  /\ wordSet "  - item one" = [EmptyString; "-"; "item"; "one"]
  /\ wordSet "  - item two" = [EmptyString; "-"; "item"; "two"]
  /\ compareContent ["  - item one"] ["  - item two"]
     = {| added := []; removed := [];
          modified := [mkModified "  - item one" "  - item two"] |}
  /\ (exists d,
        compareSnapshots (twoFiles ("---" ++ LF ++ "  - item one")
                                   ("---" ++ LF ++ "  - item two"))
                         OldFirst "old.md" "new.md" = inr d
        /\ diff_content d
           = {| added := []; removed := [];
                modified := [mkModified "  - item one" "  - item two"] |}).
Proof.
  split; [discriminate|].
  repeat (split; [vm_compute; reflexivity|]).
  eexists. split; vm_compute; reflexivity.
Qed.

(** ** C9: the comparison depends only on the two file contents *)

(** C9: two runs of the comparison that read the same two file contents,
    from whatever paths, in whatever file system and whichever parse settles
    first, both fail or both succeed, and then the metrics (old, new,
    changes) and the content diff (added, removed, modified, in order) are
    identical; with the same paths the whole results are identical. *)
Theorem C9_deterministic
    (fs1 fs2 : FileSystem) (first1 first2 : Side) (old1 new1 old2 new2 : string) :
  fs1 old1 = fs2 old2 ->
  fs1 new1 = fs2 new2 ->
  match compareSnapshots fs1 first1 old1 new1, compareSnapshots fs2 first2 old2 new2 with
  | inr d1, inr d2 =>
      metrics d1 = metrics d2
      /\ diff_content d1 = diff_content d2
      /\ (old1 = old2 -> new1 = new2 -> d1 = d2)
  | inl _, inl _ => True
  | _, _ => False
  end.
Proof.
  intros Ho Hn. unfold compareSnapshots, parseSnapshot. rewrite Ho, Hn.
  destruct (fs2 old2) as [oldText|]; destruct (fs2 new2) as [newText|];
    try (destruct first1, first2; exact I).
  - destruct (parseDocument oldText) as [e1|so];
      destruct (parseDocument newText) as [e2|sn];
      try (destruct first1, first2; exact I).
    destruct (health_metrics (metadata so)); simpl;
      [|destruct first1, first2; exact I].
    destruct (health_metrics (metadata sn)); simpl; [|exact I].
    repeat split. intros -> ->. reflexivity.
  - destruct (parseDocument oldText); destruct first1, first2; exact I.
  - destruct (parseDocument newText); destruct first1, first2; exact I.
Qed.

Lemma C9_deterministic_witness :
  match compareSnapshots
          (twoFiles ("- TODOs: 2" ++ LF ++ "---" ++ LF ++ "alpha")
                    ("- TODOs: 3" ++ LF ++ "---" ++ LF ++ "beta"))
          OldFirst "old.md" "new.md",
        compareSnapshots
          (fun filePath =>
             if String.eqb filePath "b/new.md"
             then Some ("- TODOs: 3" ++ LF ++ "---" ++ LF ++ "beta")
             else Some ("- TODOs: 2" ++ LF ++ "---" ++ LF ++ "alpha"))
          NewFirst "b/old.md" "b/new.md"
  with
  | inr d1, inr d2 =>
      metrics d1 = metrics d2
      /\ diff_content d1 = diff_content d2
      /\ ("old.md" = "b/old.md" -> "new.md" = "b/new.md" -> d1 = d2)
  | inl _, inl _ => True
  | _, _ => False
  end.
Proof.
  apply (C9_deterministic
           (twoFiles ("- TODOs: 2" ++ LF ++ "---" ++ LF ++ "alpha")
                     ("- TODOs: 3" ++ LF ++ "---" ++ LF ++ "beta"))
           (fun filePath =>
              if String.eqb filePath "b/new.md"
              then Some ("- TODOs: 3" ++ LF ++ "---" ++ LF ++ "beta")
              else Some ("- TODOs: 2" ++ LF ++ "---" ++ LF ++ "alpha"))
           OldFirst NewFirst "old.md" "new.md" "b/old.md" "b/new.md");
    reflexivity.
Defined.

(** ** Decimal digits *)

Lemma allChars_append (p : ascii -> bool) (s t : string) :
  allChars p (s ++ t) = allChars p s && allChars p t.
Proof. induction s as [|c s IH]; simpl; [reflexivity|]. now rewrite IH, andb_assoc. Qed.

Lemma allChars_weaken (p q : ascii -> bool) (s : string) :
  (forall c, p c = true -> q c = true) -> allChars p s = true -> allChars q s = true.
Proof.
  intros Hpq. induction s as [|c s IH]; simpl; [reflexivity|].
  intros H. apply andb_true_iff in H. destruct H as [Hc Hs].
  now rewrite (Hpq c Hc), IH.
Qed.

Lemma append_assoc (a b c : string) : (a ++ b) ++ c = a ++ b ++ c.
Proof. induction a as [|x a IH]; simpl; [reflexivity|now rewrite IH]. Qed.

Lemma append_nil_r (a : string) : a ++ EmptyString = a.
Proof. induction a as [|x a IH]; simpl; [reflexivity|now rewrite IH]. Qed.

Lemma length_append (a b : string) :
  String.length (a ++ b) = String.length a + String.length b.
Proof. induction a as [|x a IH]; simpl; [reflexivity|now rewrite IH]. Qed.

Lemma digitValue_digitChar (d : N) : (d < 10)%N -> Js.digitValue (Js.digitChar d) = d.
Proof.
  intros H. unfold Js.digitValue, Js.digitChar.
  rewrite N_ascii_embedding by lia. lia.
Qed.

Lemma isDigit_digitChar (d : N) : (d < 10)%N -> Js.isDigit (Js.digitChar d) = true.
Proof.
  intros H. unfold Js.isDigit, Js.digitChar.
  rewrite N_ascii_embedding by lia.
  apply andb_true_iff. split; apply N.leb_le; lia.
Qed.

Lemma digitsValue_from_append (acc : N) (s t : string) :
  Js.digitsValue_from acc (s ++ t) = Js.digitsValue_from (Js.digitsValue_from acc s) t.
Proof. revert acc. induction s as [|c s IH]; intros acc; simpl; [reflexivity|apply IH]. Qed.

Lemma digitsOf_fuel_acc (fuel : nat) (n : N) (acc : string) :
  Js.digitsOf_fuel fuel n acc = Js.digitsOf_fuel fuel n EmptyString ++ acc.
Proof.
  revert n acc. induction fuel as [|f IH]; intros n acc; simpl; [reflexivity|].
  destruct (n <? 10)%N; [reflexivity|].
  rewrite IH. rewrite (IH _ (String _ EmptyString)). now rewrite append_assoc.
Qed.

Lemma digitsOf_fuel_enough (f1 : nat) :
  forall (f2 : nat) (n : N) (acc : string),
    (n < 2 ^ N.of_nat f1)%N -> (n < 2 ^ N.of_nat f2)%N ->
    Js.digitsOf_fuel (S f1) n acc = Js.digitsOf_fuel (S f2) n acc.
Proof.
  induction f1 as [|f1 IH]; intros f2 n acc H1 H2.
  - simpl in H1. assert (n = 0%N) by lia. subst. reflexivity.
  - cbn [Js.digitsOf_fuel]. destruct (N.ltb_spec n 10); [reflexivity|].
    destruct f2 as [|f2].
    + simpl in H2. lia.
    + cbn [Js.digitsOf_fuel].
      rewrite Nat2N.inj_succ, N.pow_succ_r' in H1, H2.
      assert (Hdiv : (n / 10 <= n / 2)%N).
      { apply N.div_le_compat_l. lia. }
      assert (Hhalf : forall k, (n < 2 * k -> n / 2 < k)%N).
      { intros k Hk. apply N.Div0.div_lt_upper_bound. lia. }
      apply IH.
      * specialize (Hhalf _ H1). lia.
      * specialize (Hhalf _ H2). lia.
Qed.

Lemma size_nat_bound (n : N) : (n < 2 ^ N.of_nat (N.size_nat n))%N.
Proof.
  destruct n as [|p]; [simpl; lia|]. simpl N.size_nat.
  induction p as [p IH|p IH|]; cbn [Pos.size_nat].
  - rewrite Nat2N.inj_succ, N.pow_succ_r'. lia.
  - rewrite Nat2N.inj_succ, N.pow_succ_r'. lia.
  - simpl. lia.
Qed.

(** The defining equation of the digits of a number. *)
Lemma digitsOf_step (n : N) :
  Js.digitsOf n
  = if (n <? 10)%N then String (Js.digitChar n) EmptyString
    else Js.digitsOf (n / 10) ++ String (Js.digitChar (n mod 10)) EmptyString.
Proof.
  unfold Js.digitsOf. cbn [Js.digitsOf_fuel].
  destruct (N.ltb_spec n 10) as [Hlt|Hge].
  - now rewrite N.mod_small.
  - rewrite digitsOf_fuel_acc. f_equal.
    pose proof (size_nat_bound n) as Hn.
    destruct (N.size_nat n) as [|k] eqn:Hk.
    + simpl in Hn. lia.
    + rewrite Nat2N.inj_succ, N.pow_succ_r' in Hn.
      apply digitsOf_fuel_enough.
      * assert ((n / 10 <= n / 2)%N) by (apply N.div_le_compat_l; lia).
        assert ((n / 2 < 2 ^ N.of_nat k)%N) by (apply N.Div0.div_lt_upper_bound; lia).
        lia.
      * apply size_nat_bound.
Qed.

Lemma digitsOf_ind (P : N -> Prop) :
  (forall n, (n < 10)%N -> P n) ->
  (forall n, (10 <= n)%N -> P (n / 10)%N -> P n) ->
  forall n, P n.
Proof.
  intros Hsmall Hbig n.
  induction n as [n IH] using (well_founded_induction N.lt_wf_0).
  destruct (N.ltb_spec n 10) as [Hlt|Hge]; [now apply Hsmall|].
  apply Hbig; [assumption|]. apply IH. apply N.div_lt; lia.
Qed.

Lemma digitsValue_digitsOf (n : N) : Js.digitsValue (Js.digitsOf n) = n.
Proof.
  induction n as [n Hn|n Hn IH] using digitsOf_ind; rewrite digitsOf_step.
  - apply N.ltb_lt in Hn. rewrite Hn. unfold Js.digitsValue. simpl.
    apply N.ltb_lt in Hn. now rewrite digitValue_digitChar.
  - apply N.ltb_ge in Hn. rewrite Hn. unfold Js.digitsValue in *.
    rewrite digitsValue_from_append, IH. simpl.
    rewrite digitValue_digitChar by (apply N.mod_lt; lia).
    rewrite N.mul_comm. symmetry. apply N.div_mod. lia.
Qed.

Lemma allDigits_digitsOf (n : N) : allChars Js.isDigit (Js.digitsOf n) = true.
Proof.
  induction n as [n Hn|n Hn IH] using digitsOf_ind; rewrite digitsOf_step.
  - pose proof Hn as Hn'. apply N.ltb_lt in Hn'. rewrite Hn'. simpl.
    now rewrite isDigit_digitChar.
  - apply N.ltb_ge in Hn. rewrite Hn. rewrite allChars_append, IH. simpl.
    rewrite isDigit_digitChar; [reflexivity|]. apply N.mod_lt. lia.
Qed.

Lemma digitsOf_nonempty (n : N) : Js.digitsOf n <> EmptyString.
Proof.
  rewrite digitsOf_step. destruct (n <? 10)%N; [discriminate|].
  destruct (Js.digitsOf (n / 10)); discriminate.
Qed.

Lemma digitsOf_times_ten (n : N) :
  (0 < n)%N -> Js.digitsOf (n * 10) = Js.digitsOf n ++ "0".
Proof.
  intros Hn. rewrite (digitsOf_step (n * 10)).
  assert (H : (n * 10 <? 10)%N = false) by (apply N.ltb_ge; lia).
  rewrite H, N.div_mul, N.Div0.mod_mul by lia. reflexivity.
Qed.

(** The number of digits and the size of the number. *)
Lemma digitsOf_length_bounds (n : N) :
  (0 < n)%N ->
  (10 ^ N.of_nat (String.length (Js.digitsOf n) - 1) <= n
   /\ n < 10 ^ N.of_nat (String.length (Js.digitsOf n)))%N.
Proof.
  induction n as [n Hn|n Hn IH] using digitsOf_ind; intros Hpos; rewrite digitsOf_step.
  - pose proof Hn as Hn'. apply N.ltb_lt in Hn'. rewrite Hn'. simpl. lia.
  - pose proof Hn as Hn'. apply N.ltb_ge in Hn'. rewrite Hn'.
    assert (Hq : (0 < n / 10)%N) by (apply N.div_str_pos; lia).
    specialize (IH Hq). destruct IH as [Hlo Hhi].
    rewrite length_append. simpl String.length.
    pose proof (digitsOf_nonempty (n / 10)) as Hne.
    destruct (String.length (Js.digitsOf (n / 10))) as [|k] eqn:Hlen.
    { destruct (Js.digitsOf (n / 10)); [congruence|discriminate]. }
    replace (S k + 1 - 1) with (S k) by lia.
    replace (S k + 1) with (S (S k)) by lia.
    replace (S k - 1) with k in Hlo by lia.
    rewrite !Nat2N.inj_succ, !N.pow_succ_r' in *.
    pose proof (N.div_mod n 10 ltac:(lia)) as Hdm.
    pose proof (N.mod_lt n 10 ltac:(lia)) as Hm.
    clear Hlen Hne Hq Hn'.
    generalize dependent (n / 10)%N. generalize dependent (n mod 10)%N.
    generalize dependent (10 ^ N.of_nat k)%N. intros. lia.
Qed.

Lemma takeDigits_append (a b : string) :
  allChars Js.isDigit a = true -> Js.takeDigits (a ++ b) = a ++ Js.takeDigits b.
Proof.
  induction a as [|c a IH]; simpl; [reflexivity|]. intros H.
  apply andb_true_iff in H. destruct H as [Hc Ha]. now rewrite Hc, IH.
Qed.

Lemma takeDigits_all (a : string) : allChars Js.isDigit a = true -> Js.takeDigits a = a.
Proof.
  intros H. rewrite <- (append_nil_r a) at 1.
  rewrite takeDigits_append by assumption. simpl. apply append_nil_r.
Qed.

Lemma drop_length_append (a b : string) : Js.drop (String.length a) (a ++ b) = b.
Proof. induction a as [|c a IH]; simpl; [reflexivity|exact IH]. Qed.

Lemma drop_length (a : string) : Js.drop (String.length a) a = EmptyString.
Proof. rewrite <- (append_nil_r a) at 2. apply drop_length_append. Qed.

Lemma take_drop (n : nat) (s : string) : Js.take n s ++ Js.drop n s = s.
Proof.
  revert s. induction n as [|n IH]; intros s; [reflexivity|].
  destruct s as [|c s]; simpl; [reflexivity|now rewrite IH].
Qed.

Lemma length_take (n : nat) (s : string) :
  n <= String.length s -> String.length (Js.take n s) = n.
Proof.
  revert s. induction n as [|n IH]; intros s H; [reflexivity|].
  destruct s as [|c s]; simpl in *; [lia|]. rewrite IH; lia.
Qed.

Lemma length_drop (n : nat) (s : string) :
  String.length (Js.drop n s) = String.length s - n.
Proof.
  revert s. induction n as [|n IH]; intros s; simpl; [lia|].
  destruct s as [|c s]; simpl; [reflexivity|apply IH].
Qed.

Lemma allChars_take (p : ascii -> bool) (n : nat) (s : string) :
  allChars p s = true -> allChars p (Js.take n s) = true.
Proof.
  revert s. induction n as [|n IH]; intros s H; [reflexivity|].
  destruct s as [|c s]; simpl in *; [reflexivity|].
  apply andb_true_iff in H. destruct H as [Hc Hs]. now rewrite Hc, IH.
Qed.

Lemma allChars_drop (p : ascii -> bool) (n : nat) (s : string) :
  allChars p s = true -> allChars p (Js.drop n s) = true.
Proof.
  revert s. induction n as [|n IH]; intros s H; [assumption|].
  destruct s as [|c s]; simpl in *; [reflexivity|].
  apply andb_true_iff in H. destruct H as [Hc Hs]. now apply IH.
Qed.

Lemma allChars_zeros (p : ascii -> bool) (n : nat) :
  p "0"%char = true -> allChars p (Js.zeros n) = true.
Proof. intros H. induction n as [|n IH]; simpl; [reflexivity|now rewrite H, IH]. Qed.

Lemma length_zeros (n : nat) : String.length (Js.zeros n) = n.
Proof. induction n as [|n IH]; simpl; [reflexivity|now rewrite IH]. Qed.

Lemma zeros_plus (a b : nat) : Js.zeros (a + b) = Js.zeros a ++ Js.zeros b.
Proof. induction a as [|a IH]; simpl; [reflexivity|now rewrite IH]. Qed.

Lemma zeros_snoc (a : nat) : Js.zeros (S a) = Js.zeros a ++ "0".
Proof. replace (S a) with (a + 1) by lia. apply zeros_plus. Qed.

Lemma strip_zeros (n : nat) : Js.stripTrailingZeros (Js.zeros n) = EmptyString.
Proof. induction n as [|n IH]; simpl; [reflexivity|now rewrite IH]. Qed.

Lemma strip_append_zeros (s : string) (n : nat) :
  Js.stripTrailingZeros (s ++ Js.zeros n) = Js.stripTrailingZeros s.
Proof.
  induction s as [|c s IH]; simpl; [apply strip_zeros|now rewrite IH].
Qed.

(** A digit string is its significant digits followed by zeros. *)
Lemma strip_decompose (s : string) :
  s = Js.stripTrailingZeros s
      ++ Js.zeros (String.length s - String.length (Js.stripTrailingZeros s))
  /\ String.length (Js.stripTrailingZeros s) <= String.length s.
Proof.
  induction s as [|c s [IH Hlen]]; simpl; [split; [reflexivity|lia]|].
  destruct (Js.stripTrailingZeros s) as [|d t] eqn:Hs.
  - simpl in IH. rewrite Nat.sub_0_r in IH.
    destruct (Ascii.eqb_spec c "0") as [->|Hc]; simpl.
    + split; [|lia]. now rewrite IH at 1.
    + rewrite Nat.sub_0_r. split; [|lia]. now rewrite IH at 1.
  - simpl in *. split; [|lia]. now rewrite IH at 1.
Qed.

Lemma allChars_strip (p : ascii -> bool) (s : string) :
  allChars p s = true -> allChars p (Js.stripTrailingZeros s) = true.
Proof.
  intros H. destruct (strip_decompose s) as [Hs _]. rewrite Hs in H.
  rewrite allChars_append in H. now apply andb_true_iff in H.
Qed.

Lemma digitsValue_from_zeros (acc : N) (n : nat) :
  Js.digitsValue_from acc (Js.zeros n) = (acc * 10 ^ N.of_nat n)%N.
Proof.
  revert acc. induction n as [|n IH]; intros acc.
  - simpl. lia.
  - cbn [Js.zeros Js.digitsValue_from]. rewrite IH.
    rewrite Nat2N.inj_succ, N.pow_succ_r'.
    unfold Js.digitValue. simpl N_of_ascii. lia.
Qed.

Lemma digitsValue_append_zeros (s : string) (n : nat) :
  Js.digitsValue (s ++ Js.zeros n) = (Js.digitsValue s * 10 ^ N.of_nat n)%N.
Proof. unfold Js.digitsValue. now rewrite digitsValue_from_append, digitsValue_from_zeros. Qed.

Lemma digitsValue_zeros_append (n : nat) (s : string) :
  Js.digitsValue (Js.zeros n ++ s) = Js.digitsValue s.
Proof.
  unfold Js.digitsValue. rewrite digitsValue_from_append, digitsValue_from_zeros.
  reflexivity.
Qed.

Lemma digitsOf_scaled (n : N) (t : nat) :
  (0 < n)%N -> Js.digitsOf (n * 10 ^ N.of_nat t) = Js.digitsOf n ++ Js.zeros t.
Proof.
  intros Hn. induction t as [|t IH].
  - simpl. now rewrite N.mul_1_r, append_nil_r.
  - rewrite Nat2N.inj_succ, N.pow_succ_r', zeros_snoc.
    replace (n * (10 * 10 ^ N.of_nat t))%N with (n * 10 ^ N.of_nat t * 10)%N by lia.
    rewrite digitsOf_times_ten, IH, append_assoc; [reflexivity|].
    assert (0 < 10 ^ N.of_nat t)%N by (apply N.neq_0_lt_0, N.pow_nonzero; lia). nia.
Qed.

(** The significant digits of a positive number are not empty. *)
Lemma strip_digitsOf_nonempty (n : N) :
  (0 < n)%N -> Js.stripTrailingZeros (Js.digitsOf n) <> EmptyString.
Proof.
  intros Hn Hs. pose proof (digitsValue_digitsOf n) as Hv.
  destruct (strip_decompose (Js.digitsOf n)) as [Hd _].
  rewrite Hd, Hs in Hv. simpl append in Hv.
  unfold Js.digitsValue in Hv. rewrite digitsValue_from_zeros in Hv. lia.
Qed.

(** ** Numbers: equality of values and the printed form *)

Lemma pow10_pos (a : Z) : (0 < 10 ^ a \/ 10 ^ a = 0)%Z.
Proof.
  destruct (Z.leb_spec 0 a).
  - left. now apply Z.pow_pos_nonneg.
  - right. now apply Z.pow_neg_r.
Qed.

(** Two decimals are the same value when they agree at any exponent below
    both of theirs. *)
Lemma sameNumber_at (m1 e1 m2 e2 E : Z) :
  (E <= e1)%Z -> (E <= e2)%Z ->
  Js.sameNumber (Js.Finite m1 e1) (Js.Finite m2 e2) = true
  <-> (m1 * 10 ^ (e1 - E) = m2 * 10 ^ (e2 - E))%Z.
Proof.
  intros H1 H2. cbn [Js.sameNumber]. cbv zeta. rewrite Z.eqb_eq.
  set (e := Z.min e1 e2).
  assert (He : (E <= e)%Z) by (unfold e; lia).
  assert (He1 : (e <= e1)%Z) by (unfold e; lia).
  assert (He2 : (e <= e2)%Z) by (unfold e; lia).
  replace (e1 - E)%Z with ((e1 - e) + (e - E))%Z by lia.
  replace (e2 - E)%Z with ((e2 - e) + (e - E))%Z by lia.
  rewrite !Z.pow_add_r by lia.
  assert (Hp : (0 < 10 ^ (e - E))%Z) by (apply Z.pow_pos_nonneg; lia).
  rewrite !Z.mul_assoc. split.
  - intros ->. reflexivity.
  - intros H. apply Z.mul_cancel_r in H; [assumption|lia].
Qed.

Lemma sameNumber_refl (x : Js.number) : Js.sameNumber x x = true.
Proof.
  destruct x as [|b|m e]; simpl; [reflexivity|apply Bool.eqb_reflx|apply Z.eqb_refl].
Qed.

Lemma sameNumber_sym (x y : Js.number) :
  Js.sameNumber x y = true -> Js.sameNumber y x = true.
Proof.
  destruct x as [|a|m1 e1], y as [|b|m2 e2]; simpl; try discriminate; auto.
  - intros H. apply Bool.eqb_prop in H. subst. apply Bool.eqb_reflx.
  - rewrite !Z.eqb_eq, (Z.min_comm e2 e1). auto.
Qed.

Lemma sameNumber_trans (x y z : Js.number) :
  Js.sameNumber x y = true -> Js.sameNumber y z = true -> Js.sameNumber x z = true.
Proof.
  destruct x as [|a|m1 e1], y as [|b|m2 e2], z as [|c|m3 e3];
    try (simpl; discriminate); auto.
  - simpl. intros H1 H2. apply Bool.eqb_prop in H1, H2. subst. apply Bool.eqb_reflx.
  - set (E := Z.min e1 (Z.min e2 e3)).
    intros H12 H23.
    apply (sameNumber_at m1 e1 m2 e2 E) in H12; [|unfold E; lia|unfold E; lia].
    apply (sameNumber_at m2 e2 m3 e3 E) in H23; [|unfold E; lia|unfold E; lia].
    apply (sameNumber_at m1 e1 m3 e3 E); [unfold E; lia|unfold E; lia|].
    congruence.
Qed.

(** The same digits at two scalings. *)
Lemma sameNumber_scaled (m e a b : Z) :
  (0 <= a)%Z -> (0 <= b)%Z ->
  Js.sameNumber (Js.Finite (m * 10 ^ a) (e - a)) (Js.Finite (m * 10 ^ b) (e - b)) = true.
Proof.
  intros Ha Hb.
  apply (sameNumber_at _ _ _ _ (e - a - b)%Z); [lia|lia|].
  replace (e - a - (e - a - b))%Z with b by lia.
  replace (e - b - (e - a - b))%Z with a by lia.
  lia.
Qed.

Lemma abs_N_scaled (m : Z) (t : nat) :
  Z.abs_N (m * 10 ^ Z.of_nat t) = (Z.abs_N m * 10 ^ N.of_nat t)%N.
Proof.
  rewrite Zabs2N.inj_mul. f_equal.
  apply N2Z.inj. rewrite N2Z.inj_abs_N, N2Z.inj_pow, nat_N_Z.
  apply Z.abs_eq. apply Z.pow_nonneg. lia.
Qed.

Lemma toStringPositive_scaled (n : N) (e : Z) (t : nat) :
  (0 < n)%N ->
  Js.toStringPositive (n * 10 ^ N.of_nat t) (e - Z.of_nat t) = Js.toStringPositive n e.
Proof.
  intros Hn. unfold Js.toStringPositive.
  rewrite digitsOf_scaled by assumption.
  rewrite strip_append_zeros, length_append, length_zeros.
  replace (Z.of_nat (String.length (Js.digitsOf n) + t) + (e - Z.of_nat t))%Z
    with (Z.of_nat (String.length (Js.digitsOf n)) + e)%Z by lia.
  reflexivity.
Qed.

Lemma toString_scaled (m e : Z) (t : nat) :
  Js.toString (Js.Finite (m * 10 ^ Z.of_nat t) (e - Z.of_nat t))
  = Js.toString (Js.Finite m e).
Proof.
  cbn [Js.toString].
  assert (Hp : (0 < 10 ^ Z.of_nat t)%Z) by (apply Z.pow_pos_nonneg; lia).
  destruct (Z.eqb_spec m 0) as [->|Hm].
  - reflexivity.
  - assert (H0 : (m * 10 ^ Z.of_nat t =? 0)%Z = false) by (apply Z.eqb_neq; nia).
    rewrite H0.
    assert (Hs : (m * 10 ^ Z.of_nat t <? 0)%Z = (m <? 0)%Z).
    { destruct (Z.ltb_spec m 0); [apply Z.ltb_lt|apply Z.ltb_ge]; nia. }
    rewrite Hs, abs_N_scaled. rewrite toStringPositive_scaled; [reflexivity|].
    destruct m; simpl; lia.
Qed.

(** The printed form depends on the value only. *)
Lemma toString_sameNumber (x y : Js.number) :
  Js.sameNumber x y = true -> Js.toString x = Js.toString y.
Proof.
  destruct x as [|a|m1 e1], y as [|b|m2 e2]; try (simpl; discriminate); auto.
  - simpl. intros H. apply Bool.eqb_prop in H. now subst.
  - intros H. set (E := Z.min e1 e2).
    apply (sameNumber_at m1 e1 m2 e2 E) in H; [|unfold E; lia|unfold E; lia].
    rewrite <- (toString_scaled m1 e1 (Z.to_nat (e1 - E))).
    rewrite <- (toString_scaled m2 e2 (Z.to_nat (e2 - E))).
    rewrite !Z2Nat.id by (unfold E; lia). rewrite H.
    f_equal. f_equal. lia.
Qed.

(** ** Parsing a printed number *)

Lemma digit_not_special (c : ascii) :
  Js.isDigit c = true ->
  Js.isWhiteSpace c = false
  /\ Js.splitSign (String c EmptyString) = (false, String c EmptyString)
  /\ Ascii.eqb "I" c = false /\ Ascii.eqb c "." = false
  /\ Ascii.eqb c "e" = false /\ Ascii.eqb c "E" = false.
Proof.
  destruct c as [[] [] [] [] [] [] [] []]; intros H; try discriminate H;
    repeat split; reflexivity.
Qed.

Lemma splitSign_digit (c : ascii) (s : string) :
  Js.isDigit c = true -> Js.splitSign (String c s) = (false, String c s).
Proof.
  destruct c as [[] [] [] [] [] [] [] []]; intros H; try discriminate H; reflexivity.
Qed.

Lemma parseFloat_signed_digit (negative : bool) (c : ascii) (b : string) :
  Js.isDigit c = true ->
  Js.parseFloat ((if negative then "-" else EmptyString) ++ String c b)
  = Js.parseDecimal negative (String c b).
Proof.
  intros Hc. destruct (digit_not_special c Hc) as (Hws & _ & HI & _).
  unfold Js.parseFloat. destruct negative; simpl append.
  - cbn [Js.trimStart Js.isWhiteSpace]. simpl Js.splitSign.
    cbn [Js.startsWith]. rewrite HI. reflexivity.
  - cbn [Js.trimStart]. rewrite Hws, splitSign_digit by assumption.
    cbn [Js.startsWith]. rewrite HI. reflexivity.
Qed.

Lemma parseInt_signed_digits (negative : bool) (ds : string) :
  allChars Js.isDigit ds = true -> ds <> EmptyString ->
  Js.parseInt ((if negative then "-" else EmptyString) ++ ds)
  = Js.Finite (Js.signed negative (Js.digitsValue ds)) 0.
Proof.
  intros Hds Hne. destruct ds as [|c b]; [congruence|].
  pose proof Hds as Hall. simpl in Hds. apply andb_true_iff in Hds. destruct Hds as [Hc _].
  destruct (digit_not_special c Hc) as (Hws & _).
  unfold Js.parseInt. destruct negative; simpl append.
  - cbn [Js.trimStart Js.isWhiteSpace]. simpl Js.splitSign. cbv iota beta.
    rewrite takeDigits_all by assumption. reflexivity.
  - cbn [Js.trimStart]. rewrite Hws, splitSign_digit by assumption. cbv iota beta.
    rewrite takeDigits_all by assumption. reflexivity.
Qed.

Lemma append_nonempty_l (a b : string) : a <> EmptyString -> a ++ b <> EmptyString.
Proof. destruct a; [congruence|discriminate]. Qed.

(** Digits followed by something that is not a digit. *)
Lemma parseDecimal_digits_then (negative : bool) (a tail : string) :
  allChars Js.isDigit a = true -> a <> EmptyString ->
  Js.takeDigits tail = EmptyString ->
  Js.parseDecimal negative (a ++ tail)
  = let '(fp, r2) :=
      match tail with
      | String "." r' => (Js.takeDigits r', Js.drop (String.length (Js.takeDigits r')) r')
      | _ => (EmptyString, tail)
      end in
    Js.Finite (Js.signed negative (Js.digitsValue (a ++ fp)))
              (Js.parseExponent r2 - Z.of_nat (String.length fp)).
Proof.
  intros Ha Hne Ht. unfold Js.parseDecimal.
  rewrite takeDigits_append, Ht, append_nil_r, drop_length_append by assumption.
  destruct (match tail with
            | String "." r' => (Js.takeDigits r', Js.drop (String.length (Js.takeDigits r')) r')
            | _ => (EmptyString, tail)
            end) as [fp r2].
  pose proof (append_nonempty_l a fp Hne).
  destruct (a ++ fp); [congruence|reflexivity].
Qed.

Lemma signed_abs (m : Z) : Js.signed (m <? 0)%Z (Z.abs_N m) = m.
Proof. unfold Js.signed. rewrite N2Z.inj_abs_N. destruct (Z.ltb_spec m 0); lia. Qed.

Lemma signed_scaled (negative : bool) (v : N) (t : nat) :
  Js.signed negative (v * 10 ^ N.of_nat t) = (Js.signed negative v * 10 ^ Z.of_nat t)%Z.
Proof.
  unfold Js.signed. rewrite N2Z.inj_mul, N2Z.inj_pow, nat_N_Z.
  destruct negative; lia.
Qed.

Lemma parseExponent_printed (x : Z) :
  Js.parseExponent
    (String "e" ((if (x <? 0)%Z then "-" else "+") ++ Js.digitsOf (Z.abs_N x))) = x.
Proof.
  pose proof (allDigits_digitsOf (Z.abs_N x)) as Hd.
  pose proof (digitsOf_nonempty (Z.abs_N x)) as Hne.
  pose proof (digitsValue_digitsOf (Z.abs_N x)) as Hv.
  pose proof (signed_abs x) as Hs.
  cbn [Js.parseExponent]. simpl Ascii.eqb. cbn [orb].
  destruct (x <? 0)%Z; simpl append; simpl Js.splitSign; cbv iota beta;
    rewrite takeDigits_all by assumption;
    destruct (Js.digitsOf (Z.abs_N x)); try congruence.
Qed.

Lemma sameNumber_shift (m e1 e2 : Z) (a b : nat) :
  (e1 + Z.of_nat a = e2 + Z.of_nat b)%Z ->
  Js.sameNumber (Js.Finite (m * 10 ^ Z.of_nat a) e1) (Js.Finite (m * 10 ^ Z.of_nat b) e2) = true.
Proof.
  intros H.
  replace e1 with (e1 + Z.of_nat a - Z.of_nat a)%Z by lia.
  replace e2 with (e1 + Z.of_nat a - Z.of_nat b)%Z by lia.
  apply sameNumber_scaled; lia.
Qed.

Lemma sameNumber_shift0 (m e1 e2 : Z) (b : nat) :
  (e1 = e2 + Z.of_nat b)%Z ->
  Js.sameNumber (Js.Finite m e1) (Js.Finite (m * 10 ^ Z.of_nat b) e2) = true.
Proof.
  intros H. replace m with (m * 10 ^ Z.of_nat 0)%Z at 1 by (simpl; lia).
  apply sameNumber_shift. lia.
Qed.

Lemma isDigit_first (c : ascii) (s : string) :
  allChars Js.isDigit (String c s) = true -> Js.isDigit c = true.
Proof. simpl. intros H. now apply andb_true_iff in H. Qed.

Lemma parseDecimal_toStringPositive (negative : bool) (M : N) (e : Z) :
  (0 < M)%N ->
  Js.sameNumber (Js.parseDecimal negative (Js.toStringPositive M e))
                (Js.Finite (Js.signed negative M) e) = true.
Proof.
  intros HM. unfold Js.toStringPositive.
  pose proof (allDigits_digitsOf M) as Hall.
  pose proof (digitsValue_digitsOf M) as Hval.
  pose proof (strip_digitsOf_nonempty M HM) as Hne.
  destruct (strip_decompose (Js.digitsOf M)) as [Hd Hlen].
  pose proof (allChars_strip _ _ Hall) as Hsd.
  set (ds := Js.digitsOf M) in *. set (s := Js.stripTrailingZeros ds) in *.
  set (j := String.length ds - String.length s) in *.
  assert (HMV : Js.signed negative M
                = (Js.signed negative (Js.digitsValue s) * 10 ^ Z.of_nat j)%Z).
  { rewrite <- signed_scaled, <- digitsValue_append_zeros, <- Hd. now rewrite Hval. }
  rewrite HMV. clear HMV Hval.
  assert (HL : Z.of_nat (String.length ds) = (Z.of_nat (String.length s) + Z.of_nat j)%Z)
    by (unfold j; lia).
  rewrite HL. clearbody j. clear Hd Hlen HL Hall. clearbody s. clear ds HM.
  set (k := String.length s) in *.
  set (n := (Z.of_nat k + Z.of_nat j + e)%Z).
  destruct ((Z.of_nat k <=? n) && (n <=? 21))%Z eqn:Ca.
  { (* digits followed by zeros *)
    apply andb_true_iff in Ca. destruct Ca as [Hlo Hhi]. apply Z.leb_le in Hlo, Hhi.
    rewrite <- (append_nil_r (s ++ Js.zeros _)).
    rewrite parseDecimal_digits_then; try reflexivity.
    - rewrite append_nil_r, digitsValue_append_zeros, signed_scaled.
      apply sameNumber_shift. simpl. unfold n in *. lia.
    - rewrite allChars_append, Hsd. now apply allChars_zeros.
    - now apply append_nonempty_l. }
  destruct ((0 <? n) && (n <=? 21))%Z eqn:Cb.
  { (* a decimal point inside the digits *)
    apply andb_true_iff in Cb. destruct Cb as [Hlo Hhi].
    apply Z.ltb_lt in Hlo. apply Z.leb_le in Hhi.
    apply andb_false_iff in Ca. 
    assert (Hnk : (n < Z.of_nat k)%Z).
    { destruct Ca as [Ca|Ca]; [apply Z.leb_gt in Ca; lia|apply Z.leb_gt in Ca; lia]. }
    assert (Hlt : Z.to_nat n <= k) by lia.
    rewrite parseDecimal_digits_then; try reflexivity.
    - simpl append. cbv iota beta.
      rewrite takeDigits_all by (now apply allChars_drop).
      rewrite drop_length, take_drop, length_drop. fold k.
      apply sameNumber_shift0. simpl. unfold n in *. lia.
    - now apply allChars_take.
    - intros Ht. pose proof (length_take (Z.to_nat n) s Hlt) as Hl.
      rewrite Ht in Hl. simpl in Hl. lia. }
  destruct ((-6 <? n) && (n <=? 0))%Z eqn:Cc.
  { (* zeros between the decimal point and the digits *)
    apply andb_true_iff in Cc. destruct Cc as [Hlo Hhi].
    apply Z.ltb_lt in Hlo. apply Z.leb_le in Hhi.
    change ("0." ++ Js.zeros (Z.to_nat (- n)) ++ s)
      with ("0" ++ "." ++ Js.zeros (Z.to_nat (- n)) ++ s).
    rewrite parseDecimal_digits_then; try reflexivity; [|discriminate].
    simpl append. cbv iota beta.
    assert (Hz : allChars Js.isDigit (Js.zeros (Z.to_nat (- n)) ++ s) = true).
    { rewrite allChars_append, Hsd. now rewrite allChars_zeros. }
    rewrite takeDigits_all by assumption.
    rewrite drop_length, length_append, length_zeros. fold k.
    change (String "0" (Js.zeros (Z.to_nat (- n)) ++ s))
      with (Js.zeros (S (Z.to_nat (- n))) ++ s).
    rewrite digitsValue_zeros_append.
    apply sameNumber_shift0. simpl. unfold n in *. lia. }
  (* exponential notation *)
  destruct s as [|d rest] eqn:Hs; [congruence|].
  pose proof (isDigit_first _ _ Hsd) as Hdig.
  assert (Hrest : allChars Js.isDigit rest = true).
  { simpl in Hsd. now apply andb_true_iff in Hsd. }
  destruct rest as [|d2 rest'].
  - change (String d ("e" ++ ?x)) with (String d EmptyString ++ "e" ++ x).
    rewrite parseDecimal_digits_then; try reflexivity; try discriminate.
    + simpl append. cbv iota beta. rewrite parseExponent_printed.
      apply sameNumber_shift0. simpl. unfold n, k in *. simpl String.length. lia.
    + simpl. now rewrite Hdig.
  - cbv iota beta. set (rest := String d2 rest') in *. clearbody rest.
    change (String d ("." ++ rest ++ "e" ++ ?x))
      with (String d EmptyString ++ "." ++ rest ++ "e" ++ x).
    rewrite parseDecimal_digits_then; try reflexivity; try discriminate.
    + simpl append. cbv iota beta.
      rewrite takeDigits_append by assumption.
      cbn [Js.takeDigits]. simpl Js.isDigit. cbv iota.
      rewrite append_nil_r, drop_length_append, parseExponent_printed.
      apply sameNumber_shift0. unfold n, k in *. cbn [String.length]. lia.
    + simpl. now rewrite Hdig.
Qed.

Lemma toStringPositive_starts_digit (M : N) (e : Z) :
  (0 < M)%N ->
  exists c b, Js.toStringPositive M e = String c b /\ Js.isDigit c = true.
Proof.
  intros HM. unfold Js.toStringPositive.
  pose proof (strip_digitsOf_nonempty M HM) as Hne.
  pose proof (allChars_strip _ _ (allDigits_digitsOf M)) as Hsd.
  destruct (Js.stripTrailingZeros (Js.digitsOf M)) as [|d rest]; [congruence|].
  pose proof (isDigit_first _ _ Hsd) as Hd.
  set (n := (Z.of_nat (String.length (Js.digitsOf M)) + e)%Z).
  destruct ((_ <=? n) && (n <=? 21))%Z; [simpl; eauto|].
  destruct ((0 <? n) && (n <=? 21))%Z eqn:Cb.
  { apply andb_true_iff in Cb. destruct Cb as [Hlo _]. apply Z.ltb_lt in Hlo.
    destruct (Z.to_nat n) eqn:Hn; [lia|]. simpl. eauto. }
  destruct ((-6 <? n) && (n <=? 0))%Z; [simpl; eauto|].
  destruct rest; eauto.
Qed.

(** Parsing the printed form of a number gives the number back. *)
Lemma parseFloat_toString (x : Js.number) :
  Js.sameNumber (Js.parseFloat (Js.toString x)) x = true.
Proof.
  destruct x as [|negative|m e].
  - reflexivity.
  - destruct negative; reflexivity.
  - cbn [Js.toString]. destruct (Z.eqb_spec m 0) as [->|Hm]; [reflexivity|].
    assert (HM : (0 < Z.abs_N m)%N) by (destruct m; simpl; lia).
    destruct (toStringPositive_starts_digit (Z.abs_N m) e HM) as (c & b & Hcb & Hc).
    rewrite Hcb, parseFloat_signed_digit, <- Hcb by assumption.
    rewrite <- (signed_abs m) at 3. now apply parseDecimal_toStringPositive.
Qed.

Lemma toString_inj (x y : Js.number) :
  Js.toString x = Js.toString y -> Js.sameNumber x y = true.
Proof.
  intros H. apply sameNumber_trans with (y := Js.parseFloat (Js.toString x)).
  - apply sameNumber_sym, parseFloat_toString.
  - rewrite H. apply parseFloat_toString.
Qed.

(** ** [JSON.stringify] tells values apart *)

Lemma decodeChar_quoteChar (c : ascii) (rest : string) :
  decodeChar (Js.quoteChar c ++ rest) = Some (c, rest).
Proof. destruct c as [[] [] [] [] [] [] [] []]; reflexivity. Qed.

Lemma quoteChars_inj (s t r1 r2 : string) :
  Js.quoteChars s ++ String Js.doubleQuote r1 = Js.quoteChars t ++ String Js.doubleQuote r2 ->
  s = t /\ r1 = r2.
Proof.
  revert t. induction s as [|c s IH]; intros [|d t] H; simpl in H.
  - injection H as ->. now split.
  - exfalso. rewrite append_assoc in H. apply (f_equal decodeChar) in H.
    rewrite decodeChar_quoteChar in H. discriminate.
  - exfalso. rewrite append_assoc in H. apply (f_equal decodeChar) in H.
    rewrite decodeChar_quoteChar in H. discriminate.
  - rewrite !append_assoc in H. pose proof (f_equal decodeChar H) as Hd.
    rewrite !decodeChar_quoteChar in Hd. injection Hd as -> Hrest.
    destruct (IH t Hrest) as [-> ->]. now split.
Qed.

Lemma quoteJSONString_inj (s t r1 r2 : string) :
  Js.quoteJSONString s ++ r1 = Js.quoteJSONString t ++ r2 -> s = t /\ r1 = r2.
Proof.
  unfold Js.quoteJSONString. simpl. rewrite !append_assoc. simpl.
  intros H. injection H as H. now apply quoteChars_inj.
Qed.

Lemma quoteChars_closed_inj (s t r1 r2 : string) :
  (Js.quoteChars s ++ String Js.doubleQuote EmptyString) ++ r1
  = (Js.quoteChars t ++ String Js.doubleQuote EmptyString) ++ r2 ->
  s = t /\ r1 = r2.
Proof. rewrite !append_assoc. simpl. apply quoteChars_inj. Qed.

Lemma join_cons (a : string) (l : list string) :
  Js.join "," (map Js.quoteJSONString (a :: l)) = Js.quoteJSONString a ++ arrayTail l.
Proof. destruct l; simpl; [now rewrite append_nil_r|reflexivity]. Qed.

Lemma arrayTail_cons_append (a : string) (l : list string) (r : string) :
  arrayTail (a :: l) ++ r = String "," (Js.quoteJSONString a ++ arrayTail l ++ r).
Proof.
  unfold arrayTail at 1. rewrite join_cons. cbn [append]. now rewrite append_assoc.
Qed.

Lemma arrayTail_inj (l1 l2 : list string) :
  arrayTail l1 ++ "]" = arrayTail l2 ++ "]" -> l1 = l2.
Proof.
  revert l2. induction l1 as [|a l1 IH]; intros [|b l2] H.
  - reflexivity.
  - rewrite arrayTail_cons_append in H. discriminate.
  - rewrite arrayTail_cons_append in H. discriminate.
  - rewrite !arrayTail_cons_append in H. injection H as H.
    apply quoteChars_closed_inj in H. destruct H as [-> H].
    now rewrite (IH l2 H).
Qed.

Lemma stringify_array_inj (l1 l2 : list string) :
  Js.stringify (Js.VArray l1) = Js.stringify (Js.VArray l2) -> l1 = l2.
Proof.
  cbn [Js.stringify]. intros H. injection H as H.
  destruct l1 as [|a l1], l2 as [|b l2].
  - reflexivity.
  - rewrite join_cons in H. discriminate.
  - rewrite join_cons in H. discriminate.
  - rewrite !join_cons, !append_assoc in H.
    apply quoteJSONString_inj in H. destruct H as [-> H].
    now rewrite (arrayTail_inj _ _ H).
Qed.

Lemma stringify_string_inj (s t : string) :
  Js.stringify (Js.VString s) = Js.stringify (Js.VString t) -> s = t.
Proof.
  simpl. intros H.
  assert (H' : Js.quoteJSONString s ++ EmptyString = Js.quoteJSONString t ++ EmptyString)
    by (now rewrite !append_nil_r).
  now apply quoteJSONString_inj in H'.
Qed.

(** Values with the same serialization are the same, when the numbers are
    finite. *)
Lemma stringify_inj (a b : Js.value) :
  finiteValue a -> finiteValue b ->
  match a, b with
  | Js.VString _, Js.VString _ | Js.VNumber _, Js.VNumber _
  | Js.VBoolean _, Js.VBoolean _ | Js.VArray _, Js.VArray _ => True
  | _, _ => False
  end ->
  Js.stringify a = Js.stringify b -> sameValue a b.
Proof.
  destruct a as [s|x|p|l], b as [t|y|q|l']; simpl; try contradiction; intros Fa Fb _ H.
  - now apply stringify_string_inj.
  - rewrite Fa, Fb in H. now apply toString_inj.
  - destruct p, q; try reflexivity; discriminate.
  - now apply stringify_array_inj.
Qed.

Lemma stringify_same (a b : Js.value) :
  sameValue a b -> Js.stringify a = Js.stringify b.
Proof.
  destruct a as [s|x|p|l], b as [t|y|q|l']; simpl; try contradiction; intros H;
    try (now subst).
  destruct x as [|na|m1 e1], y as [|nb|m2 e2]; simpl in H; try discriminate; try reflexivity.
  apply (toString_sameNumber (Js.Finite m1 e1) (Js.Finite m2 e2)). exact H.
Qed.

(** ** C6: the metric differ *)

Lemma MetricKey_eqb_eq (a b : MetricKey) : MetricKey_eqb a b = true <-> a = b.
Proof. destruct a, b; simpl; split; intros H; try reflexivity; discriminate. Qed.

Lemma MetricKey_eqb_refl (a : MetricKey) : MetricKey_eqb a a = true.
Proof. now apply MetricKey_eqb_eq. Qed.

Lemma lookup_assign (changes : Changes) (key k : MetricKey) (c : Change) :
  lookup (assign changes key c) k
  = if MetricKey_eqb key k then Some c else lookup changes k.
Proof.
  induction changes as [|[k' c'] rest IH]; simpl.
  - reflexivity.
  - destruct (MetricKey_eqb k' key) eqn:E1; simpl.
    + apply MetricKey_eqb_eq in E1. subst k'.
      now destruct (MetricKey_eqb key k).
    + rewrite IH. destruct (MetricKey_eqb k' k) eqn:E2; [|reflexivity].
      apply MetricKey_eqb_eq in E2. subst k'.
      destruct (MetricKey_eqb key k) eqn:E3; [|reflexivity].
      apply MetricKey_eqb_eq in E3. subst key.
      rewrite MetricKey_eqb_refl in E1. discriminate.
Qed.

Lemma lookup_step (old current : HealthMetrics) (changes : Changes) (key k : MetricKey) :
  lookup (compareMetrics_step old current changes key) k
  = if MetricKey_eqb key k
    then match changeOf old current key with
         | Some c => Some c
         | None => lookup changes k
         end
    else lookup changes k.
Proof.
  unfold compareMetrics_step, changeOf.
  destruct (String.eqb _ _); simpl.
  - now destruct (MetricKey_eqb key k).
  - destruct (get old key), (get current key);
      rewrite ?lookup_assign; destruct (MetricKey_eqb key k); reflexivity.
Qed.

Lemma lookup_fold (old current : HealthMetrics) (ks : list MetricKey)
    (changes : Changes) (k : MetricKey) :
  lookup (fold_left (compareMetrics_step old current) ks changes) k
  = if existsb (fun key => MetricKey_eqb key k) ks
    then match changeOf old current k with
         | Some c => Some c
         | None => lookup changes k
         end
    else lookup changes k.
Proof.
  revert changes. induction ks as [|key ks IH]; intros changes; simpl; [reflexivity|].
  rewrite IH, lookup_step.
  destruct (MetricKey_eqb key k) eqn:E; simpl.
  - apply MetricKey_eqb_eq in E. subst key.
    destruct (existsb _ ks); destruct (changeOf old current k); reflexivity.
  - reflexivity.
Qed.

Lemma lookup_compareMetrics (old current : HealthMetrics) (k : MetricKey) :
  lookup (compareMetrics old current) k = changeOf old current k.
Proof.
  unfold compareMetrics. rewrite lookup_fold.
  replace (existsb (fun key => MetricKey_eqb key k) keys) with true
    by (destruct k; reflexivity).
  now destruct (changeOf old current k).
Qed.

Lemma compareMetrics_same (m : HealthMetrics) : compareMetrics m m = [].
Proof.
  unfold compareMetrics. induction keys as [|key ks IH]; simpl; [reflexivity|].
  unfold compareMetrics_step at 2. now rewrite String.eqb_refl.
Qed.

Lemma get_same_type (old current : HealthMetrics) (k : MetricKey) :
  match get old k, get current k with
  | Js.VString _, Js.VString _ | Js.VNumber _, Js.VNumber _
  | Js.VBoolean _, Js.VBoolean _ | Js.VArray _, Js.VArray _ => True
  | _, _ => False
  end.
Proof. destruct k; exact I. Qed.

(** C6, where the code breaks it: the two snapshot files differ only in
    [- Completion: Infinity%] against [- Completion: -Infinity%]; the parser
    reads the completion percentage as [Infinity] and as [-Infinity], two
    numbers that are not equal, and the metric differ records no entry for
    the field, because both values are serialized as [null]; the changes are
    empty. *)
Theorem C6_non_finite_values_collide :
  exists d,
    compareSnapshots (twoFiles ("- Completion: Infinity%" ++ LF ++ "---")
                               ("- Completion: -Infinity%" ++ LF ++ "---"))
                     OldFirst "old.md" "new.md" = inr d
    /\ get (metrics_old (metrics d)) k_completion_percentage
       = Js.VNumber (Js.Infinity false)
    /\ get (metrics_new (metrics d)) k_completion_percentage
       = Js.VNumber (Js.Infinity true)
    /\ ~ sameValue (get (metrics_old (metrics d)) k_completion_percentage)
                   (get (metrics_new (metrics d)) k_completion_percentage)
    /\ Js.stringify (get (metrics_old (metrics d)) k_completion_percentage) = "null"
    /\ Js.stringify (get (metrics_new (metrics d)) k_completion_percentage) = "null"
    /\ lookup (changes (metrics d)) k_completion_percentage = None
    /\ changes (metrics d) = [].
Proof.
  eexists. split; [vm_compute; reflexivity|].
  split; [reflexivity|]. split; [reflexivity|].
  split; [simpl; discriminate|].
  repeat split; reflexivity.
Qed.

(** ** Lines and pieces *)

Lemma startsWith_nil (s : string) : Js.startsWith s EmptyString = true.
Proof. destruct s; reflexivity. Qed.

Lemma split_from_append (c : ascii) (a b cur : string) :
  Js.split_from (String c EmptyString) (a ++ String c b) 0 cur
  = (Js.split_from (String c EmptyString) a 0 cur
     ++ Js.split_from (String c EmptyString) b 0 EmptyString)%list.
Proof.
  revert cur. induction a as [|d a IH]; intros cur.
  - cbn [append Js.split_from Js.startsWith String.length Nat.sub].
    rewrite Ascii.eqb_refl, startsWith_nil. reflexivity.
  - cbn [append Js.split_from Js.startsWith String.length Nat.sub].
    rewrite !startsWith_nil, !andb_true_r.
    destruct (Ascii.eqb c d); rewrite IH; reflexivity.
Qed.

Lemma split_from_absent (c : ascii) (a cur : string) :
  occurs c a = false ->
  Js.split_from (String c EmptyString) a 0 cur = [cur ++ a].
Proof.
  revert cur. induction a as [|d a IH]; intros cur H.
  - simpl. now rewrite append_nil_r.
  - simpl in H. apply orb_false_iff in H. destruct H as [Hcd Ha].
    cbn [Js.split_from Js.startsWith]. rewrite Hcd. cbn [andb].
    rewrite IH by assumption. now rewrite append_assoc.
Qed.

Lemma split_append (c : ascii) (a b : string) :
  Js.split (a ++ String c b) (String c EmptyString)
  = (Js.split a (String c EmptyString) ++ Js.split b (String c EmptyString))%list.
Proof. apply split_from_append. Qed.

Lemma split_absent (c : ascii) (a : string) :
  occurs c a = false -> Js.split a (String c EmptyString) = [a].
Proof. intros H. unfold Js.split. now rewrite split_from_absent. Qed.

Lemma split_join (c : ascii) (l : list string) :
  l <> [] ->
  Js.split (Js.join (String c EmptyString) l) (String c EmptyString)
  = flat_map (fun x => Js.split x (String c EmptyString)) l.
Proof.
  induction l as [|x [|y r] IH]; intros Hne; [congruence| |].
  - simpl. now rewrite app_nil_r.
  - change (Js.join (String c EmptyString) (x :: y :: r))
      with (x ++ String c (Js.join (String c EmptyString) (y :: r))).
    rewrite split_append, IH by discriminate. reflexivity.
Qed.

Lemma flat_map_absent (c : ascii) (l : list string) :
  (forall x, In x l -> occurs c x = false) ->
  flat_map (fun x => Js.split x (String c EmptyString)) l = l.
Proof.
  induction l as [|x l IH]; intros H; simpl; [reflexivity|].
  rewrite split_absent by (apply H; now left).
  rewrite IH; [reflexivity|]. intros y Hy. apply H. now right.
Qed.

Lemma isDigit_plain (c : ascii) : Js.isDigit c = true -> plainChar c = true.
Proof. destruct c as [[] [] [] [] [] [] [] []]; intros H; try discriminate H; reflexivity. Qed.

Lemma plain_absent (c : ascii) (v : string) :
  plainChar c = false -> allChars plainChar v = true -> occurs c v = false.
Proof.
  intros Hc. induction v as [|d v IH]; simpl; [reflexivity|].
  intros H. apply andb_true_iff in H. destruct H as [Hd Hv].
  rewrite IH by assumption. rewrite orb_false_r.
  destruct (Ascii.eqb_spec c d); [subst; congruence|reflexivity].
Qed.

Lemma plain_digitsOf (n : N) : allChars plainChar (Js.digitsOf n) = true.
Proof. apply (allChars_weaken Js.isDigit); [apply isDigit_plain|apply allDigits_digitsOf]. Qed.

Lemma plain_toStringPositive (M : N) (e : Z) :
  allChars plainChar (Js.toStringPositive M e) = true.
Proof.
  unfold Js.toStringPositive.
  assert (Hs : allChars plainChar (Js.stripTrailingZeros (Js.digitsOf M)) = true)
    by (apply allChars_strip, plain_digitsOf).
  set (s := Js.stripTrailingZeros (Js.digitsOf M)) in *.
  set (n := (Z.of_nat (String.length (Js.digitsOf M)) + e)%Z).
  destruct ((_ <=? n) && (n <=? 21))%Z.
  { rewrite allChars_append, Hs. now apply allChars_zeros. }
  destruct ((0 <? n) && (n <=? 21))%Z.
  { rewrite allChars_append, allChars_take by assumption. simpl.
    now apply allChars_drop. }
  destruct ((-6 <? n) && (n <=? 0))%Z.
  { simpl. rewrite allChars_append, Hs. now rewrite allChars_zeros. }
  assert (He : allChars plainChar
                 ("e" ++ (if (n - 1 <? 0)%Z then "-" else "+")
                      ++ Js.digitsOf (Z.abs_N (n - 1))) = true).
  { simpl. destruct (n - 1 <? 0)%Z; simpl; apply plain_digitsOf. }
  clearbody s. destruct s as [|d [|d2 rest]]; [reflexivity| |].
  - cbn [allChars] in *. apply andb_true_iff in Hs. destruct Hs as [-> _]. exact He.
  - change (String d ("." ++ String d2 rest ++ ?x)) with (String d "." ++ String d2 rest ++ x).
    cbn [allChars] in Hs. apply andb_true_iff in Hs. destruct Hs as [Hd Hr].
    rewrite (allChars_append _ (String d ".")).
    rewrite (allChars_append _ (String d2 rest)), He. cbn [allChars]. rewrite Hd.
    apply andb_true_iff in Hr. destruct Hr as [-> ->]. reflexivity.
Qed.

Lemma plain_toString (x : Js.number) : allChars plainChar (Js.toString x) = true.
Proof.
  destruct x as [|[]|m e]; try reflexivity. cbn [Js.toString].
  destruct (m =? 0)%Z; [reflexivity|].
  rewrite allChars_append, plain_toStringPositive. now destruct (m <? 0)%Z.
Qed.

Lemma toString_nonempty (x : Js.number) : Js.toString x <> EmptyString.
Proof.
  destruct x as [|[]|m e]; try discriminate. cbn [Js.toString].
  destruct (Z.eqb_spec m 0) as [|Hm]; [discriminate|].
  assert (HM : (0 < Z.abs_N m)%N) by (destruct m; simpl; lia).
  destruct (toStringPositive_starts_digit (Z.abs_N m) e HM) as (c & b & -> & _).
  destruct (m <? 0)%Z; discriminate.
Qed.

(** A count is printed as its digits. *)
Lemma toString_count (x : Js.number) (w : Z) :
  isCount x w -> Js.toString x = Js.digitsOf (Z.to_N w).
Proof.
  intros [[Hlo Hhi] Hsame]. rewrite (toString_sameNumber _ _ Hsame).
  unfold Js.ofZ. cbn [Js.toString].
  destruct (Z.eqb_spec w 0) as [->|Hw]; [reflexivity|].
  assert (Hpos : (w <? 0)%Z = false) by (apply Z.ltb_ge; lia). rewrite Hpos.
  cbn [append]. replace (Z.abs_N w) with (Z.to_N w) by (destruct w; simpl; lia).
  assert (HW : (0 < Z.to_N w)%N) by lia.
  unfold Js.toStringPositive.
  destruct (strip_decompose (Js.digitsOf (Z.to_N w))) as [Hd Hlen].
  destruct (digitsOf_length_bounds (Z.to_N w) HW) as [Hb _].
  set (ds := Js.digitsOf (Z.to_N w)) in *.
  assert (HL : String.length ds <= 21).
  { destruct (Nat.le_gt_cases (String.length ds) 21) as [|Hgt]; [assumption|exfalso].
    assert (H21 : (10 ^ 21 <= 10 ^ N.of_nat (String.length ds - 1))%N)
      by (apply N.pow_le_mono_r; lia).
    assert (Hw21 : (Z.to_N w < 10 ^ 21)%N).
    { apply N2Z.inj_lt. rewrite Z2N.id by lia. exact Hhi. }
    lia. }
  rewrite Z.add_0_r.
  assert (Hc : ((Z.of_nat (String.length (Js.stripTrailingZeros ds))
                 <=? Z.of_nat (String.length ds))
                && (Z.of_nat (String.length ds) <=? 21))%Z = true).
  { apply andb_true_iff. split; apply Z.leb_le; lia. }
  rewrite Hc. rewrite <- Nat2Z.inj_sub, Nat2Z.id by lia. now rewrite <- Hd.
Qed.

Lemma trimEnd_plain (v : string) : allChars plainChar v = true -> Js.trimEnd v = v.
Proof.
  induction v as [|c v IH]; simpl; [reflexivity|]. intros H.
  apply andb_true_iff in H. destruct H as [Hc Hv]. rewrite IH by assumption.
  destruct v; [|reflexivity].
  unfold plainChar in Hc. destruct (Js.isWhiteSpace c); [discriminate|reflexivity].
Qed.

Lemma trimEnd_append (a t : string) :
  Js.trimEnd t <> EmptyString -> Js.trimEnd (a ++ t) = a ++ Js.trimEnd t.
Proof.
  intros Ht. induction a as [|c a IH]; simpl; [reflexivity|]. rewrite IH.
  destruct (a ++ Js.trimEnd t) eqn:E; [|reflexivity].
  destruct a; simpl in E; [congruence|discriminate].
Qed.

Lemma trimStart_plain (v t : string) :
  allChars plainChar v = true -> v <> EmptyString -> Js.trimStart (v ++ t) = v ++ t.
Proof.
  destruct v as [|c v]; [congruence|]. simpl. intros H _.
  apply andb_true_iff in H. destruct H as [Hc _].
  unfold plainChar in Hc. destruct (Js.isWhiteSpace c); [discriminate|reflexivity].
Qed.

(** The value text of a header line, trimmed. *)
Lemma trim_value (v suffix : string) :
  allChars plainChar v = true -> v <> EmptyString ->
  suffix = EmptyString \/ Js.trimEnd suffix = suffix /\ suffix <> EmptyString ->
  Js.trim (String " " (v ++ suffix)) = v ++ suffix.
Proof.
  intros Hv Hne Hs. unfold Js.trim. cbn [Js.trimStart].
  change (Js.isWhiteSpace " ") with true. cbv iota.
  rewrite trimStart_plain by assumption.
  destruct Hs as [->|[Hs Hsne]].
  - rewrite append_nil_r. now apply trimEnd_plain.
  - rewrite trimEnd_append; rewrite Hs; [reflexivity|assumption].
Qed.

Lemma piece_after_colon (lit rest : string) :
  occurs ":" lit = false -> occurs ":" rest = false ->
  nth_error (Js.split (lit ++ String ":" rest) ":") 1 = Some rest.
Proof.
  intros Hl Hr. rewrite split_append, !split_absent by assumption. reflexivity.
Qed.

Lemma token_before_space (v t : string) :
  occurs " " v = false ->
  nth_error (Js.split (v ++ String " " t) " ") 0 = Some v.
Proof. intros Hv. rewrite split_append, split_absent by assumption. reflexivity. Qed.

Lemma token_alone (v : string) :
  occurs " " v = false -> nth_error (Js.split v " ") 0 = Some v.
Proof. intros Hv. now rewrite split_absent. Qed.

Lemma removeFirst_suffix (v : string) :
  occurs "%" v = false -> Js.removeFirst (v ++ "%") "%" = v.
Proof.
  induction v as [|c v IH]; intros H; [reflexivity|].
  cbn [occurs] in H. apply orb_false_iff in H. destruct H as [Hc Hv].
  cbn [append Js.removeFirst Js.startsWith]. rewrite Hc. cbn [andb].
  now rewrite IH.
Qed.

Lemma includes_no_space (t p : string) (a : ascii) :
  occurs " " t = false -> Js.includes t (String a (String " " p)) = false.
Proof.
  intros Ht. destruct (Js.includes t _) eqn:E; [|reflexivity].
  apply (includes_occurs " ") in E; [congruence|]. simpl. apply orb_true_r.
Qed.

Lemma isDigit_not_dash (c : ascii) : Js.isDigit c = true -> Ascii.eqb "-" c = false.
Proof. destruct c as [[] [] [] [] [] [] [] []]; intros H; try discriminate H; reflexivity. Qed.

Lemma includes_digits_skip (v t p : string) :
  allChars Js.isDigit v = true ->
  Js.includes (v ++ t) (String "-" p) = Js.includes t (String "-" p).
Proof.
  induction v as [|c v IH]; intros H; [reflexivity|].
  cbn [allChars] in H. apply andb_true_iff in H. destruct H as [Hc Hv].
  cbn [append Js.includes Js.startsWith]. rewrite (isDigit_not_dash c Hc). cbn [andb orb].
  now apply IH.
Qed.

Lemma includes_digits (v p : string) :
  allChars Js.isDigit v = true -> Js.includes v (String "-" p) = false.
Proof.
  intros H. rewrite <- (append_nil_r v), includes_digits_skip by assumption. reflexivity.
Qed.

Lemma find_app_none {A : Type} (p : A -> bool) (l1 l2 : list A) :
  (forall x, In x l1 -> p x = false) -> find p (l1 ++ l2) = find p l2.
Proof.
  induction l1 as [|a l1 IH]; intros H; simpl; [reflexivity|].
  rewrite (H a (or_introl eq_refl)). apply IH. intros x Hx. apply H. now right.
Qed.

Lemma digits_plain (v : string) : allChars Js.isDigit v = true -> allChars plainChar v = true.
Proof. apply allChars_weaken, isDigit_plain. Qed.

Section MetricsBlock.

Variables (PL R : list string) (v1 v2 v3 v4 v5 v6 v7 : string).
Hypothesis HPL : forall line, In line PL -> carriesLabel line = false.
Hypothesis (Hd1 : allChars Js.isDigit v1 = true) (Hd2 : allChars Js.isDigit v2 = true)
           (Hd3 : allChars Js.isDigit v3 = true) (Hp4 : allChars plainChar v4 = true)
           (Hd5 : allChars Js.isDigit v5 = true) (Hd6 : allChars Js.isDigit v6 = true)
           (Hd7 : allChars Js.isDigit v7 = true).
Hypothesis (Hn1 : v1 <> EmptyString) (Hn2 : v2 <> EmptyString) (Hn3 : v3 <> EmptyString)
           (Hn4 : v4 <> EmptyString) (Hn5 : v5 <> EmptyString) (Hn6 : v6 <> EmptyString)
           (Hn7 : v7 <> EmptyString).


Lemma preamble_skipped (label : string) :
  In label (map (fun entry => fst (fst entry)) metricFields) ->
  metricLine (PL ++ metricsBlock v1 v2 v3 v4 v5 v6 v7 ++ R)%list label
  = metricLine (metricsBlock v1 v2 v3 v4 v5 v6 v7 ++ R) label.
Proof.
  intros Hin. unfold metricLine. apply find_app_none.
  intros line Hline. specialize (HPL line Hline). unfold carriesLabel in HPL.
  rewrite <- not_true_iff_false in HPL. rewrite existsb_exists in HPL.
  destruct (Js.includes line ("- " ++ label ++ ":")) eqn:E; [|reflexivity].
  exfalso. apply HPL. apply in_map_iff in Hin. destruct Hin as [entry [<- Hentry]].
  now exists entry.
Qed.

Lemma no_space_value4 : occurs " " (v4 ++ "%") = false.
Proof.
  rewrite occurs_append, (plain_absent " " v4) by (reflexivity || assumption).
  reflexivity.
Qed.

(** The line found for each label. *)
Lemma block_lines :
  metricLine (PL ++ metricsBlock v1 v2 v3 v4 v5 v6 v7 ++ R)%list "Word Count"
  = Some ("- Word Count: " ++ v1)
  /\ metricLine (PL ++ metricsBlock v1 v2 v3 v4 v5 v6 v7 ++ R)%list "Reading Time"
     = Some ("- Reading Time: " ++ v2 ++ " minutes")
  /\ metricLine (PL ++ metricsBlock v1 v2 v3 v4 v5 v6 v7 ++ R)%list "TODOs"
     = Some ("- TODOs: " ++ v3)
  /\ metricLine (PL ++ metricsBlock v1 v2 v3 v4 v5 v6 v7 ++ R)%list "Completion"
     = Some ("- Completion: " ++ v4 ++ "%")
  /\ metricLine (PL ++ metricsBlock v1 v2 v3 v4 v5 v6 v7 ++ R)%list "Sections"
     = Some ("- Sections: " ++ v5)
  /\ metricLine (PL ++ metricsBlock v1 v2 v3 v4 v5 v6 v7 ++ R)%list "Code Blocks"
     = Some ("- Code Blocks: " ++ v6)
  /\ metricLine (PL ++ metricsBlock v1 v2 v3 v4 v5 v6 v7 ++ R)%list
                "Days Since Last Snapshot"
     = Some ("- Days Since Last Snapshot: " ++ v7).
Proof.
  repeat split;
    rewrite preamble_skipped by (simpl; tauto);
    unfold metricLine, metricsBlock;
    cbn [app find Js.includes Js.startsWith append Ascii.eqb Bool.eqb andb orb];
    rewrite ?(includes_digits v1), ?(includes_digits_skip v2), ?(includes_digits v3),
      ?(includes_no_space (v4 ++ "%")), ?(includes_digits v5), ?(includes_digits v6),
      ?(includes_digits v7) by (assumption || apply no_space_value4);
    cbn [Js.includes Js.startsWith append Ascii.eqb Bool.eqb andb orb];
    reflexivity.
Qed.

(** The text of a count line without unit. *)
Lemma count_text (lit v : string) :
  occurs ":" lit = false -> allChars Js.isDigit v = true -> v <> EmptyString ->
  match nth_error (Js.split (lit ++ String ":" (String " " v)) ":") 1 with
  | Some piece => nth_error (Js.split (Js.trim piece) " ") 0
  | None => None
  end = Some v.
Proof.
  intros Hl Hd Hn. pose proof (digits_plain v Hd) as Hp.
  rewrite piece_after_colon; [|assumption|].
  - rewrite <- (append_nil_r v) at 1. rewrite trim_value by auto.
    rewrite append_nil_r. apply token_alone. now apply plain_absent.
  - cbn [occurs]. simpl Ascii.eqb. cbn [orb]. now apply plain_absent.
Qed.

(** The text handed to [parseInt] or [parseFloat] for each label. *)
Lemma block_texts :
  metricText (PL ++ metricsBlock v1 v2 v3 v4 v5 v6 v7 ++ R)%list "Word Count" false
  = Some v1
  /\ metricText (PL ++ metricsBlock v1 v2 v3 v4 v5 v6 v7 ++ R)%list "Reading Time" false
     = Some v2
  /\ metricText (PL ++ metricsBlock v1 v2 v3 v4 v5 v6 v7 ++ R)%list "TODOs" false
     = Some v3
  /\ metricText (PL ++ metricsBlock v1 v2 v3 v4 v5 v6 v7 ++ R)%list "Completion" true
     = Some v4
  /\ metricText (PL ++ metricsBlock v1 v2 v3 v4 v5 v6 v7 ++ R)%list "Sections" false
     = Some v5
  /\ metricText (PL ++ metricsBlock v1 v2 v3 v4 v5 v6 v7 ++ R)%list "Code Blocks" false
     = Some v6
  /\ metricText (PL ++ metricsBlock v1 v2 v3 v4 v5 v6 v7 ++ R)%list
                "Days Since Last Snapshot" false
     = Some v7.
Proof.
  destruct block_lines as (L1 & L2 & L3 & L4 & L5 & L6 & L7).
  unfold metricText. rewrite L1, L2, L3, L4, L5, L6, L7.
  split; [apply (count_text "- Word Count" v1); [reflexivity|assumption|assumption]|].
  split.
  { pose proof (digits_plain v2 Hd2) as Hp.
    change ("- Reading Time: " ++ v2 ++ " minutes")
      with ("- Reading Time" ++ String ":" (String " " (v2 ++ " minutes"))).
    rewrite piece_after_colon; [|reflexivity|].
    - rewrite trim_value;
        [|assumption|assumption|right; split; [reflexivity|discriminate]].
      apply (token_before_space v2 "minutes"). now apply plain_absent.
    - cbn [occurs]. simpl Ascii.eqb. cbn [orb].
      rewrite occurs_append, (plain_absent ":" v2) by (reflexivity || assumption).
      reflexivity. }
  split; [apply (count_text "- TODOs" v3); [reflexivity|assumption|assumption]|].
  split.
  { change ("- Completion: " ++ v4 ++ "%")
      with ("- Completion" ++ String ":" (String " " (v4 ++ "%"))).
    rewrite piece_after_colon; [|reflexivity|].
    - rewrite trim_value;
        [|assumption|assumption|right; split; [reflexivity|discriminate]].
      rewrite removeFirst_suffix; [reflexivity|]. now apply plain_absent.
    - cbn [occurs]. simpl Ascii.eqb. cbn [orb].
      rewrite occurs_append, (plain_absent ":" v4) by (reflexivity || assumption).
      reflexivity. }
  split; [apply (count_text "- Sections" v5); [reflexivity|assumption|assumption]|].
  split; [apply (count_text "- Code Blocks" v6); [reflexivity|assumption|assumption]|].
  apply (count_text "- Days Since Last Snapshot" v7); [reflexivity|assumption|assumption].
Qed.

(** The record parsed from lines that hold the metrics block. *)
Lemma block_metrics (updated : string) :
  parseHealthMetrics (PL ++ metricsBlock v1 v2 v3 v4 v5 v6 v7 ++ R)%list updated
  = inr {| last_updated := updated;
           word_count := Js.orZero (Js.parseInt v1);
           reading_time := Js.orZero (Js.parseInt v2);
           has_todos := Js.gtZero (Js.parseInt v3);
           todo_count := Js.orZero (Js.parseInt v3);
           linked_files := [];
           broken_links := [];
           completion_percentage := Js.orZero (Js.parseFloat v4);
           section_count := Js.orZero (Js.parseInt v5);
           section_depth := Js.zero;
           code_blocks := Js.orZero (Js.parseInt v6);
           avg_section_length := Js.zero;
           readability_score := Js.zero;
           last_snapshot_delta := Js.orZero (Js.parseInt v7) |}.
Proof.
  destruct block_lines as (L1 & L2 & L3 & L4 & L5 & L6 & L7).
  destruct block_texts as (T1 & T2 & T3 & T4 & T5 & T6 & T7).
  unfold parseHealthMetrics. rewrite !extractMetric_value.
  rewrite L1, L2, L3, L4, L5, L6, L7, T1, T2, T3, T4, T5, T6, T7.
  reflexivity.
Qed.

End MetricsBlock.

(** ** C7: rendering the header and parsing it back *)

Lemma findIndex_skip {A : Type} (p : A -> bool) (l1 l2 : list A) :
  (forall y, In y l1 -> p y = false) ->
  findIndex p (l1 ++ l2) = option_map (Nat.add (List.length l1)) (findIndex p l2).
Proof.
  induction l1 as [|a l1 IH]; intros H; simpl.
  - now destruct (findIndex p l2).
  - rewrite (H a (or_introl eq_refl)), IH by (intros y Hy; apply H; now right).
    now destruct (findIndex p l2).
Qed.

Lemma orZero_ofZ (w : Z) : Js.orZero (Js.ofZ w) = Js.ofZ w.
Proof.
  unfold Js.orZero, Js.ofZ. simpl. destruct (Z.eqb_spec w 0); [now subst|reflexivity].
Qed.

Lemma orZero_same (y x : Js.number) :
  Js.sameNumber y x = true -> x <> Js.NaN -> Js.sameNumber (Js.orZero y) x = true.
Proof.
  intros H Hx. unfold Js.orZero.
  destruct y as [|b|m e]; simpl Js.truthyNumber.
  - destruct x; simpl in H; try discriminate. congruence.
  - exact H.
  - destruct (Z.eqb_spec m 0) as [->|Hm]; simpl negb; cbv iota; [|exact H].
    apply sameNumber_trans with (y := Js.Finite 0 e); [reflexivity|exact H].
Qed.

Lemma parseInt_digits (ds : string) :
  allChars Js.isDigit ds = true -> ds <> EmptyString ->
  Js.parseInt ds = Js.Finite (Z.of_N (Js.digitsValue ds)) 0.
Proof. intros Hd Hn. exact (parseInt_signed_digits false ds Hd Hn). Qed.

Lemma parsed_count (x : Js.number) (w : Z) :
  isCount x w ->
  Js.sameNumber (Js.orZero (Js.parseInt (Js.toString x))) x = true
  /\ allChars Js.isDigit (Js.toString x) = true.
Proof.
  intros Hc. pose proof (toString_count x w Hc) as Hs. destruct Hc as [[Hlo _] Hsame].
  rewrite Hs. split; [|apply allDigits_digitsOf].
  rewrite parseInt_digits by (apply allDigits_digitsOf || apply digitsOf_nonempty).
  rewrite digitsValue_digitsOf, Z2N.id by assumption.
  fold (Js.ofZ w). rewrite orZero_ofZ. now apply sameNumber_sym.
Qed.

Lemma parsed_percentage (x : Js.number) :
  Js.nonNegative x = true ->
  Js.sameNumber (Js.orZero (Js.parseFloat (Js.toString x))) x = true.
Proof.
  intros Hx. apply orZero_same; [apply parseFloat_toString|].
  intros ->. discriminate.
Qed.

Lemma headerMetrics_block (m : HealthMetrics) :
  headerMetrics m
  = metricsBlock (Js.toString (word_count m)) (Js.toString (reading_time m))
                 (Js.toString (todo_count m)) (Js.toString (completion_percentage m))
                 (Js.toString (section_count m)) (Js.toString (code_blocks m))
                 (Js.toString (last_snapshot_delta m)).
Proof. reflexivity. Qed.

Lemma no_LF_plain (v : string) : allChars plainChar v = true -> occurs "010" v = false.
Proof. apply plain_absent. reflexivity. Qed.

Lemma metricsBlock_lines (v1 v2 v3 v4 v5 v6 v7 : string) :
  allChars plainChar v1 = true -> allChars plainChar v2 = true ->
  allChars plainChar v3 = true -> allChars plainChar v4 = true ->
  allChars plainChar v5 = true -> allChars plainChar v6 = true ->
  allChars plainChar v7 = true ->
  flat_map (fun x => Js.split x LF) (metricsBlock v1 v2 v3 v4 v5 v6 v7)
  = metricsBlock v1 v2 v3 v4 v5 v6 v7
  /\ (forall line, In line (metricsBlock v1 v2 v3 v4 v5 v6 v7) ->
                   String.eqb line "---" = false).
Proof.
  intros H1 H2 H3 H4 H5 H6 H7. split.
  - apply (flat_map_absent "010"). intros x Hx. unfold metricsBlock in Hx.
    cbn [In] in Hx.
    repeat (destruct Hx as [<-|Hx];
            [rewrite ?occurs_append, ?(no_LF_plain v1 H1), ?(no_LF_plain v2 H2),
               ?(no_LF_plain v3 H3), ?(no_LF_plain v4 H4), ?(no_LF_plain v5 H5),
               ?(no_LF_plain v6 H6), ?(no_LF_plain v7 H7); reflexivity|]).
    contradiction.
  - intros line Hx. unfold metricsBlock in Hx. cbn [In] in Hx.
    repeat (destruct Hx as [<-|Hx]; [reflexivity|]). contradiction.
Qed.

Lemma createSnapshot_lines (md : DocumentationMetadata) (rendered : string) :
  Js.split (createSnapshot (Some md) rendered) LF
  = (flat_map (fun x => Js.split x LF) (headerLines md)
     ++ EmptyString :: "---" :: EmptyString :: Js.split rendered LF)%list.
Proof.
  assert (Hne : headerLines md <> []) by (unfold headerLines, headerPreamble; discriminate).
  change (createSnapshot (Some md) rendered)
    with (generateMetadataHeader md
          ++ String "010" (EmptyString
          ++ String "010" ("---"
          ++ String "010" (EmptyString ++ String "010" rendered)))).
  unfold LF. rewrite !split_append. unfold generateMetadataHeader, LF.
  rewrite split_join by assumption. reflexivity.
Qed.

Lemma round_trip_document (md : DocumentationMetadata) (m : HealthMetrics)
    (rendered : string) (w1 w2 w3 w5 w6 w7 : Z) :
  doc_health_metrics md = Some m ->
  cleanPreamble md ->
  isCount (word_count m) w1 ->
  isCount (reading_time m) w2 ->
  isCount (todo_count m) w3 ->
  isCount (section_count m) w5 ->
  isCount (code_blocks m) w6 ->
  isCount (last_snapshot_delta m) w7 ->
  Js.nonNegative (completion_percentage m) = true ->
  exists s p,
    parseDocument (createSnapshot (Some md) rendered) = inr s
    /\ health_metrics (metadata s) = Some p
    /\ sameRepresentedMetrics p m.
Proof.
  intros Hmd Hclean K1 K2 K3 K5 K6 K7 Hcp.
  destruct (parsed_count _ _ K1) as [S1 D1]. destruct (parsed_count _ _ K2) as [S2 D2].
  destruct (parsed_count _ _ K3) as [S3 D3]. destruct (parsed_count _ _ K5) as [S5 D5].
  destruct (parsed_count _ _ K6) as [S6 D6]. destruct (parsed_count _ _ K7) as [S7 D7].
  pose proof (parsed_percentage _ Hcp) as S4.
  pose proof (plain_toString (completion_percentage m)) as P4.
  set (PL := flat_map (fun x => Js.split x LF) (headerPreamble md)).
  set (TL := flat_map (fun x => Js.split x LF) (headerTags md)).
  set (MB := metricsBlock (Js.toString (word_count m)) (Js.toString (reading_time m))
                          (Js.toString (todo_count m)) (Js.toString (completion_percentage m))
                          (Js.toString (section_count m)) (Js.toString (code_blocks m))
                          (Js.toString (last_snapshot_delta m))).
  set (REST := (TL ++ EmptyString :: "---" :: EmptyString :: Js.split rendered LF)%list).
  destruct (metricsBlock_lines _ _ _ _ _ _ _
              (digits_plain _ D1) (digits_plain _ D2) (digits_plain _ D3) P4
              (digits_plain _ D5) (digits_plain _ D6) (digits_plain _ D7))
    as [HMB HMBsep]. fold MB in HMB, HMBsep.
  assert (HPLclean : forall line, In line PL -> cleanLine line = true).
  { intros line Hin. apply Hclean. unfold LF. rewrite split_join; [exact Hin|].
    unfold headerPreamble. discriminate. }
  assert (Hlines : Js.split (createSnapshot (Some md) rendered) LF = (PL ++ MB ++ REST)%list).
  { rewrite createSnapshot_lines. unfold headerLines. rewrite Hmd.
    rewrite !flat_map_app, headerMetrics_block. fold PL TL MB. rewrite HMB.
    unfold REST. now rewrite <- !app_assoc. }
  pose proof (parseDocument_cases (createSnapshot (Some md) rendered)) as H.
  rewrite Hlines in H.
  rewrite findIndex_skip in H
    by (intros y Hy; specialize (HPLclean y Hy); unfold cleanLine in HPLclean;
        apply andb_true_iff in HPLclean; destruct HPLclean as [_ Hsep];
        now apply negb_true_iff in Hsep).
  rewrite findIndex_skip in H by exact HMBsep.
  destruct (findIndex (fun line => String.eqb line "---") REST) as [i|] eqn:Hi.
  - cbn [option_map] in H. cbv zeta in H. rewrite !firstn_app_2 in H.
    destruct H as (p & Hp & Hdoc).
    unfold MB in Hp. rewrite block_metrics in Hp.
    + injection Hp as <-. eexists. eexists. split; [exact Hdoc|]. split; [reflexivity|].
      unfold sameRepresentedMetrics. cbn [word_count reading_time todo_count
        completion_percentage section_count code_blocks last_snapshot_delta].
      repeat split; assumption.
    + intros line Hin. specialize (HPLclean line Hin). unfold cleanLine in HPLclean.
      apply andb_true_iff in HPLclean. destruct HPLclean as [Hlab _].
      now apply negb_true_iff in Hlab.
    + exact D1.
    + exact D2.
    + exact D3.
    + exact P4.
    + exact D5.
    + exact D6.
    + exact D7.
    + apply toString_nonempty.
    + apply toString_nonempty.
    + apply toString_nonempty.
    + apply toString_nonempty.
    + apply toString_nonempty.
    + apply toString_nonempty.
    + apply toString_nonempty.
  - exfalso. apply findIndex_None with (y := "---") in Hi; [discriminate|].
    unfold REST. apply in_or_app. right. right. now left.
Qed.

(** The same through the header alone. *)
Lemma round_trip_header (md : DocumentationMetadata) (m : HealthMetrics)
    (updated : string) (w1 w2 w3 w5 w6 w7 : Z) :
  doc_health_metrics md = Some m ->
  cleanPreamble md ->
  isCount (word_count m) w1 ->
  isCount (reading_time m) w2 ->
  isCount (todo_count m) w3 ->
  isCount (section_count m) w5 ->
  isCount (code_blocks m) w6 ->
  isCount (last_snapshot_delta m) w7 ->
  Js.nonNegative (completion_percentage m) = true ->
  exists p,
    parseHealthMetrics (Js.split (generateMetadataHeader md) LF) updated = inr p
    /\ sameRepresentedMetrics p m.
Proof.
  intros Hmd Hclean K1 K2 K3 K5 K6 K7 Hcp.
  destruct (parsed_count _ _ K1) as [S1 D1]. destruct (parsed_count _ _ K2) as [S2 D2].
  destruct (parsed_count _ _ K3) as [S3 D3]. destruct (parsed_count _ _ K5) as [S5 D5].
  destruct (parsed_count _ _ K6) as [S6 D6]. destruct (parsed_count _ _ K7) as [S7 D7].
  pose proof (parsed_percentage _ Hcp) as S4.
  pose proof (plain_toString (completion_percentage m)) as P4.
  destruct (metricsBlock_lines _ _ _ _ _ _ _
              (digits_plain _ D1) (digits_plain _ D2) (digits_plain _ D3) P4
              (digits_plain _ D5) (digits_plain _ D6) (digits_plain _ D7))
    as [HMB _].
  assert (Hne : headerLines md <> []) by (unfold headerLines, headerPreamble; discriminate).
  unfold generateMetadataHeader, LF. rewrite split_join by assumption.
  unfold headerLines. rewrite Hmd, !flat_map_app, headerMetrics_block.
  fold LF. rewrite HMB. rewrite block_metrics; try assumption; try apply toString_nonempty.
  - eexists. split; [reflexivity|].
    unfold sameRepresentedMetrics. cbn [word_count reading_time todo_count
      completion_percentage section_count code_blocks last_snapshot_delta].
    repeat split; assumption.
  - intros line Hin.
    assert (Hc : cleanLine line = true).
    { apply Hclean. unfold LF. rewrite split_join; [exact Hin|].
      unfold headerPreamble. discriminate. }
    unfold cleanLine in Hc. apply andb_true_iff in Hc. destruct Hc as [Hlab _].
    now apply negb_true_iff in Hlab.
Qed.

(** The preamble written for the metadata of the snapshot generator is
    clean when the two time stamps hold no line feed and no space, as the
    ISO time stamps do. *)
Lemma generator_preamble_clean (created updated : string) (m : HealthMetrics) :
  occurs "010" created = false -> occurs " " created = false ->
  occurs "010" updated = false -> occurs " " updated = false ->
  cleanPreamble (generatorMetadata created updated m).
Proof.
  intros Hc1 Hc2 Hu1 Hu2 line Hin.
  unfold LF in Hin. rewrite split_join in Hin by (unfold headerPreamble; discriminate).
  rewrite (flat_map_absent "010") in Hin.
  - unfold headerPreamble, generatorMetadata in Hin. cbn [map app In] in Hin.
    cbn [doc_version doc_created_at doc_updated_at dependencies dep_name dep_version] in Hin.
    destruct Hin as [<-|[<-|[<-|[<-|[<-|[<-|[<-|[]]]]]]]]; try reflexivity.
    + unfold cleanLine, carriesLabel, metricFields.
      cbn [existsb fst append Js.includes Js.startsWith Ascii.eqb Bool.eqb andb orb
           String.eqb].
      rewrite !(includes_no_space created) by assumption. reflexivity.
    + unfold cleanLine, carriesLabel, metricFields.
      cbn [existsb fst append Js.includes Js.startsWith Ascii.eqb Bool.eqb andb orb
           String.eqb].
      rewrite !(includes_no_space updated) by assumption. reflexivity.
  - intros x Hx. unfold headerPreamble, generatorMetadata in Hx. cbn [map app In] in Hx.
    cbn [doc_version doc_created_at doc_updated_at dependencies dep_name dep_version] in Hx.
    destruct Hx as [<-|[<-|[<-|[<-|[<-|[<-|[<-|[]]]]]]]]; try reflexivity.
    + rewrite occurs_append, Hc1. reflexivity.
    + rewrite occurs_append, Hu1. reflexivity.
Qed.

(** C7, amended: for every record whose counts (word_count, reading_time,
    todo_count, section_count, code_blocks, last_snapshot_delta) are
    non-negative integers below 10^21 and whose completion_percentage is
    non-negative, rendered in a header whose lines in front of the metrics
    block carry no metric label and are not the separator, parsing the
    snapshot document (and parsing the header alone) gives back the values of
    these seven metrics; the header written for the metadata of the snapshot
    generator meets the condition on the lines in front of the block. *)
Theorem C7_round_trip :
  (forall (md : DocumentationMetadata) (m : HealthMetrics)
          (rendered updated : string) (w1 w2 w3 w5 w6 w7 : Z),
      doc_health_metrics md = Some m ->
      cleanPreamble md ->
      isCount (word_count m) w1 ->
      isCount (reading_time m) w2 ->
      isCount (todo_count m) w3 ->
      isCount (section_count m) w5 ->
      isCount (code_blocks m) w6 ->
      isCount (last_snapshot_delta m) w7 ->
      Js.nonNegative (completion_percentage m) = true ->
      (exists s p,
          parseDocument (createSnapshot (Some md) rendered) = inr s
          /\ health_metrics (metadata s) = Some p
          /\ sameRepresentedMetrics p m)
      /\ (exists p,
            parseHealthMetrics (Js.split (generateMetadataHeader md) LF) updated = inr p
            /\ sameRepresentedMetrics p m))
  /\ (forall (created updated : string) (m : HealthMetrics),
        occurs "010" created = false -> occurs " " created = false ->
        occurs "010" updated = false -> occurs " " updated = false ->
        cleanPreamble (generatorMetadata created updated m)).
Proof.
  split.
  - intros. split.
    + eapply round_trip_document; eassumption.
    + eapply round_trip_header; eassumption.
  - apply generator_preamble_clean.
Qed.

Lemma C7_round_trip_witness :
  (exists s p,
      parseDocument
        (createSnapshot
           (Some (generatorMetadata "2024-05-01T08:30:00.000Z" "2024-05-01T08:30:00.001Z"
                                    (sampleMetrics (Js.Finite 1500 0))))
           ("# Title" ++ LF ++ LF ++ "Some text"))
      = inr s
      /\ health_metrics (metadata s) = Some p
      /\ sameRepresentedMetrics p (sampleMetrics (Js.Finite 1500 0)))
  /\ (exists p,
        parseHealthMetrics
          (Js.split
             (generateMetadataHeader
                (generatorMetadata "2024-05-01T08:30:00.000Z" "2024-05-01T08:30:00.001Z"
                                   (sampleMetrics (Js.Finite 1500 0))))
             LF)
          "2024-05-01T08:30:00.001Z"
        = inr p
        /\ sameRepresentedMetrics p (sampleMetrics (Js.Finite 1500 0))).
Proof.
  apply (proj1 C7_round_trip
           (generatorMetadata "2024-05-01T08:30:00.000Z" "2024-05-01T08:30:00.001Z"
                              (sampleMetrics (Js.Finite 1500 0)))
           (sampleMetrics (Js.Finite 1500 0))
           ("# Title" ++ LF ++ LF ++ "Some text") "2024-05-01T08:30:00.001Z"
           1500%Z 3%Z 3%Z 12%Z 0%Z 7%Z).
  - reflexivity.
  - apply (proj2 C7_round_trip); reflexivity.
  - split; [lia|reflexivity].
  - split; [lia|reflexivity].
  - split; [lia|reflexivity].
  - split; [lia|reflexivity].
  - split; [lia|reflexivity].
  - split; [lia|reflexivity].
  - reflexivity.
Defined.

(** C7 as stated fails for a count of 10^21, which is printed [1e+21] and
    read back as 1, and when a line in front of the metrics block carries a
    metric label: a dependency named [Word Count] is read as the word
    count. *)
Lemma C7_round_trip_refuted :
  (exists s p,
      recordInvariant (sampleMetrics (Js.Finite 1 21))
      /\ Js.toString (Js.Finite 1 21) = "1e+21"
      /\ parseDocument
           (createSnapshot
              (Some (generatorMetadata "2024-05-01T08:30:00.000Z" "2024-05-01T08:30:00.001Z"
                                       (sampleMetrics (Js.Finite 1 21))))
              "Some text")
         = inr s
      /\ health_metrics (metadata s) = Some p
      /\ word_count p = Js.Finite 1 0
      /\ Js.sameNumber (word_count p) (word_count (sampleMetrics (Js.Finite 1 21))) = false)
  /\ (exists s p,
        parseDocument
          (createSnapshot
             (Some {| doc_version := "1.0.0";
                      doc_created_at := "2024-05-01T08:30:00.000Z";
                      doc_updated_at := "2024-05-01T08:30:00.001Z";
                      dependencies := [mkDependency "Word Count" "7"];
                      doc_health_metrics := Some (sampleMetrics (Js.Finite 1500 0));
                      tags := [] |})
             "Some text")
        = inr s
        /\ health_metrics (metadata s) = Some p
        /\ word_count p = Js.Finite 7 0
        /\ Js.sameNumber (word_count p)
                         (word_count (sampleMetrics (Js.Finite 1500 0))) = false).
Proof.
  split; eexists; eexists.
  - split; [unfold recordInvariant; repeat split; reflexivity|].
    split; [vm_compute; reflexivity|].
    split; [vm_compute; reflexivity|].
    split; [reflexivity|]. split; reflexivity.
  - split; [vm_compute; reflexivity|].
    split; [reflexivity|]. split; reflexivity.
Qed.

(** * Further properties of the code *)

(** ** Further properties of the content differ *)

Lemma filter_none {A : Type} (f : A -> bool) (l : list A) :
  (forall x, In x l -> f x = false) -> filter f l = [].
Proof.
  induction l as [|a l IH]; intros H; simpl; [reflexivity|].
  rewrite (H a) by now left. apply IH. intros x Hx. apply H. now right.
Qed.

Lemma filter_all {A : Type} (f : A -> bool) (l : list A) :
  (forall x, In x l -> f x = true) -> filter f l = l.
Proof.
  induction l as [|a l IH]; intros H; simpl; [reflexivity|].
  rewrite (H a) by now left. f_equal. apply IH. intros x Hx. apply H. now right.
Qed.

(** X1: with an empty old body every new line is reported as added, in order
    and with its repetitions; with an empty new body every old line is
    reported as removed. *)
Theorem compareContent_empty_side (lines : list string) :
  compareContent [] lines = {| added := lines; removed := []; modified := [] |}
  /\ compareContent lines [] = {| added := []; removed := lines; modified := [] |}.
Proof.
  split.
  - unfold compareContent. rewrite compareContent_loop.
    rewrite (filter_all (isAdded [])) by reflexivity.
    rewrite (filter_none (isModified [])) by reflexivity.
    reflexivity.
  - unfold compareContent. cbn [fold_left].
    rewrite filter_all; [reflexivity|]. intros x _. reflexivity.
Qed.

(** X2: two bodies with the same lines, in any order and with any repetitions,
    have an empty diff. *)
Theorem compareContent_same_lines (oldLines newLines : list string) :
  (forall line, In line oldLines <-> In line newLines) ->
  compareContent oldLines newLines = {| added := []; removed := []; modified := [] |}.
Proof.
  intros Hsame.
  assert (Ha : added (compareContent oldLines newLines) = []).
  { rewrite compareContent_added. apply filter_none. intros x Hx.
    unfold isAdded. apply Hsame, has_newSet_In in Hx. now rewrite Hx. }
  assert (Hm : modified (compareContent oldLines newLines) = []).
  { rewrite compareContent_modified.
    rewrite (filter_none (isModified oldLines)); [reflexivity|]. intros x Hx.
    unfold isModified. apply Hsame, has_newSet_In in Hx. now rewrite Hx. }
  assert (Hr : removed (compareContent oldLines newLines) = []).
  { rewrite compareContent_removed. apply filter_none. intros x Hx.
    apply Hsame, has_newSet_In in Hx. now rewrite Hx. }
  destruct (compareContent oldLines newLines) as [a r m]. simpl in *. now subst.
Qed.

Lemma compareContent_same_lines_witness :
  compareContent ["a"; "b"] ["b"; "a"; "b"]
  = {| added := []; removed := []; modified := [] |}.
Proof.
  apply (compareContent_same_lines ["a"; "b"] ["b"; "a"; "b"]).
  intros line. simpl. tauto.
Defined.

Lemma compareContent_self (lines : list string) :
  compareContent lines lines = {| added := []; removed := []; modified := [] |}.
Proof.
  assert (Ha : added (compareContent lines lines) = []).
  { rewrite compareContent_added. apply filter_none. intros x Hx.
    unfold isAdded. apply has_newSet_In in Hx. now rewrite Hx. }
  assert (Hm : modified (compareContent lines lines) = []).
  { rewrite compareContent_modified.
    rewrite (filter_none (isModified lines)); [reflexivity|]. intros x Hx.
    unfold isModified. apply has_newSet_In in Hx. now rewrite Hx. }
  assert (Hr : removed (compareContent lines lines) = []).
  { rewrite compareContent_removed. apply filter_none. intros x Hx.
    apply has_newSet_In in Hx. now rewrite Hx. }
  destruct (compareContent lines lines) as [a r m]. simpl in *. now subst.
Qed.

(** *** The similarity test *)

Lemma common_count_sym (A B : list string) :
  NoDup A -> NoDup B ->
  List.length (filter (fun w => Js.has B w) A)
  = List.length (filter (fun w => Js.has A w) B).
Proof.
  intros HA HB. apply Permutation_length, NoDup_Permutation.
  - now apply NoDup_filter.
  - now apply NoDup_filter.
  - intros x. rewrite !filter_In, !has_In. tauto.
Qed.

Lemma commonWords_sym (a b : string) : commonWords a b = commonWords b a.
Proof. apply common_count_sym; apply NoDup_newSet. Qed.

Lemma largerSize_sym (a b : string) : largerSize a b = largerSize b a.
Proof. apply Nat.max_comm. Qed.

Lemma toLowerCaseChar_idem (c : ascii) :
  Js.toLowerCaseChar (Js.toLowerCaseChar c) = Js.toLowerCaseChar c.
Proof. destruct c as [[] [] [] [] [] [] [] []]; reflexivity. Qed.

Lemma toLowerCase_idem (s : string) : Js.toLowerCase (Js.toLowerCase s) = Js.toLowerCase s.
Proof.
  induction s as [|c s IH]; simpl; [reflexivity|].
  now rewrite toLowerCaseChar_idem, IH.
Qed.

Lemma similar_same_words (a b : string) : wordSet a = wordSet b -> similar a b = true.
Proof.
  intros H. apply similar_iff. unfold largerSize, commonWords. rewrite H.
  rewrite filter_all by (intros x Hx; now apply has_In).
  unfold Js.size. rewrite Nat.max_id. lia.
Qed.

(** X3: the similarity test is reflexive and symmetric, and it does not see the
    letter case of either line. *)
Theorem similar_symmetric :
  (forall a, similar a a = true)
  /\ (forall a b, similar a b = similar b a)
  /\ (forall a b, similar (Js.toLowerCase a) b = similar a b
                  /\ similar a (Js.toLowerCase b) = similar a b).
Proof.
  split; [|split].
  - intros a. now apply similar_same_words.
  - intros a b. apply eq_true_iff_eq. rewrite !similar_iff.
    now rewrite commonWords_sym, largerSize_sym.
  - intros a b. unfold similar, wordSet. now rewrite !toLowerCase_idem.
Qed.



(** ** Further properties of the metric differ *)

Lemma assign_fresh (changes : Changes) (key : MetricKey) (c : Change) :
  ~ In key (map fst changes) -> assign changes key c = (changes ++ [(key, c)])%list.
Proof.
  induction changes as [|[k c'] rest IH]; intros H; simpl; [reflexivity|].
  destruct (MetricKey_eqb k key) eqn:E.
  - apply MetricKey_eqb_eq in E. subst. exfalso. apply H. now left.
  - rewrite IH; [reflexivity|]. intros Hin. apply H. now right.
Qed.

Lemma assign_last (changes : Changes) (key : MetricKey) (c c' : Change) :
  ~ In key (map fst changes) ->
  assign (changes ++ [(key, c)])%list key c' = (changes ++ [(key, c')])%list.
Proof.
  induction changes as [|[k c0] rest IH]; intros H; simpl.
  - now rewrite MetricKey_eqb_refl.
  - destruct (MetricKey_eqb k key) eqn:E.
    + apply MetricKey_eqb_eq in E. subst. exfalso. apply H. now left.
    + rewrite IH; [reflexivity|]. intros Hin. apply H. now right.
Qed.

Lemma step_fresh (old current : HealthMetrics) (changes : Changes) (key : MetricKey) :
  ~ In key (map fst changes) ->
  compareMetrics_step old current changes key
  = (changes ++ entryOf old current key)%list.
Proof.
  intros H. unfold compareMetrics_step, entryOf, changeOf.
  destruct (String.eqb _ _); simpl; [now rewrite app_nil_r|].
  rewrite assign_fresh by assumption.
  destruct (get old key), (get current key); try reflexivity.
  now apply assign_last.
Qed.

Lemma entryOf_keys (old current : HealthMetrics) (key k : MetricKey) :
  In k (map fst (entryOf old current key)) -> k = key.
Proof.
  unfold entryOf. destruct (changeOf old current key); simpl; [|contradiction].
  now intros [<-|[]].
Qed.

Lemma fold_fresh (old current : HealthMetrics) (ks : list MetricKey) (changes : Changes) :
  NoDup ks ->
  (forall k, In k ks -> ~ In k (map fst changes)) ->
  fold_left (compareMetrics_step old current) ks changes
  = (changes ++ flat_map (entryOf old current) ks)%list.
Proof.
  revert changes. induction ks as [|key ks IH]; intros changes Hnd Hfresh; simpl.
  - now rewrite app_nil_r.
  - inversion Hnd as [|? ? Hnotin Hnd']; subst.
    rewrite step_fresh by (apply Hfresh; now left).
    rewrite IH, <- app_assoc; [reflexivity | assumption |].
    intros k Hk Hin. rewrite map_app, in_app_iff in Hin. destruct Hin as [Hin|Hin].
    + apply (Hfresh k); [now right | assumption].
    + apply entryOf_keys in Hin. now subst.
Qed.

Lemma NoDup_keys : NoDup keys.
Proof.
  unfold keys. repeat (constructor; [simpl; intuition discriminate|]). constructor.
Qed.

Lemma compareMetrics_entries (old current : HealthMetrics) :
  compareMetrics old current = flat_map (entryOf old current) keys.
Proof.
  unfold compareMetrics. rewrite fold_fresh; [reflexivity | apply NoDup_keys |].
  intros k _ [].
Qed.



Lemma subtract_swap (x y : Js.number) : Js.subtract x y = negate (Js.subtract y x).
Proof.
  destruct x as [|a|m1 e1], y as [|b|m2 e2]; try reflexivity.
  - destruct a, b; reflexivity.
  - simpl. now rewrite negb_involutive.
  - unfold Js.subtract, negate. rewrite (Z.min_comm e2 e1). f_equal. lia.
Qed.

Lemma entryOf_swap (old current : HealthMetrics) (key : MetricKey) :
  entryOf current old key
  = map (fun entry => (fst entry, swapChange (snd entry))) (entryOf old current key).
Proof.
  unfold entryOf, changeOf. rewrite (String.eqb_sym (Js.stringify (get current key))).
  destruct (String.eqb _ _); [reflexivity|]. simpl. unfold swapChange. simpl.
  pose proof (get_same_type old current key) as Ht.
  destruct (get old key), (get current key); try contradiction; try reflexivity.
  simpl. now rewrite <- subtract_swap.
Qed.

(** X6: exchanging the two records exchanges the old and the new value of each
    entry and turns each delta into its opposite; the fields recorded and
    their order stay the same. *)
Theorem compareMetrics_swap (old current : HealthMetrics) :
  compareMetrics current old
  = map (fun entry => (fst entry, swapChange (snd entry))) (compareMetrics old current).
Proof.
  rewrite !compareMetrics_entries.
  induction keys as [|key ks IH]; simpl; [reflexivity|].
  now rewrite map_app, IH, entryOf_swap.
Qed.

(** ** When the metric differ records an entry *)

Lemma toString_not_null (m e : Z) : Js.toString (Js.Finite m e) <> "null".
Proof.
  cbn [Js.toString]. destruct (Z.eqb_spec m 0) as [|Hm]; [discriminate|].
  assert (HM : (0 < Z.abs_N m)%N) by (destruct m; simpl; lia).
  destruct (toStringPositive_starts_digit (Z.abs_N m) e HM) as (c & b & -> & Hc).
  destruct (m <? 0)%Z; [discriminate|].
  cbn [append]. intros [= -> _]. discriminate.
Qed.

Lemma stringify_number_cases (x y : Js.number) :
  Js.stringify (Js.VNumber x) = Js.stringify (Js.VNumber y) ->
  (Js.isFinite x = true /\ Js.isFinite y = true)
  \/ (Js.isFinite x = false /\ Js.isFinite y = false).
Proof.
  destruct x as [|a|m1 e1], y as [|b|m2 e2]; cbn [Js.stringify Js.isFinite]; auto; intros H.
  - symmetry in H. now apply toString_not_null in H.
  - symmetry in H. now apply toString_not_null in H.
  - now apply toString_not_null in H.
  - now apply toString_not_null in H.
Qed.

Lemma stringify_equal_iff (a b : Js.value) :
  match a, b with
  | Js.VString _, Js.VString _ | Js.VNumber _, Js.VNumber _
  | Js.VBoolean _, Js.VBoolean _ | Js.VArray _, Js.VArray _ => True
  | _, _ => False
  end ->
  Js.stringify a = Js.stringify b <-> sameValue a b \/ bothNonFinite a b.
Proof.
  intros Ht. split.
  - intros H. destruct a as [s|x|p|l], b as [t|y|q|l']; try contradiction.
    + left. now apply stringify_inj.
    + destruct (stringify_number_cases x y H) as [[Fx Fy]|[Fx Fy]].
      * left. now apply stringify_inj.
      * right. now split.
    + left. now apply stringify_inj.
    + left. now apply stringify_inj.
  - intros [H|H]; [now apply stringify_same|].
    destruct a as [s|x|p|l], b as [t|y|q|l']; try contradiction.
    destruct H as [Fx Fy]. cbn [Js.stringify]. now rewrite Fx, Fy.
Qed.

Lemma invariant_numbers (m : HealthMetrics) (k : MetricKey) (x : Js.number) :
  recordInvariant m -> get m k = Js.VNumber x -> Js.nonNegative x = true.
Proof.
  intros (H1 & H2 & H3 & H4 & H5 & H6 & H7 & H8 & H9 & H10 & _) Hk.
  destruct k; cbn [get] in Hk; try discriminate; injection Hk as <-; assumption.
Qed.

Lemma nonNegative_non_finite (x : Js.number) :
  Js.nonNegative x = true -> Js.isFinite x = false -> x = Js.Infinity false.
Proof. destruct x as [|[]|m e]; simpl; intros; try discriminate; reflexivity. Qed.

(** X7: the changes have no entry for a field exactly when its two values are
    equal or are both numbers that are not finite (NaN, Infinity,
    -Infinity); an entry carries the old and the new value, and a delta
    exactly when the field is numeric.  For two records that meet the
    invariant of the data model (no numeric field negative) a field has no
    entry exactly when its two values are equal. *)
Theorem metric_entry_exactly_when (old current : HealthMetrics) (k : MetricKey) :
  (lookup (compareMetrics old current) k = None
   <-> sameValue (get old k) (get current k) \/ bothNonFinite (get old k) (get current k))
  /\ (forall c, lookup (compareMetrics old current) k = Some c ->
        chg_old c = get old k
        /\ chg_new c = get current k
        /\ (chg_delta c <> None <-> Js.isNumber (get old k) = true))
  /\ (recordInvariant old -> recordInvariant current ->
      (lookup (compareMetrics old current) k = None
       <-> sameValue (get old k) (get current k))).
Proof.
  assert (Hnone : lookup (compareMetrics old current) k = None
                  <-> sameValue (get old k) (get current k)
                      \/ bothNonFinite (get old k) (get current k)).
  { rewrite lookup_compareMetrics, <- stringify_equal_iff by apply get_same_type.
    unfold changeOf.
    destruct (String.eqb_spec (Js.stringify (get old k)) (Js.stringify (get current k)));
      split; intros H; try reflexivity; try assumption; try discriminate; contradiction. }
  split; [exact Hnone|]. split.
  - intros c. rewrite lookup_compareMetrics. unfold changeOf.
    destruct (String.eqb _ _); [discriminate|]. intros [= <-]. cbn [chg_old chg_new chg_delta].
    split; [reflexivity|]. split; [reflexivity|].
    pose proof (get_same_type old current k) as Ht.
    destruct (get old k), (get current k); try contradiction; cbn [Js.isNumber];
      split; intros H; congruence.
  - intros Io Ic. rewrite Hnone. split; [|auto]. intros [H|H]; [assumption|].
    destruct (get old k) as [s|x|p|l] eqn:Eo, (get current k) as [t|y|q|l'] eqn:Ec;
      try contradiction.
    destruct H as [Fx Fy].
    rewrite (nonNegative_non_finite x (invariant_numbers old k x Io Eo) Fx).
    rewrite (nonNegative_non_finite y (invariant_numbers current k y Ic Ec) Fy).
    reflexivity.
Qed.

Lemma metric_entry_exactly_when_witness :
  lookup (compareMetrics (emptyMetrics (Js.Finite 25 0)) (emptyMetrics (Js.Infinity false)))
         k_completion_percentage = None
  <-> sameValue (get (emptyMetrics (Js.Finite 25 0)) k_completion_percentage)
                (get (emptyMetrics (Js.Infinity false)) k_completion_percentage).
Proof.
  apply (proj2 (proj2 (metric_entry_exactly_when (emptyMetrics (Js.Finite 25 0))
                         (emptyMetrics (Js.Infinity false)) k_completion_percentage)));
    repeat split; reflexivity.
Defined.

(** ** The report *)

Lemma parsed_not_NaN (lines : list string) (updated : string) (m : HealthMetrics)
    (k : MetricKey) (x : Js.number) :
  parseHealthMetrics lines updated = inr m ->
  get m k = Js.VNumber x -> x <> Js.NaN.
Proof.
  intros Hm Hk.
  destruct (parseHealthMetrics_value lines updated)
    as (wc & rt & tc & cp & sc & cb & ld & _ & _ & _ & _ & _ & _ & _ & Hv).
  rewrite Hv in Hm. injection Hm as <-.
  destruct k; simpl in Hk; try discriminate; injection Hk as <-;
    try apply orZero_not_NaN; discriminate.
Qed.

Lemma snapshot_not_NaN (fs : FileSystem) (filePath : string) (s : Snapshot)
    (m : HealthMetrics) (k : MetricKey) (x : Js.number) :
  parseSnapshot fs filePath = inr s ->
  health_metrics (metadata s) = Some m ->
  get m k = Js.VNumber x -> x <> Js.NaN.
Proof.
  unfold parseSnapshot. destruct (fs filePath) as [text|]; [|discriminate].
  intros Hs Hm. eapply parsed_not_NaN. eapply parseDocument_metrics; eassumption.
Qed.

(** The difference of two numbers that are not [NaN] and are serialized
    differently is above or below zero. *)
Lemma delta_sign (o n : Js.number) :
  o <> Js.NaN -> n <> Js.NaN ->
  Js.stringify (Js.VNumber o) <> Js.stringify (Js.VNumber n) ->
  (Js.gtZero (Js.subtract n o) = true /\ Js.nonNegative (Js.subtract n o) = true)
  \/ (Js.ltZero (Js.subtract n o) = true /\ Js.nonNegative (Js.subtract n o) = false).
Proof.
  intros Ho Hn Hs.
  destruct o as [|a|m1 e1], n as [|b|m2 e2]; try congruence.
  - simpl in Hs. congruence.
  - simpl. destruct a; simpl; auto.
  - simpl. destruct b; simpl; auto.
  - assert (Hne : Js.sameNumber (Js.Finite m1 e1) (Js.Finite m2 e2) = false).
    { destruct (Js.sameNumber _ _) eqn:E; [|reflexivity].
      apply toString_sameNumber in E. exfalso. apply Hs.
      unfold Js.stringify. cbn [Js.isFinite]. exact E. }
    unfold Js.sameNumber in Hne. cbv zeta in Hne.
    rewrite Z.min_comm in Hne. apply Z.eqb_neq in Hne.
    unfold Js.subtract, Js.gtZero, Js.ltZero, Js.nonNegative.
    set (A := (m2 * 10 ^ (e2 - Z.min e2 e1))%Z) in *.
    set (B := (m1 * 10 ^ (e1 - Z.min e2 e1))%Z) in *.
    destruct (Z.lt_trichotomy A B) as [H|[H|H]]; [right | | left].
    2: { exfalso. apply Hne. now symmetry. }
    + split; [apply Z.ltb_lt | apply Z.leb_gt]; lia.
    + split; [apply Z.ltb_lt | apply Z.leb_le]; lia.
Qed.

Lemma In_entries (old current : HealthMetrics) (k : MetricKey) (c : Change) :
  In (k, c) (compareMetrics old current) -> changeOf old current k = Some c.
Proof.
  rewrite compareMetrics_entries, in_flat_map. intros [k' [_ Hin]].
  unfold entryOf in Hin. destruct (changeOf old current k') as [c'|] eqn:E; [|contradiction].
  destruct Hin as [[= <- <-]|[]]. exact E.
Qed.

Lemma formatChange_plain (g : Marks) (vo vn : Js.value) (delta : option Js.number) :
  Js.isNumber vo && Js.isNumber vn = false ->
  formatChange g (mkChange vo vn delta)
  = "  " ++ Js.valueToString vo ++ " " ++ arrow g ++ " " ++ Js.valueToString vn.
Proof. intros H. unfold formatChange. cbn [chg_old chg_new]. now rewrite H. Qed.

Lemma formatChange_rise (g : Marks) (o n delta : Js.number) :
  Js.gtZero delta = true ->
  formatChange g (mkChange (Js.VNumber o) (Js.VNumber n) (Some delta))
  = "  " ++ Js.toString o ++ " " ++ arrow g ++ " " ++ Js.toString n ++ " "
         ++ trendUp g ++ " (+" ++ Js.toString delta ++ ")".
Proof.
  intros H. unfold formatChange.
  cbn [chg_old chg_new chg_delta Js.isNumber andb deltaGtZero deltaLtZero deltaGeZero
       deltaToString Js.valueToString].
  rewrite H. replace (Js.nonNegative delta) with true; [reflexivity|].
  destruct delta as [|neg|m e]; cbn [Js.gtZero Js.nonNegative] in *; try congruence.
  symmetry. apply Z.leb_le. apply Z.ltb_lt in H. lia.
Qed.

Lemma formatChange_fall (g : Marks) (o n delta : Js.number) :
  Js.ltZero delta = true ->
  formatChange g (mkChange (Js.VNumber o) (Js.VNumber n) (Some delta))
  = "  " ++ Js.toString o ++ " " ++ arrow g ++ " " ++ Js.toString n ++ " "
         ++ trendDown g ++ " (" ++ Js.toString delta ++ ")".
Proof.
  intros H. unfold formatChange.
  cbn [chg_old chg_new chg_delta Js.isNumber andb deltaGtZero deltaLtZero deltaGeZero
       deltaToString Js.valueToString].
  rewrite H.
  replace (Js.gtZero delta) with false; [replace (Js.nonNegative delta) with false; [reflexivity|]|].
  - destruct delta as [|neg|m e]; cbn [Js.ltZero Js.nonNegative] in *; try congruence.
    + subst neg. reflexivity.
    + symmetry. apply Z.leb_gt. apply Z.ltb_lt in H. lia.
  - destruct delta as [|neg|m e]; cbn [Js.ltZero Js.gtZero] in *; try congruence.
    + subst neg. reflexivity.
    + symmetry. apply Z.ltb_ge. apply Z.ltb_lt in H. lia.
Qed.

Lemma entry_of_parsed (fs : FileSystem) (first : Side) (old new : string)
    (d : SnapshotDiff) (k : MetricKey) (c : Change) :
  compareSnapshots fs first old new = inr d ->
  In (k, c) (changes (metrics d)) ->
  exists mo mn,
    changeOf mo mn k = Some c
    /\ (forall x, get mo k = Js.VNumber x -> x <> Js.NaN)
    /\ (forall x, get mn k = Js.VNumber x -> x <> Js.NaN).
Proof.
  intros Hd Hin.
  pose proof (compareSnapshots_result fs first old new) as Hr. rewrite Hd in Hr.
  destruct Hr as (so & sn & mo & mn & Hso & Hsn & Hmo & Hmn & Heq).
  assert (Hch : changes (metrics d) = compareMetrics mo mn) by (rewrite Heq; reflexivity).
  rewrite Hch in Hin. apply In_entries in Hin.
  exists mo, mn. split; [assumption|]. split; intros x Hx.
  - exact (snapshot_not_NaN fs old so mo k x Hso Hmo Hx).
  - exact (snapshot_not_NaN fs new sn mn k x Hsn Hmn Hx).
Qed.

(** X8: in the report of a comparison of two parsed snapshots a change of a
    numeric field is always marked as a rise, with the delta written with a
    plus sign, or as a fall; the mark for an unchanged value is never used.
    A change of another field is written without mark and delta. *)
Theorem report_marks_rise_or_fall (g : Marks) (fs : FileSystem) (first : Side)
    (old new : string) (d : SnapshotDiff) (k : MetricKey) (c : Change) :
  compareSnapshots fs first old new = inr d ->
  In (k, c) (changes (metrics d)) ->
  match chg_old c, chg_new c with
  | Js.VNumber o, Js.VNumber n =>
      exists delta,
        chg_delta c = Some delta
        /\ ((Js.gtZero delta = true
             /\ formatChange g c
                = "  " ++ Js.toString o ++ " " ++ arrow g ++ " " ++ Js.toString n ++ " "
                       ++ trendUp g ++ " (+" ++ Js.toString delta ++ ")")
            \/ (Js.ltZero delta = true
                /\ formatChange g c
                   = "  " ++ Js.toString o ++ " " ++ arrow g ++ " " ++ Js.toString n ++ " "
                          ++ trendDown g ++ " (" ++ Js.toString delta ++ ")"))
  | vo, vn =>
      formatChange g c
      = "  " ++ Js.valueToString vo ++ " " ++ arrow g ++ " " ++ Js.valueToString vn
  end.
Proof.
  intros Hd Hin.
  destruct (entry_of_parsed fs first old new d k c Hd Hin) as (mo & mn & Hc & Ho & Hn).
  unfold changeOf in Hc.
  destruct (String.eqb_spec (Js.stringify (get mo k)) (Js.stringify (get mn k))) as [Hs|Hs];
    [discriminate|].
  injection Hc as <-. cbn [chg_old chg_new chg_delta].
  pose proof (get_same_type mo mn k) as Ht.
  destruct (get mo k) as [s1|o|b1|l1], (get mn k) as [s2|n|b2|l2]; try contradiction.
  - now apply formatChange_plain.
  - exists (Js.subtract n o). split; [reflexivity|].
    destruct (delta_sign o n (Ho o eq_refl) (Hn n eq_refl) Hs) as [[Hg _]|[Hl _]].
    + left. split; [assumption|]. now apply formatChange_rise.
    + right. split; [assumption|]. now apply formatChange_fall.
  - now apply formatChange_plain.
  - now apply formatChange_plain.
Qed.

Lemma report_marks_rise_or_fall_witness :
  exists delta,
    chg_delta (mkChange (Js.VNumber (Js.Finite 10 0)) (Js.VNumber (Js.Finite 12 0))
                        (Some (Js.Finite 2 0)))
    = Some delta
    /\ ((Js.gtZero delta = true
         /\ formatChange (mkMarks "->" "up" "down" "same")
              (mkChange (Js.VNumber (Js.Finite 10 0)) (Js.VNumber (Js.Finite 12 0))
                        (Some (Js.Finite 2 0)))
            = "  " ++ Js.toString (Js.Finite 10 0) ++ " "
                   ++ arrow (mkMarks "->" "up" "down" "same") ++ " "
                   ++ Js.toString (Js.Finite 12 0) ++ " "
                   ++ trendUp (mkMarks "->" "up" "down" "same") ++ " (+"
                   ++ Js.toString delta ++ ")")
        \/ (Js.ltZero delta = true
            /\ formatChange (mkMarks "->" "up" "down" "same")
                 (mkChange (Js.VNumber (Js.Finite 10 0)) (Js.VNumber (Js.Finite 12 0))
                           (Some (Js.Finite 2 0)))
               = "  " ++ Js.toString (Js.Finite 10 0) ++ " "
                      ++ arrow (mkMarks "->" "up" "down" "same") ++ " "
                      ++ Js.toString (Js.Finite 12 0) ++ " "
                      ++ trendDown (mkMarks "->" "up" "down" "same") ++ " ("
                      ++ Js.toString delta ++ ")")).
Proof.
  eapply (report_marks_rise_or_fall (mkMarks "->" "up" "down" "same")
            (twoFiles ("- Word Count: 10" ++ LF ++ "---" ++ LF ++ "body")
                      ("- Word Count: 12" ++ LF ++ "---" ++ LF ++ "body"))
            OldFirst "old.md" "new.md" _ k_word_count
            (mkChange (Js.VNumber (Js.Finite 10 0)) (Js.VNumber (Js.Finite 12 0))
                      (Some (Js.Finite 2 0)))).
  - vm_compute. reflexivity.
  - vm_compute. left. reflexivity.
Defined.

(** X9: the report of a comparison of a snapshot file with a file of the same
    text consists of the five heading lines only: no metric entry and no
    content block is written. *)
Theorem report_of_equal_snapshots (g : Marks) (fs : FileSystem) (first : Side)
    (old new text : string) (s : Snapshot) :
  fs old = Some text -> fs new = Some text ->
  parseDocument text = inr s ->
  exists d,
    compareSnapshots fs first old new = inr d
    /\ formatDiff g d
       = "=== SNAPSHOT COMPARISON ===" ++ LF
         ++ "Old: " ++ Node.basename old ++ LF
         ++ "New: " ++ Node.basename new ++ LF
         ++ LF
         ++ "=== METRICS CHANGES ===".
Proof.
  intros Ho Hn Hs.
  assert (Hpo : parseSnapshot fs old = inr s) by (unfold parseSnapshot; now rewrite Ho).
  assert (Hpn : parseSnapshot fs new = inr s) by (unfold parseSnapshot; now rewrite Hn).
  destruct (parseSnapshot_has_metrics _ _ _ Hpo) as [m Hm].
  unfold compareSnapshots. rewrite Hpo, Hpn, Hm. cbn [assertMetrics bind].
  eexists. split; [reflexivity|].
  unfold formatDiff, reportLines.
  cbn [changes metrics diff_content oldPath newPath].
  rewrite compareMetrics_same, compareContent_self.
  cbn [added removed modified metricLines flat_map addedLines removedLines modifiedLines app].
  unfold reportHeader. cbn [oldPath newPath Js.join].
  reflexivity.
Qed.

Lemma report_of_equal_snapshots_witness :
  exists d,
    compareSnapshots (twoFiles ("Version: 1" ++ LF ++ "---" ++ LF ++ "body")
                               ("Version: 1" ++ LF ++ "---" ++ LF ++ "body"))
                     OldFirst "old.md" "new.md" = inr d
    /\ formatDiff (mkMarks "->" "up" "down" "same") d
       = "=== SNAPSHOT COMPARISON ===" ++ LF
         ++ "Old: " ++ Node.basename "old.md" ++ LF
         ++ "New: " ++ Node.basename "new.md" ++ LF
         ++ LF
         ++ "=== METRICS CHANGES ===".
Proof.
  destruct (parseDocument ("Version: 1" ++ LF ++ "---" ++ LF ++ "body")) as [e|s] eqn:E;
    [vm_compute in E; discriminate|].
  apply (report_of_equal_snapshots (mkMarks "->" "up" "down" "same")
           (twoFiles ("Version: 1" ++ LF ++ "---" ++ LF ++ "body")
                     ("Version: 1" ++ LF ++ "---" ++ LF ++ "body"))
           OldFirst "old.md" "new.md"
           ("Version: 1" ++ LF ++ "---" ++ LF ++ "body") s);
    [reflexivity | reflexivity | exact E].
Defined.

(** ** Further properties of the parser *)

Lemma ends_with_CR (l : string) : l ++ CR <> "---".
Proof.
  destruct l as [|a [|b [|c [|d l]]]]; discriminate.
Qed.

(** X10: a text whose lines all end in CR LF is not recognised as a snapshot,
    whatever its lines are: the separator is looked for as a line that is
    exactly [---], and every line but an unterminated last one carries the
    carriage return. *)
Theorem windows_line_ends_rejected (lines : list string) (last : string) :
  (forall l, In l lines -> occurs "010" l = false) ->
  occurs "010" last = false ->
  last <> "---" ->
  parseDocument (Js.join LF (map (fun l => l ++ CR) lines ++ [last])) = inl FormatError.
Proof.
  intros Hl Hlast Hne. apply parseDocument_FormatError.
  unfold LF. rewrite split_join by (destruct lines; discriminate).
  rewrite flat_map_absent.
  - rewrite in_app_iff, in_map_iff. intros [[l [H _]]|[H|[]]].
    + now apply ends_with_CR in H.
    + congruence.
  - intros x Hx. apply in_app_iff in Hx. destruct Hx as [Hx|[<-|[]]]; [|assumption].
    apply in_map_iff in Hx. destruct Hx as [l [<- Hin]].
    rewrite occurs_append, (Hl l Hin). reflexivity.
Qed.

Lemma windows_line_ends_rejected_witness :
  parseDocument (Js.join LF (map (fun l => l ++ CR) ["Version: 1"; "---"; "body"]
                             ++ [EmptyString]))
  = inl FormatError.
Proof.
  apply (windows_line_ends_rejected ["Version: 1"; "---"; "body"] EmptyString).
  - intros l [<-|[<-|[<-|[]]]]; reflexivity.
  - reflexivity.
  - discriminate.
Defined.

Lemma split_from_none (sep s cur : string) :
  Js.includes s sep = false -> Js.split_from sep s 0 cur = [cur ++ s].
Proof.
  revert cur. induction s as [|c s IH]; intros cur H.
  - simpl. now rewrite append_nil_r.
  - cbn [Js.includes] in H. apply orb_false_iff in H. destruct H as [Hs Hi].
    cbn [Js.split_from]. rewrite Hs, IH by assumption. now rewrite append_assoc.
Qed.

Lemma field_after_label_from (label v cur : string) :
  occurs ":" label = false -> Js.includes v ": " = false ->
  nth_error (Js.split_from ": " (label ++ ": " ++ v) 0 cur) 1 = Some v.
Proof.
  intros Hl Hv. revert cur. induction label as [|c label IH]; intros cur.
  - cbn [append Js.split_from Js.startsWith String.length Nat.sub].
    cbn [Ascii.eqb Bool.eqb andb]. rewrite startsWith_nil. cbn [nth_error].
    now rewrite split_from_none.
  - cbn [occurs] in Hl. apply orb_false_iff in Hl. destruct Hl as [Hc Hl].
    cbn [append Js.split_from Js.startsWith]. rewrite Hc. cbn [andb].
    now apply IH.
Qed.

Lemma field_after_label (label v : string) :
  occurs ":" label = false -> Js.includes v ": " = false ->
  nth_error (Js.split (label ++ ": " ++ v) ": ") 1 = Some v.
Proof. apply field_after_label_from. Qed.

Lemma header_lines_no_LF (created updated : string) (m : HealthMetrics) :
  occurs "010" created = false -> occurs "010" updated = false ->
  forall x, In x (headerLines (generatorMetadata created updated m)) ->
            occurs "010" x = false.
Proof.
  intros Hc Hu x Hx. unfold headerLines, headerPreamble, headerTags in Hx.
  cbn [generatorMetadata doc_version doc_created_at doc_updated_at dependencies
       doc_health_metrics tags map dep_name dep_version app] in Hx.
  rewrite headerMetrics_block in Hx. unfold metricsBlock in Hx.
  cbn [In app] in Hx.
  repeat (destruct Hx as [<-|Hx];
          [rewrite ?occurs_append, ?Hc, ?Hu, ?(no_LF_plain _ (plain_toString _));
           reflexivity|]).
  contradiction.
Qed.

Lemma header_lines_no_separator (created updated : string) (m : HealthMetrics) :
  ~ In "---" (headerLines (generatorMetadata created updated m) ++ [EmptyString]).
Proof.
  unfold headerLines, headerPreamble, headerTags, headerMetrics.
  cbn [generatorMetadata doc_version doc_created_at doc_updated_at dependencies
       doc_health_metrics tags map dep_name dep_version app].
  cbn [In]. intros H.
  repeat (destruct H as [H|H]; [discriminate H|]). contradiction.
Qed.

(** X11: the text of a snapshot written for the metadata of the snapshot
    generator is read back by the parser: the version, the two time stamps
    and [last_updated] come back as written, and the body is the rendered
    template without its blank lines, whatever the metrics are.  The time
    stamps hold no line feed and no colon followed by a space, as the ISO
    time stamps do. *)
Theorem generator_text_round_trip (created updated rendered : string) (m : HealthMetrics) :
  occurs "010" created = false -> Js.includes created ": " = false ->
  occurs "010" updated = false -> Js.includes updated ": " = false ->
  exists p,
    parseDocument (createSnapshot (Some (generatorMetadata created updated m)) rendered)
    = inr {| metadata := {| version := "1.0.0";
                            created_at := created;
                            updated_at := updated;
                            health_metrics := Some p |};
             content := filter notBlank (Js.split rendered LF) |}
    /\ last_updated p = updated.
Proof.
  intros Hc1 Hc2 Hu1 Hu2.
  set (md := generatorMetadata created updated m).
  assert (Hsplit : Js.split (createSnapshot (Some md) rendered) LF
                   = ((headerLines md ++ [EmptyString])
                      ++ "---" :: EmptyString :: Js.split rendered LF)%list).
  { rewrite createSnapshot_lines. unfold LF.
    rewrite flat_map_absent by (now apply header_lines_no_LF).
    now rewrite <- app_assoc. }
  destruct (parseDocument_boundary _ _ _ Hsplit (header_lines_no_separator _ _ _))
    as (p & Hp & Hdoc).
  assert (Hver : headerField (headerLines md ++ [EmptyString]) "Version:" = "1.0.0")
    by reflexivity.
  assert (Hcre : headerField (headerLines md ++ [EmptyString]) "Created:" = created).
  { unfold headerField, headerLines, headerPreamble.
    cbn [md generatorMetadata doc_created_at doc_version doc_updated_at app find
         Js.startsWith append Ascii.eqb Bool.eqb andb].
    pose proof (field_after_label "Created" created eq_refl Hc2) as Hf.
    cbn [append] in Hf. now rewrite Hf. }
  assert (Hupd : headerField (headerLines md ++ [EmptyString]) "Updated:" = updated).
  { unfold headerField, headerLines, headerPreamble.
    cbn [md generatorMetadata doc_created_at doc_version doc_updated_at app find
         Js.startsWith append Ascii.eqb Bool.eqb andb].
    pose proof (field_after_label "Updated" updated eq_refl Hu2) as Hf.
    cbn [append] in Hf. now rewrite Hf. }
  exists p. split.
  - rewrite Hdoc. unfold metadataOf. rewrite Hver, Hcre, Hupd. reflexivity.
  - rewrite Hupd in Hp.
    destruct (parseHealthMetrics_value (headerLines md ++ [EmptyString]) updated)
      as (wc & rt & tc & cp & sc & cb & ld & _ & _ & _ & _ & _ & _ & _ & Hv).
    rewrite Hv in Hp. injection Hp as <-. reflexivity.
Qed.

Lemma generator_text_round_trip_witness :
  exists p,
    parseDocument
      (createSnapshot
         (Some (generatorMetadata "2024-05-01T08:30:00.000Z" "2024-05-01T08:30:00.001Z"
                                  (sampleMetrics (Js.Finite 1500 0))))
         ("# Title" ++ LF ++ LF ++ "Some text"))
    = inr {| metadata := {| version := "1.0.0";
                            created_at := "2024-05-01T08:30:00.000Z";
                            updated_at := "2024-05-01T08:30:00.001Z";
                            health_metrics := Some p |};
             content := filter notBlank (Js.split ("# Title" ++ LF ++ LF ++ "Some text") LF) |}
    /\ last_updated p = "2024-05-01T08:30:00.001Z".
Proof.
  apply (generator_text_round_trip "2024-05-01T08:30:00.000Z" "2024-05-01T08:30:00.001Z"
           ("# Title" ++ LF ++ LF ++ "Some text") (sampleMetrics (Js.Finite 1500 0)));
    reflexivity.
Defined.

(** ** What [extractMetric] reads on a metric line *)

Lemma startsWith_append (p t : string) : Js.startsWith (p ++ t) p = true.
Proof.
  induction p as [|c p IH]; [apply startsWith_nil|].
  simpl. now rewrite Ascii.eqb_refl.
Qed.

Lemma includes_append (p t : string) : Js.includes (p ++ t) p = true.
Proof.
  destruct (p ++ t) eqn:E; cbn [Js.includes]; rewrite <- E, startsWith_append; reflexivity.
Qed.

Lemma split_from_skip (c : ascii) (a b cur : string) :
  occurs c a = false ->
  Js.split_from (String c EmptyString) (a ++ b) 0 cur
  = Js.split_from (String c EmptyString) b 0 (cur ++ a).
Proof.
  revert cur. induction a as [|d a IH]; intros cur H.
  - now rewrite append_nil_r.
  - cbn [occurs] in H. apply orb_false_iff in H. destruct H as [Hcd Ha].
    cbn [append Js.split_from Js.startsWith]. rewrite Hcd. cbn [andb].
    rewrite IH by assumption. now rewrite append_assoc.
Qed.

(** The first piece of a split is the text in front of the first
    separator. *)
Lemma split_from_head (c : ascii) (s cur : string) :
  exists p t rest,
    Js.split_from (String c EmptyString) s 0 cur = (cur ++ p) :: rest
    /\ s = p ++ t.
Proof.
  revert cur. induction s as [|d s IH]; intros cur.
  - exists EmptyString, EmptyString, []. simpl. now rewrite append_nil_r.
  - cbn [Js.split_from Js.startsWith]. rewrite startsWith_nil, andb_true_r.
    destruct (Ascii.eqb c d).
    + exists EmptyString, (String d s). eexists. rewrite append_nil_r. split; reflexivity.
    + destruct (IH (cur ++ String d EmptyString)) as (p & t & rest & Hs & ->).
      exists (String d p), t, rest. rewrite Hs, append_assoc. split; reflexivity.
Qed.

Lemma trimEnd_prefix (s : string) : exists t, s = Js.trimEnd s ++ t.
Proof.
  induction s as [|c s [t IH]]; [now exists EmptyString|].
  cbn [Js.trimEnd]. destruct (Js.trimEnd s) as [|d r] eqn:E.
  - destruct (Js.isWhiteSpace c).
    + now exists (String c s).
    + exists s. reflexivity.
  - exists t. simpl. simpl in IH. now rewrite <- IH.
Qed.

Lemma trimEnd_append_blank (a t : string) :
  Js.trimEnd t = EmptyString -> Js.trimEnd (a ++ t) = Js.trimEnd a.
Proof.
  intros Ht. induction a as [|c a IH]; simpl; [assumption|]. now rewrite IH.
Qed.

Lemma trimEnd_after_digits (d s : string) :
  allChars Js.isDigit d = true ->
  exists s' t, Js.trimEnd (d ++ s) = d ++ s' /\ s = s' ++ t.
Proof.
  intros Hd. destruct (trimEnd_prefix s) as [t Ht].
  destruct (Js.trimEnd s) as [|c r] eqn:E.
  - exists EmptyString, s. rewrite trimEnd_append_blank by assumption.
    rewrite trimEnd_plain by (now apply digits_plain). now rewrite append_nil_r.
  - exists (String c r), t. rewrite trimEnd_append by (rewrite E; discriminate).
    now rewrite E.
Qed.

Lemma parseInt_leading_digits (ds rest : string) :
  allChars Js.isDigit ds = true -> ds <> EmptyString ->
  match rest with EmptyString => true | String c _ => negb (Js.isDigit c) end = true ->
  Js.parseInt (ds ++ rest) = Js.Finite (Z.of_N (Js.digitsValue ds)) 0.
Proof.
  intros Hds Hne Hrest.
  assert (Htd : Js.takeDigits (ds ++ rest) = ds).
  { rewrite takeDigits_append by assumption.
    destruct rest as [|c r]; simpl; [apply append_nil_r|].
    apply negb_true_iff in Hrest. rewrite Hrest. apply append_nil_r. }
  destruct ds as [|c b]; [congruence|].
  pose proof Hds as Hall. cbn [allChars] in Hds. apply andb_true_iff in Hds.
  destruct Hds as [Hc _]. destruct (digit_not_special c Hc) as (Hws & _).
  unfold Js.parseInt. cbn [append Js.trimStart]. rewrite Hws.
  rewrite splitSign_digit by assumption. cbv iota beta.
  change (String c (b ++ rest)) with (String c b ++ rest). rewrite Htd. reflexivity.
Qed.

Lemma prefix_first (s p t : string) :
  s = p ++ t ->
  match s with EmptyString => true | String c _ => negb (Js.isDigit c) end = true ->
  match p with EmptyString => true | String c _ => negb (Js.isDigit c) end = true.
Proof. intros -> H. destruct p; [reflexivity|exact H]. Qed.

(** X12: on the first line that carries the label, [extractMetric] reads the
    integer written after the label and ignores whatever follows it and
    does not start with a digit: a unit, a fraction, punctuation.  The
    integer is below 2^53, so that it is a JavaScript number as written. *)
Theorem extractMetric_reads_leading_integer (pre post : list string)
    (label suffix : string) (w : N) :
  (forall l, In l pre -> Js.includes l ("- " ++ label ++ ":") = false) ->
  occurs ":" label = false ->
  (w < 2 ^ 53)%N ->
  match suffix with EmptyString => true | String c _ => negb (Js.isDigit c) end = true ->
  extractMetric (List.app pre (("- " ++ label ++ ": " ++ Js.digitsOf w ++ suffix) :: post))
                label false
  = inr (Js.ofZ (Z.of_N w)).
Proof.
  intros Hpre Hlabel _ Hsuffix.
  pose proof (allDigits_digitsOf w) as Hd. pose proof (digitsOf_nonempty w) as Hn.
  set (ds := Js.digitsOf w) in *.
  set (line := "- " ++ label ++ ": " ++ ds ++ suffix).
  assert (Hline : line = ("- " ++ label ++ ":") ++ String " " (ds ++ suffix)).
  { unfold line. simpl. f_equal. f_equal. now rewrite append_assoc. }
  assert (Hfind : find (fun l => Js.includes l ("- " ++ label ++ ":"))
                       (List.app pre (line :: post)) = Some line).
  { rewrite find_app_none by assumption. cbn [find].
    rewrite Hline at 1. now rewrite includes_append. }
  assert (Hsp : occurs " " ds = false) by (apply plain_absent; [reflexivity | now apply digits_plain]).
  assert (Hco : occurs ":" ds = false) by (apply plain_absent; [reflexivity | now apply digits_plain]).
  (* the piece after the first colon *)
  assert (Hpiece : exists s1 t1,
             nth_error (Js.split line ":") 1 = Some (String " " (ds ++ s1))
             /\ suffix = s1 ++ t1).
  { replace line with (("- " ++ label) ++ String ":" (String " " (ds ++ suffix))).
    2: { unfold line. now rewrite append_assoc. }
    rewrite split_append, split_absent by (simpl; exact Hlabel).
    cbn [app nth_error]. unfold Js.split.
    change (String " " (ds ++ suffix)) with (String " " ds ++ suffix).
    rewrite split_from_skip by (simpl; exact Hco).
    destruct (split_from_head ":" suffix (EmptyString ++ String " " ds))
      as (s1 & t1 & rest & Hs & Ht).
    exists s1, t1. change (String ":" EmptyString) with ":" in Hs.
    rewrite Hs. split; [reflexivity | exact Ht]. }
  destruct Hpiece as (s1 & t1 & Hpiece & Hs1).
  (* the trimmed value *)
  assert (Hvalue : exists s2 t2, Js.trim (String " " (ds ++ s1)) = ds ++ s2 /\ s1 = s2 ++ t2).
  { unfold Js.trim. cbn [Js.trimStart]. change (Js.isWhiteSpace " ") with true. cbv iota.
    rewrite trimStart_plain by (try apply digits_plain; assumption).
    now apply trimEnd_after_digits. }
  destruct Hvalue as (s2 & t2 & Hvalue & Hs2).
  (* the token in front of the first space *)
  assert (Htoken : exists s3 t3, nth_error (Js.split (ds ++ s2) " ") 0 = Some (ds ++ s3)
                                 /\ s2 = s3 ++ t3).
  { unfold Js.split. rewrite split_from_skip by exact Hsp.
    destruct (split_from_head " " s2 (EmptyString ++ ds)) as (s3 & t3 & rest & Hs & Ht).
    exists s3, t3. change (String " " EmptyString) with " " in Hs.
    rewrite Hs. split; [reflexivity | exact Ht]. }
  destruct Htoken as (s3 & t3 & Htoken & Hs3).
  unfold extractMetric. fold line. rewrite Hfind.
  replace (String.eqb line EmptyString) with false by reflexivity.
  rewrite Hpiece, Hvalue, Htoken.
  rewrite parseInt_leading_digits; try assumption.
  - unfold ds. now rewrite digitsValue_digitsOf.
  - eapply prefix_first; [exact Hs3|]. eapply prefix_first; [exact Hs2|].
    eapply prefix_first; [exact Hs1|]. exact Hsuffix.
Qed.

Lemma extractMetric_reads_leading_integer_witness :
  extractMetric (List.app ["Health Metrics:"]
                   (("- " ++ "Reading Time" ++ ": " ++ Js.digitsOf 12 ++ " minutes: about")
                    :: ["- Reading Time: 99"]))
                "Reading Time" false
  = inr (Js.ofZ (Z.of_N 12)).
Proof.
  apply (extractMetric_reads_leading_integer ["Health Metrics:"] ["- Reading Time: 99"]
           "Reading Time" " minutes: about" 12%N).
  - intros l [<-|[]]. reflexivity.
  - reflexivity.
  - reflexivity.
  - reflexivity.
Defined.

(** ** The names of the templates *)

Lemma endsWith_append (s p : string) : Js.endsWith (s ++ p) p = true.
Proof.
  unfold Js.endsWith. rewrite length_append.
  replace (String.length s + String.length p - String.length p) with (String.length s) by lia.
  rewrite drop_length_append, String.eqb_refl, andb_true_r.
  apply Nat.leb_le. lia.
Qed.

Lemma endsWith_stem (s p : string) :
  Js.endsWith s p = true -> exists stem, s = stem ++ p.
Proof.
  unfold Js.endsWith. intros H. apply andb_true_iff in H. destruct H as [_ H].
  apply String.eqb_eq in H. exists (Js.take (String.length s - String.length p) s).
  pose proof (take_drop (String.length s - String.length p) s) as Htd.
  rewrite H in Htd. now symmetry.
Qed.

Lemma startsWith_long (t x p : string) :
  String.length p <= String.length t ->
  Js.startsWith (t ++ x) p = Js.startsWith t p.
Proof.
  revert t. induction p as [|c p IH]; intros t H.
  - now rewrite !startsWith_nil.
  - destruct t as [|d t]; simpl in H; [lia|].
    simpl. rewrite IH by lia. reflexivity.
Qed.

Lemma startsWith_meets (c : ascii) (a b p : string) :
  Js.startsWith (a ++ String c b) p = true ->
  String.length a < String.length p ->
  occurs c p = true.
Proof.
  revert p. induction a as [|y a IH]; intros p H Hlen.
  - destruct p as [|x p]; simpl in Hlen; [lia|].
    cbn [append Js.startsWith] in H. apply andb_true_iff in H. destruct H as [H _].
    cbn [occurs]. rewrite Ascii.eqb_sym, H. reflexivity.
  - destruct p as [|x p]; simpl in Hlen; [lia|].
    cbn [append Js.startsWith] in H. apply andb_true_iff in H. destruct H as [_ H].
    cbn [occurs]. rewrite (IH p H) by lia. apply orb_true_r.
Qed.

(** A pattern whose first code unit does not occur again in it cannot start
    in a text and end in the copy of the pattern that follows the text. *)
Lemma no_straddle (c : ascii) (p' t : string) :
  occurs c p' = false ->
  Js.startsWith (t ++ String c p') (String c p') = true ->
  t = EmptyString \/ Js.startsWith t (String c p') = true.
Proof.
  intros Hc H. destruct t as [|d t]; [now left|]. right.
  destruct (Nat.le_gt_cases (String.length (String c p')) (String.length (String d t)))
    as [Hle|Hgt].
  - now rewrite startsWith_long in H.
  - exfalso. cbn [append Js.startsWith] in H. apply andb_true_iff in H.
    destruct H as [_ H]. simpl in Hgt.
    rewrite (startsWith_meets c t p' p' H) in Hc by lia. discriminate.
Qed.

Lemma removeFirst_at_end (c : ascii) (p' stem : string) :
  occurs c p' = false ->
  Js.includes stem (String c p') = false ->
  Js.removeFirst (stem ++ String c p') (String c p') = stem.
Proof.
  intros Hc. induction stem as [|d s IH]; intros Hi.
  - cbn [append]. unfold Js.removeFirst.
    rewrite <- (append_nil_r (String c p')) at 1. rewrite startsWith_append.
    apply drop_length.
  - cbn [Js.includes] in Hi. apply orb_false_iff in Hi. destruct Hi as [Hs Hi].
    destruct (Js.startsWith (String d s ++ String c p') (String c p')) eqn:E.
    + apply no_straddle in E; [|assumption]. destruct E as [E|E]; [discriminate|congruence].
    + cbn [append] in *. cbn [Js.removeFirst]. rewrite E. f_equal. now apply IH.
Qed.

Lemma take_length_append (s p : string) : Js.take (String.length s) (s ++ p) = s.
Proof. induction s as [|c s IH]; simpl; [now destruct p|now rewrite IH]. Qed.

Lemma extensionAtEnd_stem (stem : string) :
  extensionAtEnd (stem ++ ".mustache") = true -> Js.includes stem ".mustache" = false.
Proof.
  unfold extensionAtEnd. rewrite endsWith_append. cbn [negb orb].
  rewrite length_append.
  replace (String.length stem + String.length ".mustache" - String.length ".mustache")
    with (String.length stem) by lia.
  rewrite take_length_append. apply negb_true_iff.
Qed.

(** X13: when the extension [.mustache] occurs in the names of the template
    directory at their end only, the names listed are exactly the names
    whose template file is in the directory: every listed template can be
    rendered and every template file is listed under its name. *)
Theorem listed_templates_have_files (files : list string) (name : string) :
  (forall file, In file files -> extensionAtEnd file = true) ->
  In name (listTemplates files) <-> In (templateFile name) files.
Proof.
  intros Hend. unfold listTemplates, templateFile. rewrite in_map_iff. split.
  - intros [file [Hname Hin]]. apply filter_In in Hin. destruct Hin as [Hin He].
    destruct (endsWith_stem _ _ He) as [stem ->].
    rewrite (removeFirst_at_end "." "mustache" stem eq_refl) in Hname
      by (apply extensionAtEnd_stem, Hend, Hin).
    now subst.
  - intros Hin. exists (name ++ ".mustache"). split.
    + apply (removeFirst_at_end "." "mustache" name eq_refl).
      apply extensionAtEnd_stem, Hend, Hin.
    + apply filter_In. split; [assumption | apply endsWith_append].
Qed.

Lemma listed_templates_have_files_witness :
  In "snapshot" (listTemplates ["snapshot.mustache"; "notes.txt"])
  <-> In (templateFile "snapshot") ["snapshot.mustache"; "notes.txt"].
Proof.
  apply (listed_templates_have_files ["snapshot.mustache"; "notes.txt"] "snapshot").
  intros file [<-|[<-|[]]]; reflexivity.
Defined.

(** ** The metrics of the snapshot generator *)

Lemma matchAll_length (matchAt : bool -> string -> option nat) (s : string)
    (lineStart : bool) (skip : nat) :
  List.length (matchAll matchAt s lineStart skip) <= String.length s.
Proof.
  revert lineStart skip. induction s as [|c s IH]; intros lineStart skip; simpl; [lia|].
  destruct skip as [|k].
  - destruct (matchAt lineStart (String c s)) as [[|n]|]; simpl;
      match goal with |- context [matchAll _ _ ?l ?k] => specialize (IH l k) end; lia.
  - specialize (IH (isLineTerminator c) k). lia.
Qed.

Lemma matchAll_In (matchAt : bool -> string -> option nat) (s : string)
    (lineStart : bool) (skip : nat) (x : string) :
  In x (matchAll matchAt s lineStart skip) ->
  exists s' l n, matchAt l s' = Some (S n) /\ x = Js.take (S n) s'.
Proof.
  revert lineStart skip. induction s as [|c s IH]; intros lineStart skip; simpl; [contradiction|].
  destruct skip as [|k]; [|apply IH].
  destruct (matchAt lineStart (String c s)) as [[|n]|] eqn:E; try apply IH.
  intros [<-|Hin]; [|eapply IH; exact Hin].
  exists (String c s), lineStart, n. split; [exact E|reflexivity].
Qed.

Lemma splitWhiteSpace_from_length (s : string) (inRun : bool) (cur : string) :
  1 <= List.length (Js.splitWhiteSpace_from s inRun cur) <= String.length s + 1.
Proof.
  revert inRun cur. induction s as [|c s IH]; intros inRun cur; simpl; [lia|].
  destruct (Js.isWhiteSpace c); [destruct inRun|]; simpl;
    match goal with |- context [Js.splitWhiteSpace_from _ ?r ?x] => specialize (IH r x) end;
    lia.
Qed.

Lemma hashes_other (c : ascii) (s : string) : c <> "#"%char -> hashes (String c s) = 0.
Proof.
  intros H. destruct c as [[] [] [] [] [] [] [] []]; try reflexivity. congruence.
Qed.

Lemma trimEnd_cons (c : ascii) (x : string) :
  Js.isWhiteSpace c = false -> Js.trimEnd (String c x) = String c (Js.trimEnd x).
Proof. intros H. cbn [Js.trimEnd]. destruct (Js.trimEnd x); [now rewrite H|reflexivity]. Qed.

Lemma heading_text (s : string) :
  startsWithWhiteSpace (Js.drop (hashes s) s) = true ->
  String.length (Js.trimEnd (Js.take (hashes s + 1) s)) = hashes s.
Proof.
  induction s as [|c s IH]; [discriminate|].
  destruct (Ascii.eqb_spec c "#") as [->|Hc].
  - cbn [hashes Js.drop Nat.add Js.take]. intros H.
    rewrite trimEnd_cons by reflexivity. simpl. f_equal. now apply IH.
  - rewrite hashes_other by assumption. cbn [Js.drop Nat.add Js.take startsWithWhiteSpace].
    intros H. cbn [Js.trimEnd]. now rewrite H.
Qed.

Lemma heading_depth (l : bool) (s : string) (n : nat) :
  headingAt l s = Some (S n) ->
  1 <= String.length (Js.trim (Js.take (S n) s)) <= 6.
Proof.
  unfold headingAt.
  destruct (l && (1 <=? hashes s)%nat && (hashes s <=? 6)%nat
            && startsWithWhiteSpace (Js.drop (hashes s) s)) eqn:E; [|discriminate].
  apply andb_true_iff in E. destruct E as [E Hws].
  apply andb_true_iff in E. destruct E as [E H6].
  apply andb_true_iff in E. destruct E as [_ H1].
  apply Nat.leb_le in H1, H6. intros [= Hn].
  replace (S n) with (hashes s + 1) by lia.
  assert (Hstart : Js.trimStart (Js.take (hashes s + 1) s) = Js.take (hashes s + 1) s).
  { destruct s as [|c s]; [simpl in H1; lia|].
    destruct (Ascii.eqb_spec c "#") as [->|Hc].
    - rewrite Nat.add_1_r. reflexivity.
    - rewrite hashes_other in H1 by assumption. lia. }
  unfold Js.trim. rewrite Hstart, heading_text by assumption. lia.
Qed.

Lemma maxOf_bounds (lo hi : nat) (xs : list nat) :
  xs <> [] -> (forall x, In x xs -> lo <= x <= hi) -> lo <= maxOf xs <= hi.
Proof.
  induction xs as [|a [|b r] IH]; intros Hne H; [congruence| |].
  - simpl. specialize (H a (or_introl eq_refl)). lia.
  - change (maxOf (a :: b :: r)) with (Nat.max a (maxOf (b :: r))).
    assert (Ha := H a (or_introl eq_refl)).
    assert (lo <= maxOf (b :: r) <= hi).
    { apply IH; [discriminate|]. intros x Hx. apply H. now right. }
    lia.
Qed.

Lemma ceilDiv_bounds (n : nat) : n <= 200 * ceilDiv n 200 < n + 200.
Proof.
  unfold ceilDiv. change (200 - 1) with 199.
  pose proof (Nat.div_mod_eq (n + 199) 200) as H.
  pose proof (Nat.mod_upper_bound (n + 199) 200). lia.
Qed.

(** X14: the record computed for a document: the word count is at least 1, also
    for the empty document; the reading time is the least number of minutes
    that covers the words at 200 words a minute; the section depth is at
    most 6 and is 0 exactly when no heading is counted. *)
Theorem generated_metrics_ranges (f : Binary64) (now content : string) :
  exists words minutes sections depth : nat,
    word_count (calculateHealthMetrics f now content) = count words
    /\ reading_time (calculateHealthMetrics f now content) = count minutes
    /\ section_count (calculateHealthMetrics f now content) = count sections
    /\ section_depth (calculateHealthMetrics f now content) = count depth
    /\ 1 <= words <= String.length content + 1
    /\ words <= 200 * minutes < words + 200
    /\ depth <= 6
    /\ (depth = 0 <-> sections = 0).
Proof.
  exists (List.length (Js.splitWhiteSpace content)),
         (ceilDiv (List.length (Js.splitWhiteSpace content)) 200),
         (List.length (matches headingAt content)),
         (maxOf (headingDepths content)).
  repeat (split; [reflexivity|]).
  split; [apply splitWhiteSpace_from_length|].
  split; [apply ceilDiv_bounds|].
  unfold headingDepths.
  destruct (matches headingAt content) as [|h hs] eqn:E.
  - simpl. split; [lia|]. split; reflexivity.
  - assert (Hb : 1 <= maxOf (map (fun h => String.length (Js.trim h)) (h :: hs)) <= 6).
    { apply maxOf_bounds; [discriminate|]. intros x Hx.
      apply in_map_iff in Hx. destruct Hx as [t [<- Ht]].
      rewrite <- E in Ht. unfold matches in Ht. apply matchAll_In in Ht.
      destruct Ht as (s' & l & n & Hm & ->). eapply heading_depth, Hm. }
    split; [lia|]. cbn [List.length]. split; intros; lia.
Qed.

(** *** The count of words *)

Lemma splitWhiteSpace_from_cur (s : string) (inRun : bool) (cur cur' : string) :
  List.length (Js.splitWhiteSpace_from s inRun cur)
  = List.length (Js.splitWhiteSpace_from s inRun cur').
Proof.
  revert inRun cur cur'. induction s as [|c s IH]; intros inRun cur cur'; simpl; [reflexivity|].
  destruct (Js.isWhiteSpace c); [destruct inRun|]; simpl; auto.
Qed.

Lemma splitWhiteSpace_after_run (b : string) (cur : string) :
  Js.trimStart b = b ->
  List.length (Js.splitWhiteSpace_from b true cur)
  = List.length (Js.splitWhiteSpace_from b false cur).
Proof.
  destruct b as [|c b]; [reflexivity|]. cbn [Js.trimStart Js.splitWhiteSpace_from].
  destruct (Js.isWhiteSpace c) eqn:E; [|reflexivity].
  intros H. exfalso.
  assert (Hl : String.length (Js.trimStart b) <= String.length b).
  { clear. induction b as [|d b IH]; simpl; [lia|]. destruct (Js.isWhiteSpace d); simpl; lia. }
  rewrite H in Hl. simpl in Hl. lia.
Qed.

Lemma trimEnd_fixed_tail (c : ascii) (a : string) :
  Js.trimEnd (String c a) = String c a ->
  Js.trimEnd a = a /\ (a = EmptyString -> Js.isWhiteSpace c = false).
Proof.
  cbn [Js.trimEnd]. destruct (Js.trimEnd a) as [|d t] eqn:E.
  - destruct (Js.isWhiteSpace c); [discriminate|]. intros [= <-]. now split.
  - intros [= <-]. split; [reflexivity|discriminate].
Qed.

Lemma splitWhiteSpace_from_joined (a b : string) (w : ascii) (inRun : bool) (cur : string) :
  Js.isWhiteSpace w = true ->
  Js.trimEnd a = a -> Js.trimStart b = b ->
  (a = EmptyString -> inRun = false) ->
  List.length (Js.splitWhiteSpace_from (a ++ String w b) inRun cur)
  = List.length (Js.splitWhiteSpace_from a inRun cur)
    + List.length (Js.splitWhiteSpace_from b false EmptyString).
Proof.
  intros Hw Ha Hb. revert inRun cur Ha. induction a as [|c a IH]; intros inRun cur Ha Hrun.
  - rewrite (Hrun eq_refl). cbn [append Js.splitWhiteSpace_from]. rewrite Hw.
    cbn [List.length]. now rewrite splitWhiteSpace_after_run.
  - apply trimEnd_fixed_tail in Ha. destruct Ha as [Ha Hc].
    cbn [append Js.splitWhiteSpace_from].
    destruct (Js.isWhiteSpace c) eqn:E.
    + assert (Hne : a = EmptyString -> true = false) by (intros H; specialize (Hc H); congruence).
      destruct inRun; cbn [List.length]; rewrite IH by assumption; reflexivity.
    + apply IH; [assumption | reflexivity].
Qed.

Lemma count_inj (a b : nat) : count a = count b -> a = b.
Proof. unfold count, Js.ofZ. intros [= H]. lia. Qed.

(** X15: the word count of two texts joined by one white space is the sum of
    their word counts, when the first text does not end and the second does
    not start with white space.  The empty text counts one word, so a line
    feed at the end of a document adds one to its word count. *)
Theorem word_count_of_joined_texts (f : Binary64) (now a b : string) (w : ascii)
    (na nb : nat) :
  Js.isWhiteSpace w = true ->
  Js.trimEnd a = a -> Js.trimStart b = b ->
  word_count (calculateHealthMetrics f now a) = count na ->
  word_count (calculateHealthMetrics f now b) = count nb ->
  word_count (calculateHealthMetrics f now (a ++ String w b)) = count (na + nb)
  /\ word_count (calculateHealthMetrics f now EmptyString) = count 1.
Proof.
  intros Hw Ha Hb Hna Hnb. split; [|reflexivity].
  cbn [calculateHealthMetrics word_count] in *.
  apply count_inj in Hna, Hnb. subst na nb. f_equal.
  unfold Js.splitWhiteSpace. now apply splitWhiteSpace_from_joined.
Qed.

Lemma word_count_of_joined_texts_witness :
  word_count (calculateHealthMetrics (mkBinary64 (fun _ _ => Js.NaN) (fun _ _ => Js.NaN))
                EmptyString ("two words" ++ String "010" EmptyString))
  = count (2 + 1)
  /\ word_count (calculateHealthMetrics (mkBinary64 (fun _ _ => Js.NaN) (fun _ _ => Js.NaN))
                   EmptyString EmptyString)
     = count 1.
Proof.
  apply (word_count_of_joined_texts (mkBinary64 (fun _ _ => Js.NaN) (fun _ _ => Js.NaN))
           EmptyString "two words" EmptyString "010" 2 1); reflexivity.
Defined.

(** ** From the generator to the parser *)

Lemma isCount_count (n : nat) : (Z.of_nat n < 10 ^ 21)%Z -> isCount (count n) (Z.of_nat n).
Proof. intros H. split; [lia|apply sameNumber_refl]. Qed.

Lemma pow10_positive (a : Z) : (0 <= a)%Z -> (0 < 10 ^ a)%Z.
Proof. intros H. apply Z.pow_pos_nonneg; lia. Qed.

Lemma gtZero_count (x : Js.number) (n : nat) :
  Js.sameNumber x (count n) = true -> Js.gtZero x = (0 <? n)%nat.
Proof.
  destruct x as [|neg|m e]; try discriminate. unfold count, Js.ofZ, Js.sameNumber, Js.gtZero.
  intros H. apply Z.eqb_eq in H.
  pose proof (pow10_positive (e - Z.min e 0) ltac:(lia)) as P1.
  pose proof (pow10_positive (0 - Z.min e 0) ltac:(lia)) as P2.
  revert H P1 P2. generalize (10 ^ (e - Z.min e 0))%Z (10 ^ (0 - Z.min e 0))%Z.
  intros p q H P1 P2.
  destruct (Nat.ltb_spec 0 n) as [Hn|Hn].
  - apply Z.ltb_lt. nia.
  - apply Z.ltb_ge. assert (n = 0) by lia. subst n. simpl in H. nia.
Qed.

Lemma parsed_has_todos (text : string) (s : Snapshot) (p : HealthMetrics) :
  parseDocument text = inr s ->
  health_metrics (metadata s) = Some p ->
  has_todos p = Js.gtZero (todo_count p).
Proof.
  intros Hs Hp. pose proof (parseDocument_metrics _ _ _ Hs Hp) as Hm.
  destruct (parseHealthMetrics_value (metadataLinesOf text)
              (headerField (metadataLinesOf text) "Updated:"))
    as (wc & rt & tc & cp & sc & cb & ld & _ & _ & _ & _ & _ & _ & _ & Hv).
  rewrite Hv in Hm. injection Hm as <-. simpl. now rewrite gtZero_orZero.
Qed.

(** X16: a snapshot written by the generator is read back by the parser with
    the counts that the generator computed for the document: words, reading
    time, TODOs, sections, code blocks and the days since the last
    snapshot, and with the same [has_todos].  The document is shorter than
    2^53 code units, the time stamps hold no line feed and no space, and
    the delta and the completion percentage are not negative. *)
Theorem generated_snapshot_is_read_back (f : Binary64)
    (now created updated content rendered : string) (delta : Js.number) (days : Z) :
  (Z.of_nat (String.length content) < 2 ^ 53)%Z ->
  occurs "010" created = false -> occurs " " created = false ->
  occurs "010" updated = false -> occurs " " updated = false ->
  isCount delta days ->
  Js.nonNegative (completion_percentage (calculateHealthMetrics f now content)) = true ->
  exists s p,
    parseDocument (generatedSnapshot f now created updated content delta rendered) = inr s
    /\ health_metrics (metadata s) = Some p
    /\ sameRepresentedMetrics p
         (setLastSnapshotDelta (calculateHealthMetrics f now content) delta)
    /\ has_todos p = has_todos (calculateHealthMetrics f now content).
Proof.
  intros Hlen Hc1 Hc2 Hu1 Hu2 Hdelta Hcp.
  set (m := calculateHealthMetrics f now content) in *.
  set (hm := setLastSnapshotDelta m delta).
  pose proof (splitWhiteSpace_from_length content false EmptyString) as Hw.
  fold (Js.splitWhiteSpace content) in Hw.
  pose proof (ceilDiv_bounds (List.length (Js.splitWhiteSpace content))) as Hrt.
  pose proof (matchAll_length todoAt content true 0) as Ht.
  pose proof (matchAll_length headingAt content true 0) as Hs.
  pose proof (matchAll_length codeBlockAt content true 0) as Hb.
  assert (H53 : (2 ^ 53 + 1 < 10 ^ 21)%Z) by reflexivity.
  destruct (round_trip_document (generatorMetadata created updated hm) hm rendered
              (Z.of_nat (List.length (Js.splitWhiteSpace content)))
              (Z.of_nat (ceilDiv (List.length (Js.splitWhiteSpace content)) 200))
              (Z.of_nat (List.length (matches todoAt content)))
              (Z.of_nat (List.length (matches headingAt content)))
              (Z.of_nat (List.length (matches codeBlockAt content)))
              days)
    as (s & p & Hdoc & Hp & Hsame);
    try (apply isCount_count; unfold matches; lia); try assumption; try reflexivity.
  - now apply generator_preamble_clean.
  - exists s, p. repeat (split; [assumption|]).
    rewrite (parsed_has_todos _ _ _ Hdoc Hp).
    destruct Hsame as (_ & _ & Htc & _).
    change (todo_count hm) with (count (List.length (matches todoAt content))) in Htc.
    now rewrite (gtZero_count _ _ Htc).
Qed.

Lemma generated_snapshot_is_read_back_witness :
  exists s p,
    parseDocument
      (generatedSnapshot (mkBinary64 (fun _ _ => Js.Finite 5 (-1)) (fun _ _ => Js.Finite 50 0))
         "2024-05-01T08:30:00.002Z" "2024-05-01T08:30:00.000Z" "2024-05-01T08:30:00.001Z"
         ("# Title" ++ LF ++ "- [ ] one" ++ LF ++ "- [x] two")
         (Js.Finite 7 0) "rendered text")
    = inr s
    /\ health_metrics (metadata s) = Some p
    /\ sameRepresentedMetrics p
         (setLastSnapshotDelta
            (calculateHealthMetrics
               (mkBinary64 (fun _ _ => Js.Finite 5 (-1)) (fun _ _ => Js.Finite 50 0))
               "2024-05-01T08:30:00.002Z" ("# Title" ++ LF ++ "- [ ] one" ++ LF ++ "- [x] two"))
            (Js.Finite 7 0))
    /\ has_todos p
       = has_todos
           (calculateHealthMetrics
              (mkBinary64 (fun _ _ => Js.Finite 5 (-1)) (fun _ _ => Js.Finite 50 0))
              "2024-05-01T08:30:00.002Z" ("# Title" ++ LF ++ "- [ ] one" ++ LF ++ "- [x] two")).
Proof.
  apply (generated_snapshot_is_read_back
           (mkBinary64 (fun _ _ => Js.Finite 5 (-1)) (fun _ _ => Js.Finite 50 0))
           "2024-05-01T08:30:00.002Z" "2024-05-01T08:30:00.000Z" "2024-05-01T08:30:00.001Z"
           ("# Title" ++ LF ++ "- [ ] one" ++ LF ++ "- [x] two") "rendered text"
           (Js.Finite 7 0) 7%Z); try reflexivity.
  split; [lia|reflexivity].
Defined.

(** ** The days since the last snapshot *)

Lemma latest_is_greatest (rest : list (string * Z)) (first : string * Z) :
  let latest := fold_left (fun latest current =>
                             if (snd latest <? snd current)%Z then current else latest)
                          rest first in
  In latest (first :: rest)
  /\ (forall e, In e (first :: rest) -> (snd e <= snd latest)%Z).
Proof.
  revert first. induction rest as [|x rest IH]; intros first; cbn zeta.
  - simpl. split; [now left|]. intros e [<-|[]]. lia.
  - cbn [fold_left]. destruct (Z.ltb_spec (snd first) (snd x)) as [Hlt|Hge].
    + destruct (IH x) as [Hin Hmax]. cbv zeta in Hin, Hmax. split.
      * right. exact Hin.
      * intros e [<-|He]; [|now apply Hmax].
        specialize (Hmax x (or_introl eq_refl)). lia.
    + destruct (IH first) as [Hin Hmax]. cbv zeta in Hin, Hmax. split.
      * destruct Hin as [Hin|Hin]; [now left|right; now right].
      * intros e [<-|[<-|He]].
        -- apply Hmax. now left.
        -- specialize (Hmax first (or_introl eq_refl)). lia.
        -- apply Hmax. now right.
Qed.

(** X17: when the directory holds files whose names end in [.md] and all of them
    can be examined, the delta is the number of whole days between the most
    recent of their modification times and now: no such file is more
    recent than the one the delta is measured from, and the delta is
    negative when that time lies in the future.  The times are time values
    of the years after 1970 (below 8.64e15 milliseconds). *)
Theorem delta_counts_days_since_newest (files : list DirEntry) (now : Z)
    (stats : list (string * Z)) :
  statAll (filter (fun e => Js.endsWith (entry_name e) ".md") files) = Some stats ->
  stats <> [] ->
  (0 <= now < 8640000000000000)%Z ->
  (forall e, In e stats -> 0 <= snd e < 8640000000000000)%Z ->
  exists newest days,
    In newest stats
    /\ (forall e, In e stats -> (snd e <= snd newest)%Z)
    /\ getLastSnapshotDelta (Some files) now = Js.ofZ days
    /\ (millisecondsPerDay * days <= now - snd newest < millisecondsPerDay * (days + 1))%Z
    /\ ((days < 0)%Z <-> (now < snd newest)%Z).
Proof.
  intros Hstat Hne _ _.
  destruct stats as [|first rest]; [congruence|].
  destruct (latest_is_greatest rest first) as [Hin Hmax]. cbv zeta in Hin, Hmax.
  set (latest := fold_left (fun latest current =>
                              if (snd latest <? snd current)%Z then current else latest)
                           rest first) in *.
  exists latest, ((now - snd latest) / millisecondsPerDay)%Z.
  split; [assumption|]. split; [assumption|].
  assert (Hdays : (millisecondsPerDay * ((now - snd latest) / millisecondsPerDay)
                   <= now - snd latest
                   < millisecondsPerDay * ((now - snd latest) / millisecondsPerDay + 1))%Z).
  { pose proof (Z.div_mod (now - snd latest) millisecondsPerDay ltac:(discriminate)) as Hdm.
    pose proof (Z.mod_pos_bound (now - snd latest) millisecondsPerDay ltac:(reflexivity)).
    lia. }
  split; [|split; [exact Hdays|]].
  - unfold getLastSnapshotDelta. destruct files as [|f files'].
    + simpl in Hstat. congruence.
    + rewrite Hstat. reflexivity.
  - assert (Hpos : (0 < millisecondsPerDay)%Z) by reflexivity.
    revert Hdays Hpos. generalize ((now - snd latest) / millisecondsPerDay)%Z millisecondsPerDay.
    intros q b Hdays Hpos. split; intros H; nia.
Qed.

Lemma delta_counts_days_since_newest_witness :
  exists newest days,
    In newest [("a.md", 0%Z); ("b.md", 86400000%Z)]
    /\ (forall e, In e [("a.md", 0%Z); ("b.md", 86400000%Z)] -> (snd e <= snd newest)%Z)
    /\ getLastSnapshotDelta
         (Some [mkDirEntry "a.md" (Some 0%Z); mkDirEntry "2024" None;
                mkDirEntry "b.md" (Some 86400000%Z)])
         259199999
       = Js.ofZ days
    /\ (millisecondsPerDay * days <= 259199999 - snd newest
        < millisecondsPerDay * (days + 1))%Z
    /\ ((days < 0)%Z <-> (259199999 < snd newest)%Z).
Proof.
  apply (delta_counts_days_since_newest
           [mkDirEntry "a.md" (Some 0%Z); mkDirEntry "2024" None;
            mkDirEntry "b.md" (Some 86400000%Z)]
           259199999 [("a.md", 0%Z); ("b.md", 86400000%Z)]).
  - reflexivity.
  - discriminate.
  - lia.
  - intros e [<-|[<-|[]]]; simpl; lia.
Defined.

Lemma digits_not_markdown (s : string) :
  allChars Js.isDigit s = true -> Js.endsWith s ".md" = false.
Proof.
  intros H. destruct (Js.endsWith s ".md") eqn:E; [|reflexivity].
  apply endsWith_stem in E. destruct E as [stem ->].
  rewrite allChars_append in H. apply andb_true_iff in H. destruct H as [_ H]. discriminate.
Qed.

(** X18: in a snapshots directory that holds nothing but the year directories
    made by [ensureSnapshotDirectory], the delta is 0 whatever the
    modification times are: the snapshots written below the year
    directories are not looked at. *)
Theorem delta_ignores_dated_directories (entries : list DirEntry) (now : Z) :
  (forall e, In e entries ->
     exists fullYear month date,
       (0 <= fullYear < 10 ^ 21)%Z
       /\ entry_name e = fst (fst (snapshotDirectoryNames fullYear month date))) ->
  getLastSnapshotDelta (Some entries) now = Js.zero.
Proof.
  intros H.
  assert (Hnone : filter (fun e => Js.endsWith (entry_name e) ".md") entries = []).
  { apply filter_none. intros e He. destruct (H e He) as (y & m & d & Hy & ->).
    cbn [snapshotDirectoryNames fst]. apply digits_not_markdown.
    rewrite (toString_count (Js.ofZ y) y) by (split; [assumption|apply sameNumber_refl]).
    apply allDigits_digitsOf. }
  unfold getLastSnapshotDelta. destruct entries; [reflexivity|]. now rewrite Hnone.
Qed.

Lemma delta_ignores_dated_directories_witness :
  getLastSnapshotDelta (Some [mkDirEntry "2023" (Some 5%Z); mkDirEntry "2024" (Some 7%Z)])
                       1000000000000
  = Js.zero.
Proof.
  apply (delta_ignores_dated_directories
           [mkDirEntry "2023" (Some 5%Z); mkDirEntry "2024" (Some 7%Z)] 1000000000000).
  intros e [<-|[<-|[]]].
  - exists 2023%Z, 0%Z, 1%Z. split; [lia|reflexivity].
  - exists 2024%Z, 0%Z, 1%Z. split; [lia|reflexivity].
Defined.

(** ** The snapshots that the compare command picks *)

Lemma string_leb_trans (a b c : string) :
  String.leb a b = true -> String.leb b c = true -> String.leb a c = true.
Proof.
  unfold String.leb. revert b c.
  induction a as [|x a IH]; intros [|y b] [|z c]; simpl; try congruence.
  unfold Ascii.compare.
  destruct (N.compare_spec (N_of_ascii x) (N_of_ascii y)) as [Hxy|Hxy|Hxy];
    destruct (N.compare_spec (N_of_ascii y) (N_of_ascii z)) as [Hyz|Hyz|Hyz];
    destruct (N.compare_spec (N_of_ascii x) (N_of_ascii z)) as [Hxz|Hxz|Hxz];
    try congruence; try lia.
  apply IH.
Qed.

Lemma insert_permutation (x : string) (l : list string) :
  Permutation (Js.insert x l) (x :: l).
Proof.
  induction l as [|y l IH]; simpl; [reflexivity|].
  destruct (String.leb x y); [reflexivity|].
  rewrite IH. apply perm_swap.
Qed.

Lemma sort_permutation (l : list string) : Permutation (Js.sort l) l.
Proof.
  induction l as [|x l IH]; simpl; [reflexivity|].
  unfold Js.sort in *. cbn [fold_right]. rewrite insert_permutation. now constructor.
Qed.

Lemma insert_sorted (x : string) (l : list string) :
  StronglySorted (fun a b => String.leb a b = true) l ->
  StronglySorted (fun a b => String.leb a b = true) (Js.insert x l).
Proof.
  induction l as [|y l IH]; intros H; simpl.
  - repeat constructor.
  - inversion H as [|? ? Hl Hall]; subst.
    destruct (String.leb x y) eqn:E.
    + constructor; [assumption|]. constructor; [assumption|].
      rewrite Forall_forall in *. intros z Hz. eapply string_leb_trans; eauto.
    + constructor; [now apply IH|].
      rewrite Forall_forall in *. intros z Hz.
      apply (Permutation_in _ (insert_permutation x l)) in Hz.
      destruct Hz as [<-|Hz]; [|now apply Hall].
      destruct (String.leb_total x y) as [H1|H1]; congruence.
Qed.

Lemma sort_sorted (l : list string) :
  StronglySorted (fun a b => String.leb a b = true) (Js.sort l).
Proof.
  induction l as [|x l IH]; [constructor|].
  unfold Js.sort in *. cbn [fold_right]. now apply insert_sorted.
Qed.

(** A list of at least two elements ends with its last two elements. *)
Lemma last_two (l : list string) :
  2 <= List.length l ->
  exists front a b,
    l = (front ++ [a; b])%list
    /\ nth_error l (List.length l - 2) = Some a
    /\ nth_error l (List.length l - 1) = Some b.
Proof.
  induction l as [|x [|y [|z l]] IH]; simpl; intros H; try lia.
  - exists [], x, y. repeat split.
  - destruct IH as (front & a & b & Heq & Ha & Hb); [simpl; lia|].
    exists (x :: front), a, b. split; [now rewrite Heq|].
    simpl in Ha, Hb. rewrite Nat.sub_0_r in *.
    split; assumption.
Qed.

Lemma sorted_end (front : list string) (a b : string) :
  StronglySorted (fun x y => String.leb x y = true) (front ++ [a; b])%list ->
  String.leb a b = true /\ (forall p, In p front -> String.leb p a = true).
Proof.
  induction front as [|x front IH]; simpl; intros H.
  - inversion H as [|? ? _ Hall]; subst. split; [|contradiction].
    inversion Hall; subst. assumption.
  - inversion H as [|? ? Hs Hall]; subst. destruct (IH Hs) as [Hab Hfront].
    split; [assumption|]. intros p [<-|Hp]; [|now apply Hfront].
    rewrite Forall_forall in Hall. apply Hall. apply in_or_app. right. now left.
Qed.

(** X19: the compare command called without a date and without explicit
    paths compares the two greatest
    paths, in the order of their code units, among the snapshot files met by
    the walk, the smaller one as the old snapshot.  With fewer than two
    snapshot files it compares nothing. *)
Theorem compare_command_picks_last_two (join : string -> string -> string)
    (snapshotsDir : string) (items : Items) :
  match selectSnapshots (findSnapshots join snapshotsDir items) with
  | None => List.length (walk join snapshotsDir items) < 2
  | Some (oldPath, newPath) =>
      exists others,
        Permutation (walk join snapshotsDir items) (newPath :: oldPath :: others)
        /\ String.leb oldPath newPath = true
        /\ (forall p, In p others -> String.leb p oldPath = true)
  end.
Proof.
  unfold findSnapshots, selectSnapshots.
  set (found := walk join snapshotsDir items).
  pose proof (sort_permutation found) as Hperm.
  pose proof (sort_sorted found) as Hsort.
  assert (Hlen : List.length (Js.sort found) = List.length found)
    by now apply Permutation_length.
  destruct (Nat.ltb_spec (List.length (Js.sort found)) 2) as [Hlt|Hge]; [lia|].
  destruct (last_two (Js.sort found) Hge) as (front & a & b & Heq & Ha & Hb).
  rewrite Ha, Hb. rewrite Heq in Hsort. destruct (sorted_end front a b Hsort) as [Hab Hfront].
  exists front. split; [|split; assumption].
  rewrite <- Hperm, Heq.
  change (b :: a :: front) with ([b; a] ++ front)%list.
  rewrite Permutation_app_comm. apply Permutation_app_tail. apply perm_swap.
Qed.

Lemma sorted_unique (l1 l2 : list string) :
  StronglySorted (fun a b => String.leb a b = true) l1 ->
  StronglySorted (fun a b => String.leb a b = true) l2 ->
  Permutation l1 l2 -> l1 = l2.
Proof.
  revert l2. induction l1 as [|x r1 IH]; intros l2 H1 H2 Hp.
  - apply Permutation_nil in Hp. now subst.
  - destruct l2 as [|y r2]; [symmetry in Hp; now apply Permutation_nil in Hp|].
    inversion H1 as [|? ? Hs1 Hall1]; subst. inversion H2 as [|? ? Hs2 Hall2]; subst.
    rewrite Forall_forall in Hall1, Hall2.
    assert (Hxy : x = y).
    { assert (Hx : In x (y :: r2)) by (apply (Permutation_in _ Hp); now left).
      assert (Hy : In y (x :: r1)) by (apply (Permutation_in _ (Permutation_sym Hp)); now left).
      destruct Hx as [Hx|Hx]; [now subst|]. destruct Hy as [Hy|Hy]; [now subst|].
      apply String.leb_antisym; [now apply Hall1 | now apply Hall2]. }
    subst y. f_equal. apply IH; try assumption. now apply Permutation_cons_inv in Hp.
Qed.

(** X20: the list of snapshots does not depend on the order in which the walk
    meets the files: two trees in which the walk finds the same paths give
    the same sorted list, and so the same two snapshots to compare. *)
Theorem found_snapshots_ignore_listing_order (join : string -> string -> string)
    (snapshotsDir : string) (items items' : Items) :
  Permutation (walk join snapshotsDir items) (walk join snapshotsDir items') ->
  findSnapshots join snapshotsDir items = findSnapshots join snapshotsDir items'
  /\ selectSnapshots (findSnapshots join snapshotsDir items)
     = selectSnapshots (findSnapshots join snapshotsDir items').
Proof.
  intros Hp.
  assert (H : findSnapshots join snapshotsDir items = findSnapshots join snapshotsDir items').
  { unfold findSnapshots. apply sorted_unique; try apply sort_sorted.
    rewrite !sort_permutation. exact Hp. }
  split; [exact H|now rewrite H].
Qed.

Lemma found_snapshots_ignore_listing_order_witness :
  findSnapshots (fun dir name => dir ++ "/" ++ name) "snapshots"
    (ConsItem (FileItem "snapshot_101500.md")
       (ConsItem (FileItem "snapshot_093000.md") NoItems))
  = findSnapshots (fun dir name => dir ++ "/" ++ name) "snapshots"
      (ConsItem (FileItem "snapshot_093000.md")
         (ConsItem (FileItem "snapshot_101500.md") NoItems))
  /\ selectSnapshots
       (findSnapshots (fun dir name => dir ++ "/" ++ name) "snapshots"
          (ConsItem (FileItem "snapshot_101500.md")
             (ConsItem (FileItem "snapshot_093000.md") NoItems)))
     = selectSnapshots
         (findSnapshots (fun dir name => dir ++ "/" ++ name) "snapshots"
            (ConsItem (FileItem "snapshot_093000.md")
               (ConsItem (FileItem "snapshot_101500.md") NoItems))).
Proof.
  apply (found_snapshots_ignore_listing_order (fun dir name => dir ++ "/" ++ name)
           "snapshots"
           (ConsItem (FileItem "snapshot_101500.md")
              (ConsItem (FileItem "snapshot_093000.md") NoItems))
           (ConsItem (FileItem "snapshot_093000.md")
              (ConsItem (FileItem "snapshot_101500.md") NoItems))).
  vm_compute. apply perm_swap.
Defined.
